(** * The AGI economy worker (src/worker/index.js, src/worker/src/index.js)

    A shallow embedding of class [Simulation], of the handlers and of the
    two fetch listeners, followed by their properties.  The class is the
    same in both files, except that [calculateGini] of
    src/worker/src/index.js adds a running sum that it never reads.

    Numbers.  The engine is embedded twice.

    In exact arithmetic a JavaScript number is an extended rational: a
    finite value carried exactly, the two infinities and NaN.  Infinities
    and NaN arise from division by zero and propagate as IEEE 754
    prescribes; the rounding of binary64, overflow and the sign of zero are
    outside this model.  The statements made on it are about the structure
    of the state (counters, flags, ids, types, the history, the service),
    about bounds and special values that rounding keeps, or say in so many
    words that they hold in exact arithmetic.  The constructor of this
    model floors the exact products [n * 0.8] and [n * 0.999]; they have
    the floors of the rounded products for every whole agent count up to
    100000 ([bands_of_whole_counts]).

    In binary64 (module [Binary64]) every number is a binary64 number and
    every operation is the rounded operation of IEEE 754, overflow and the
    sign of zero included.  The statements that turn on rounding, on
    overflow or on the floor of a rounded product are made on this engine.

    Environment.  [Math.exp] and the results of [Math.random()] are
    parameters of the constructor.  A request is embedded by its method,
    its path and the outcome of [request.json()]: the parsed body or the
    message of the error it throws.  A response is embedded by its status,
    its headers and the value that is serialised, not by the text of the
    serialisation. *)

From Stdlib Require Import ZArith QArith Qround Qpower Qabs Lqa Lia List Bool.
From Stdlib Require Import Permutation Sorted Floats.
From Stdlib Require String Ascii.
Import String.StringSyntax.
Delimit Scope string_scope with string.
Import ListNotations.

Set Warnings "-inexact-float".

Open Scope Q_scope.

(** ** JavaScript numbers *)

Module Num.

Inductive num : Type :=
| Fin (q : Q)
| PInf
| NInf
| NaN.

(** The infinity (or NaN) selected by the sign of a finite operand. *)
Definition inf_of (c : comparison) : num :=
  match c with
  | Gt => PInf
  | Lt => NInf
  | Eq => NaN
  end.

Definition add (a b : num) : num :=
  match a, b with
  | NaN, _ | _, NaN => NaN
  | Fin x, Fin y => Fin (x + y)
  | PInf, NInf | NInf, PInf => NaN
  | PInf, _ | _, PInf => PInf
  | NInf, _ | _, NInf => NInf
  end.

Definition neg (a : num) : num :=
  match a with
  | Fin x => Fin (- x)
  | PInf => NInf
  | NInf => PInf
  | NaN => NaN
  end.

Definition sub (a b : num) : num := add a (neg b).

Definition mul (a b : num) : num :=
  match a, b with
  | NaN, _ | _, NaN => NaN
  | Fin x, Fin y => Fin (x * y)
  | Fin x, PInf | PInf, Fin x => inf_of (x ?= 0)
  | Fin x, NInf | NInf, Fin x => inf_of (0 ?= x)
  | PInf, PInf | NInf, NInf => PInf
  | PInf, NInf | NInf, PInf => NInf
  end.

Definition div (a b : num) : num :=
  match a, b with
  | NaN, _ | _, NaN => NaN
  | Fin x, Fin y => if Qeq_bool y 0 then inf_of (x ?= 0) else Fin (x / y)
  | Fin _, (PInf | NInf) => Fin 0
  | PInf, Fin y => if Qle_bool 0 y then PInf else NInf
  | NInf, Fin y => if Qle_bool 0 y then NInf else PInf
  | (PInf | NInf), (PInf | NInf) => NaN
  end.

(** [a < b]; every comparison with NaN is false. *)
Definition ltb (a b : num) : bool :=
  match a, b with
  | NaN, _ | _, NaN => false
  | Fin x, Fin y => match x ?= y with Lt => true | _ => false end
  | _, NInf => false
  | NInf, _ => true
  | PInf, _ => false
  | Fin _, PInf => true
  end.

(** [a > b] *)
Definition gtb (a b : num) : bool := ltb b a.

(** [a === b] on numbers. *)
Definition eqb (a b : num) : bool :=
  match a, b with
  | Fin x, Fin y => Qeq_bool x y
  | PInf, PInf | NInf, NInf => true
  | _, _ => false
  end.

Definition Math_max (a b : num) : num :=
  match a, b with
  | NaN, _ | _, NaN => NaN
  | _, _ => if ltb a b then b else a
  end.

Definition Math_min (a b : num) : num :=
  match a, b with
  | NaN, _ | _, NaN => NaN
  | _, _ => if ltb b a then b else a
  end.

(** The number of an integer, as [array.length] and loop counters are. *)
Definition of_Z (z : Z) : num := Fin (inject_Z z).

(** A finite value within the closed unit interval. *)
Definition in_unit (a : num) : Prop :=
  match a with
  | Fin q => 0 <= q <= 1
  | _ => False
  end.

(** A finite value that is not negative. *)
Definition nonneg (a : num) : Prop :=
  match a with
  | Fin q => 0 <= q
  | _ => False
  end.

(** A finite value above zero. *)
Definition positive (a : num) : Prop :=
  match a with
  | Fin q => 0 < q
  | _ => False
  end.

(** [a] is the finite value [q], up to the representation of the rational. *)
Definition is_value (a : num) (q : Q) : Prop :=
  match a with
  | Fin p => p == q
  | _ => False
  end.

End Num.

Import Num.

Declare Scope num_scope.
Delimit Scope num_scope with num.
Bind Scope num_scope with num.
Infix "+" := add : num_scope.
Infix "-" := sub : num_scope.
Infix "*" := mul : num_scope.
Infix "/" := div : num_scope.
Coercion Fin : Q >-> num.

(** ** Data model *)

Inductive AgentType : Type := worker | capitalist | government.

Inductive Strategy : Type := normal | save | spend | invest | regulate.

Definition AgentType_eqb (s t : AgentType) : bool :=
  match s, t with
  | worker, worker | capitalist, capitalist | government, government => true
  | _, _ => false
  end.

(** An element of [this.agents]. *)
Record Agent : Type := mkAgent {
  id : Z;
  type : AgentType;
  wealth : num;
  income : num;
  happiness : num;
  strategy : Strategy
}.

(** [this.params], once the defaults have been filled in. *)
Record Params : Type := mkParams {
  nAgents : Q;
  agiBoost : Q;
  workerRationality : Q;
  herdEffect : Q;
  ubi : Q;
  computeTax : Q;
  workHours : Q
}.

(** The object handed to the constructor: every recognised key is either
    absent or holds a finite number. *)
Record RawParams : Type := mkRawParams {
  raw_nAgents : option Q;
  raw_agiBoost : option Q;
  raw_workerRationality : option Q;
  raw_herdEffect : option Q;
  raw_ubi : option Q;
  raw_computeTax : option Q;
  raw_workHours : option Q
}.

(** [this.history]: five arrays appended to together. *)
Record History : Type := mkHistory {
  steps : list Z;
  gini : list num;
  velocity : list num;
  workerHappiness : list num;
  capitalistHappiness : list num
}.

Record Simulation : Type := mkSimulation {
  params : Params;
  step : Z;
  agiDeployed : bool;
  agents : list Agent;
  history : History
}.

Definition set_wealth (a : Agent) (w : num) : Agent :=
  mkAgent (id a) (type a) w (income a) (happiness a) (strategy a).

Definition set_income (a : Agent) (i : num) : Agent :=
  mkAgent (id a) (type a) (wealth a) i (happiness a) (strategy a).

Definition set_happiness (a : Agent) (h : num) : Agent :=
  mkAgent (id a) (type a) (wealth a) (income a) h (strategy a).

Definition set_computeTax (p : Params) (t : Q) : Params :=
  mkParams (nAgents p) (agiBoost p) (workerRationality p) (herdEffect p)
           (ubi p) t (workHours p).

Definition with_params (s : Simulation) (p : Params) : Simulation :=
  mkSimulation p (step s) (agiDeployed s) (agents s) (history s).

Definition is_worker (a : Agent) : bool := AgentType_eqb (type a) worker.
Definition is_capitalist (a : Agent) : bool := AgentType_eqb (type a) capitalist.
Definition is_government (a : Agent) : bool := AgentType_eqb (type a) government.

(** [xs.forEach(f)] where [xs] is [this.agents.filter(p)]: the filtered array
    holds the very objects of [this.agents], so the mutation [f] is seen
    through [this.agents], at the positions [p] selects. *)
Definition forEach_where (p : Agent -> bool) (f : Agent -> Agent)
    (l : list Agent) : list Agent :=
  map (fun a => if p a then f a else a) l.

(** [xs.reduce((sum, x) => sum + g(x), 0)] *)
Definition reduce_sum {A : Type} (g : A -> num) (l : list A) : num :=
  fold_left (fun sum x => (sum + g x)%num) l (Fin 0).

Definition length_num {A : Type} (l : list A) : num :=
  of_Z (Z.of_nat (length l)).

(** ** The constructor *)

(** [v || d] for a key that is absent or a finite number: 0 is falsy. *)
Definition or_default (v : option Q) (d : Q) : Q :=
  match v with
  | Some q => if Qeq_bool q 0 then d else q
  | None => d
  end.

(** The effect of the trailing [...params] on one key of the literal: a key
    present in the input replaces the value computed before it. *)
Definition spread (v : option Q) (computed : Q) : Q :=
  match v with
  | Some q => q
  | None => computed
  end.

Definition make_params (raw : RawParams) : Params :=
  {| nAgents := spread (raw_nAgents raw) (or_default (raw_nAgents raw) 1000);
     agiBoost := spread (raw_agiBoost raw) (or_default (raw_agiBoost raw) 5);
     workerRationality :=
       spread (raw_workerRationality raw)
              (or_default (raw_workerRationality raw) 0.4);
     herdEffect := spread (raw_herdEffect raw) (or_default (raw_herdEffect raw) 0.5);
     ubi := spread (raw_ubi raw) (or_default (raw_ubi raw) 0);
     computeTax := spread (raw_computeTax raw) (or_default (raw_computeTax raw) 0);
     workHours := spread (raw_workHours raw) (or_default (raw_workHours raw) 4) |}.

(** Computations that call [Math.random()]: the state is the number of
    draws made so far. *)
Definition Rand (A : Type) : Type := nat -> A * nat.

Definition ret {A : Type} (x : A) : Rand A := fun k => (x, k).

Definition bind {A B : Type} (m : Rand A) (f : A -> Rand B) : Rand B :=
  fun k => let (x, k') := m k in f x k'.

Notation "x <- m ;; f" := (bind m (fun x => f))
  (at level 61, m at next level, right associativity).

Fixpoint mapM {A B : Type} (f : A -> Rand B) (l : list A) : Rand (list B) :=
  match l with
  | [] => ret []
  | x :: rest => y <- f x ;; ys <- mapM f rest ;; ret (y :: ys)
  end.

(** The values [i] takes in [for (let i = lo; i < hi; i++)]. *)
Definition loop_indices (lo : Z) (hi : Q) : list Z :=
  map (fun k => (lo + Z.of_nat k)%Z) (seq 0 (Z.to_nat (Qceiling hi - lo))).

Definition empty_history : History := mkHistory [] [] [] [] [].

Section Engine.

(** [Math.exp] at a finite argument, and the successive results of
    [Math.random()] seen by the constructor. *)
Variable Math_exp : Q -> Q.
Variable draws : nat -> Q.

Definition Math_random : Rand Q := fun k => (draws k, S k).

Definition new_worker (i : Z) : Rand Agent :=
  r1 <- Math_random ;;
  r2 <- Math_random ;;
  ret {| id := i; type := worker;
         wealth := Fin (Math_exp (2 + r1 * 0.5));
         income := Fin (100 + (r2 - 0.5) * 40);
         happiness := Fin 0.6;
         strategy := normal |}.

Definition new_capitalist (i : Z) : Rand Agent :=
  r1 <- Math_random ;;
  r2 <- Math_random ;;
  ret {| id := i; type := capitalist;
         wealth := Fin (Math_exp (6 + r1 * 1.5));
         income := Fin (500 + (r2 - 0.5) * 400);
         happiness := Fin 0.7;
         strategy := invest |}.

Definition new_government (i : Z) : Rand Agent :=
  ret {| id := i; type := government;
         wealth := Fin 1000000;
         income := Fin 0;
         happiness := Fin 0.5;
         strategy := regulate |}.

Definition initAgents (p : Params) : Rand (list Agent) :=
  let n := nAgents p in
  ws <- mapM new_worker (loop_indices 0 (inject_Z (Qfloor (n * 0.8)))) ;;
  cs <- mapM new_capitalist
          (loop_indices (Qfloor (n * 0.8)) (inject_Z (Qfloor (n * 0.999)))) ;;
  gs <- mapM new_government (loop_indices (Qfloor (n * 0.999)) n) ;;
  ret (ws ++ cs ++ gs).

(** [new Simulation(params)] *)
Definition new_Simulation (raw : RawParams) : Simulation :=
  let p := make_params raw in
  {| params := p;
     step := 0;
     agiDeployed := false;
     agents := fst (initAgents p 0%nat);
     history := empty_history |}.

End Engine.

(** ** Metrics *)

(** [wealths.sort((a, b) => a - b)]: [a] stays in front of [b] unless the
    comparator is positive.  The sort is stable; it is written here as an
    insertion sort (the order an engine produces when the comparator is
    inconsistent, as with NaN among the values, is not specified). *)
Definition comes_after (a b : num) : bool := gtb (a - b)%num (Fin 0).

Fixpoint insert (x : num) (l : list num) : list num :=
  match l with
  | [] => [x]
  | y :: rest => if comes_after x y then y :: insert x rest else x :: y :: rest
  end.

Definition sort (l : list num) : list num := fold_right insert [] l.

(** The loop of [calculateGini]: [i] is the index of the head of [ws]. *)
Fixpoint gini_loop (n i : Z) (ws : list num) (gini : num) : num :=
  match ws with
  | [] => gini
  | w :: rest =>
      gini_loop n (i + 1) rest (gini + of_Z (2 * (i + 1) - n - 1) * w)%num
  end.

Definition calculateGini (ags : list Agent) : num :=
  let wealths := sort (map wealth ags) in
  let n := Z.of_nat (length wealths) in
  let sum := reduce_sum (fun w => w) wealths in
  if eqb sum (Fin 0) then Fin 0
  else (gini_loop n 0 wealths (Fin 0) / (of_Z n * sum))%num.

Definition calculateVelocity (ags : list Agent) : num :=
  let totalWealth := reduce_sum wealth ags in
  let totalIncome := reduce_sum income ags in
  if gtb totalWealth (Fin 0) then (totalIncome / totalWealth * Fin 10)%num
  else Fin 0.

(** ** One step *)

(** The [switch] on the strategy, then the clamp of the happiness. *)
Definition strategy_phase (agent : Agent) : Agent :=
  let agent' :=
    match strategy agent with
    | save =>
        let a1 := set_wealth agent (wealth agent + income agent * Fin 0.3)%num in
        set_happiness a1 (Math_max (Fin 0) (happiness a1 - Fin 0.005)%num)
    | spend =>
        if gtb (wealth agent) (Fin 10) then
          let a1 := set_wealth agent (wealth agent * Fin 0.95)%num in
          set_happiness a1 (Math_min (Fin 1) (happiness a1 + Fin 0.01)%num)
        else agent
    | invest =>
        if is_capitalist agent then
          let a1 := set_wealth agent (wealth agent * Fin 1.02)%num in
          set_income a1 (income a1 * Fin 1.002)%num
        else agent
    | normal | regulate => agent
    end in
  set_happiness agent' (Math_max (Fin 0) (Math_min (Fin 1) (happiness agent'))).

(** The UBI paid to one worker. *)
Definition pay_ubi (p : Params) (w : Agent) : Agent :=
  let w1 := set_income w (income w + Fin (ubi p))%num in
  set_happiness w1 (Math_min (Fin 1) (happiness w1 + Fin 0.005)%num).

(** The tax owed by one capitalist. *)
Definition tax_of (p : Params) (c : Agent) : num :=
  let agiSurplus := (income c * (Fin 1 - Fin 1 / Fin (agiBoost p)))%num in
  (agiSurplus * Fin (computeTax p))%num.

Definition pay_tax (p : Params) (c : Agent) : Agent :=
  let c1 := set_income c (income c - tax_of p c)%num in
  set_happiness c1 (Math_max (Fin 0) (happiness c1 - Fin 0.003)%num).

Definition receive (redistribution : num) (w : Agent) : Agent :=
  set_income w (income w + redistribution)%num.

Definition ubi_on (p : Params) : bool := gtb (Fin (ubi p)) (Fin 0).

Definition tax_on (p : Params) (deployed : bool) : bool :=
  gtb (Fin (computeTax p)) (Fin 0) && deployed.

(** The compute tax: every capitalist pays, the revenue is shared between
    the workers. *)
Definition compute_tax (p : Params) (ags : list Agent) : list Agent :=
  let taxRevenue := reduce_sum (tax_of p) (filter is_capitalist ags) in
  let ags1 := forEach_where is_capitalist (pay_tax p) ags in
  let redistribution := (taxRevenue / length_num (filter is_worker ags))%num in
  forEach_where is_worker (receive redistribution) ags1.

Definition policy_phase (p : Params) (deployed : bool) (ags : list Agent)
    : list Agent :=
  if ubi_on p || tax_on p deployed then
    let ags1 := if ubi_on p then forEach_where is_worker (pay_ubi p) ags else ags in
    if tax_on p deployed then compute_tax p ags1 else ags1
  else ags.

Definition record_history (stp : Z) (ags : list Agent) (h : History) : History :=
  let workers := filter is_worker ags in
  let capitalists := filter is_capitalist ags in
  let wh := (reduce_sum happiness workers / length_num workers)%num in
  let ch := (reduce_sum happiness capitalists / length_num capitalists)%num in
  {| steps := steps h ++ [stp];
     gini := gini h ++ [calculateGini ags];
     velocity := velocity h ++ [calculateVelocity ags];
     workerHappiness := workerHappiness h ++ [wh];
     capitalistHappiness := capitalistHappiness h ++ [ch] |}.

Definition runStep (s : Simulation) : Simulation :=
  let step' := (step s + 1)%Z in
  let ags1 := map strategy_phase (agents s) in
  let ags2 := policy_phase (params s) (agiDeployed s) ags1 in
  {| params := params s;
     step := step';
     agiDeployed := agiDeployed s;
     agents := ags2;
     history := if (Z.rem step' 5 =? 0)%Z
                then record_history step' ags2 (history s)
                else history s |}.

(** ** Deployment *)

Definition shock (agiBoost : Q) (agent : Agent) : Agent :=
  if is_capitalist agent then
    let a1 := set_income agent (income agent * Fin agiBoost)%num in
    set_wealth a1 (wealth a1 * Fin 1.5)%num
  else if is_worker agent then
    let a1 := set_income agent (income agent * Fin 0.3)%num in
    set_happiness a1 (happiness a1 * Fin 0.5)%num
  else agent.

(** The method [deployAGI]. *)
Definition deployAGI (s : Simulation) : Simulation :=
  {| params := params s;
     step := step s;
     agiDeployed := true;
     agents := map (shock (agiBoost (params s))) (agents s);
     history := history s |}.

(** The Deploy operation, as [handleStep] performs it when the request
    carries the flag: [if (body.deployAGI && !simulationState.agiDeployed)]. *)
Definition Deploy (s : Simulation) : Simulation :=
  if negb (agiDeployed s) then deployAGI s else s.

Fixpoint runSteps (k : nat) (s : Simulation) : Simulation :=
  match k with
  | O => s
  | S k' => runSteps k' (runStep s)
  end.

(** The body of an Advance request: [steps] is absent or a finite number. *)
Record StepRequest : Type := mkStepRequest {
  req_steps : option Q;
  req_deployAGI : bool
}.

(** The engine part of [handleStep]: [body.steps || 5] steps, then the
    deployment if it is asked for and has not happened. *)
Definition handleStep (body : StepRequest) (s : Simulation) : Simulation :=
  let n := or_default (req_steps body) 5 in
  let s1 := runSteps (Z.to_nat (Qceiling n)) s in
  if req_deployAGI body then Deploy s1 else s1.

(** States reachable through the engine's operations.  [handleStep] only
    calls [deployAGI] behind its flag test; the relation allows every call
    of the method, so it covers all states the service can reach. *)
Inductive reachable (Math_exp : Q -> Q) (draws : nat -> Q) : Simulation -> Prop :=
| reach_new : forall raw, reachable Math_exp draws (new_Simulation Math_exp draws raw)
| reach_step : forall s, reachable Math_exp draws s -> reachable Math_exp draws (runStep s)
| reach_deploy : forall s, reachable Math_exp draws s -> reachable Math_exp draws (deployAGI s).

(** ** Notions used in the statements *)

(** The agents after one step, as one function applied to every agent: the
    strategy phase, then the UBI, the tax and the redistributed revenue,
    each where it applies.  [revenue_share] is the amount every worker
    receives; it is the only value that depends on the other agents. *)
Definition step_agent (p : Params) (deployed : bool) (revenue_share : num)
    (a : Agent) : Agent :=
  let a1 := strategy_phase a in
  let a2 := if ubi_on p && is_worker a1 then pay_ubi p a1 else a1 in
  if tax_on p deployed then
    let a3 := if is_capitalist a2 then pay_tax p a2 else a2 in
    if is_worker a3 then receive revenue_share a3 else a3
  else a2.

Definition after_ubi (p : Params) (ags : list Agent) : list Agent :=
  if ubi_on p then forEach_where is_worker (pay_ubi p) (map strategy_phase ags)
  else map strategy_phase ags.

Definition revenue_share (p : Params) (ags : list Agent) : num :=
  (reduce_sum (tax_of p) (filter is_capitalist (after_ubi p ags))
   / length_num (filter is_worker (after_ubi p ags)))%num.

(** The state [s] with [params.computeTax] set to [t]. *)
Definition with_computeTax (s : Simulation) (t : Q) : Simulation :=
  with_params s (set_computeTax (params s) t).

(** Every agent's happiness is a finite value of the unit interval. *)
Definition happiness_in_range (s : Simulation) : Prop :=
  Forall (fun a => in_unit (happiness a)) (agents s).

(** The strategies the constructor hands out. *)
Definition initial_strategy (st : Strategy) : Prop :=
  match st with
  | normal | invest | regulate => True
  | save | spend => False
  end.

(** A step approximation of the exponential, [2.7 ^ floor x], and a
    sequence of draws in [0, 1): an environment to evaluate the constructor in. *)
Definition exp_steps (x : Q) : Q := (27 # 10) ^ Qfloor x.

Definition sample_draws (k : nat) : Q := 1 # Pos.of_succ_nat (S k).

(** *** Finite wealths in exact arithmetic *)

(** The sum of a list of rationals. *)
Fixpoint total (l : list Q) : Q :=
  match l with
  | [] => 0
  | x :: rest => x + total rest
  end.

(** [x > y], as the comparator of the sort decides it on finite values. *)
Definition Qgtb (x y : Q) : bool :=
  match 0 ?= x - y with
  | Lt => true
  | _ => false
  end.

Fixpoint insertQ (x : Q) (l : list Q) : list Q :=
  match l with
  | [] => [x]
  | y :: rest => if Qgtb x y then y :: insertQ x rest else x :: y :: rest
  end.

Definition sortQ (l : list Q) : list Q := fold_right insertQ [] l.

(** The sum accumulated by the loop of [calculateGini] on finite values. *)
Fixpoint gsum (n i : Z) (ws : list Q) : Q :=
  match ws with
  | [] => 0
  | w :: rest => inject_Z (2 * (i + 1) - n - 1) * w + gsum n (i + 1) rest
  end.

(** ** The engine in binary64 *)

(** First [calculateGini] on the array of wealths, every operation rounded
    as binary64 rounds it. *)
Module Binary64.

Local Open Scope float_scope.

Definition comes_after (a b : float) : bool := PrimFloat.ltb 0 (a - b).

Fixpoint insert (x : float) (l : list float) : list float :=
  match l with
  | [] => [x]
  | y :: rest => if comes_after x y then y :: insert x rest else x :: y :: rest
  end.

Definition sort (l : list float) : list float := fold_right insert [] l.

Fixpoint gini_loop (n i : float) (ws : list float) (gini : float) : float :=
  match ws with
  | [] => gini
  | w :: rest => gini_loop n (i + 1) rest (gini + (2 * (i + 1) - n - 1) * w)
  end.

Definition length_float (l : list float) : float :=
  PrimFloat.of_uint63 (Uint63.of_Z (Z.of_nat (length l))).

Definition calculateGini (agent_wealths : list float) : float :=
  let wealths := sort agent_wealths in
  let n := length_float wealths in
  let sum := fold_left PrimFloat.add wealths 0 in
  if PrimFloat.eqb sum 0 then 0
  else gini_loop n 0 wealths 0 / (n * sum).

(** Then the class, with every number a binary64 number and every
    operation rounded as IEEE 754 prescribes, overflow to an infinity and
    the sign of zero included.  Ids, loop counters and the step counter
    hold whole numbers; they are kept as integers, which they are exactly
    as long as they stay below 2^53. *)

Record Agent : Type := mkAgent {
  id : Z;
  type : AgentType;
  wealth : float;
  income : float;
  happiness : float;
  strategy : Strategy
}.

Record Params : Type := mkParams {
  nAgents : float;
  agiBoost : float;
  workerRationality : float;
  herdEffect : float;
  ubi : float;
  computeTax : float;
  workHours : float
}.

(** The object handed to the constructor: every recognised key is either
    absent or holds a number. *)
Record RawParams : Type := mkRawParams {
  raw_nAgents : option float;
  raw_agiBoost : option float;
  raw_workerRationality : option float;
  raw_herdEffect : option float;
  raw_ubi : option float;
  raw_computeTax : option float;
  raw_workHours : option float
}.

Record History : Type := mkHistory {
  steps : list Z;
  gini : list float;
  velocity : list float;
  workerHappiness : list float;
  capitalistHappiness : list float
}.

Record Simulation : Type := mkSimulation {
  params : Params;
  step : Z;
  agiDeployed : bool;
  agents : list Agent;
  history : History
}.

Definition set_wealth (a : Agent) (w : float) : Agent :=
  mkAgent (id a) (type a) w (income a) (happiness a) (strategy a).

Definition set_income (a : Agent) (i : float) : Agent :=
  mkAgent (id a) (type a) (wealth a) i (happiness a) (strategy a).

Definition set_happiness (a : Agent) (h : float) : Agent :=
  mkAgent (id a) (type a) (wealth a) (income a) h (strategy a).

Definition is_worker (a : Agent) : bool := AgentType_eqb (type a) worker.
Definition is_capitalist (a : Agent) : bool := AgentType_eqb (type a) capitalist.
Definition is_government (a : Agent) : bool := AgentType_eqb (type a) government.

Definition forEach_where (p : Agent -> bool) (f : Agent -> Agent)
    (l : list Agent) : list Agent :=
  map (fun a => if p a then f a else a) l.

(** [xs.reduce((sum, x) => sum + g(x), 0)] *)
Definition reduce_sum {A : Type} (g : A -> float) (l : list A) : float :=
  fold_left (fun sum x => sum + g x) l 0.

(** [xs.length] as a number. *)
Definition length_of {A : Type} (l : list A) : float :=
  PrimFloat.of_uint63 (Uint63.of_Z (Z.of_nat (length l))).

(** [Math.max] and [Math.min] of two numbers: NaN if either is NaN, and of
    two zeros the positive one for [max], the negative one for [min]. *)
Definition Math_max (a b : float) : float :=
  if PrimFloat.is_nan a || PrimFloat.is_nan b then nan
  else if a <? b then b
  else if b <? a then a
  else if a =? 0 then a + b
  else a.

Definition Math_min (a b : float) : float :=
  if PrimFloat.is_nan a || PrimFloat.is_nan b then nan
  else if a <? b then a
  else if b <? a then b
  else if a =? 0 then - (- a + - b)
  else a.

(** [Math.floor] of a finite number, and the least whole number that is
    not below it: a finite binary64 number is [m * 2 ^ e] for whole [m]
    and [e], and shifting rounds towards minus infinity. *)
Definition Math_floor (x : float) : option Z :=
  match Prim2SF x with
  | S754_zero _ => Some 0%Z
  | S754_finite s m e => Some (Z.shiftl (cond_Zopp s (Zpos m)) e)
  | _ => None
  end.

Definition ceiling (x : float) : option Z :=
  match Prim2SF x with
  | S754_zero _ => Some 0%Z
  | S754_finite s m e => Some (- Z.shiftl (cond_Zopp (negb s) (Zpos m)) e)%Z
  | _ => None
  end.

(** The value of a finite number, exactly. *)
Definition to_Q (x : float) : option Q :=
  match Prim2SF x with
  | S754_zero _ => Some 0%Q
  | S754_finite s m e => Some (inject_Z (cond_Zopp s (Zpos m)) * 2 ^ e)%Q
  | _ => None
  end.

(** [v || d]: 0, -0 and NaN are falsy. *)
Definition or_default (v : option float) (d : float) : float :=
  match v with
  | Some q => if (q =? 0) || PrimFloat.is_nan q then d else q
  | None => d
  end.

Definition spread (v : option float) (computed : float) : float :=
  match v with
  | Some q => q
  | None => computed
  end.

Definition make_params (raw : RawParams) : Params :=
  {| nAgents := spread (raw_nAgents raw) (or_default (raw_nAgents raw) 1000);
     agiBoost := spread (raw_agiBoost raw) (or_default (raw_agiBoost raw) 5);
     workerRationality :=
       spread (raw_workerRationality raw)
              (or_default (raw_workerRationality raw) 0.4);
     herdEffect := spread (raw_herdEffect raw) (or_default (raw_herdEffect raw) 0.5);
     ubi := spread (raw_ubi raw) (or_default (raw_ubi raw) 0);
     computeTax := spread (raw_computeTax raw) (or_default (raw_computeTax raw) 0);
     workHours := spread (raw_workHours raw) (or_default (raw_workHours raw) 4) |}.

Definition empty_history : History := mkHistory [] [] [] [] [].

Section Engine.

(** [Math.exp] and the successive results of [Math.random()]. *)
Variable Math_exp : float -> float.
Variable draws : nat -> float.

Definition Math_random : Rand float := fun k => (draws k, S k).

Definition new_worker (i : Z) : Rand Agent :=
  r1 <- Math_random ;;
  r2 <- Math_random ;;
  ret {| id := i; type := worker;
         wealth := Math_exp (2 + r1 * 0.5);
         income := 100 + (r2 - 0.5) * 40;
         happiness := 0.6;
         strategy := normal |}.

Definition new_capitalist (i : Z) : Rand Agent :=
  r1 <- Math_random ;;
  r2 <- Math_random ;;
  ret {| id := i; type := capitalist;
         wealth := Math_exp (6 + r1 * 1.5);
         income := 500 + (r2 - 0.5) * 400;
         happiness := 0.7;
         strategy := invest |}.

Definition new_government (i : Z) : Rand Agent :=
  ret {| id := i; type := government;
         wealth := 1000000;
         income := 0;
         happiness := 0.5;
         strategy := regulate |}.

(** The three loops.  Their bounds are whole numbers when [n] is finite.
    When [n] is NaN or minus infinity no loop test succeeds and the
    population is empty; with plus infinity the constructor does not
    return, which this function does not show. *)
Definition initAgents (p : Params) : Rand (list Agent) :=
  let n := nAgents p in
  match Math_floor (n * 0.8), Math_floor (n * 0.999), ceiling n with
  | Some workers_end, Some capitalists_end, Some agents_end =>
      ws <- mapM new_worker (loop_indices 0 (inject_Z workers_end)) ;;
      cs <- mapM new_capitalist
              (loop_indices workers_end (inject_Z capitalists_end)) ;;
      gs <- mapM new_government
              (loop_indices capitalists_end (inject_Z agents_end)) ;;
      ret (ws ++ cs ++ gs)
  | _, _, _ => ret []
  end.

(** [new Simulation(params)] *)
Definition new_Simulation (raw : RawParams) : Simulation :=
  let p := make_params raw in
  {| params := p;
     step := 0;
     agiDeployed := false;
     agents := fst (initAgents p 0%nat);
     history := empty_history |}.

End Engine.

Definition calculateVelocity (ags : list Agent) : float :=
  let totalWealth := reduce_sum wealth ags in
  let totalIncome := reduce_sum income ags in
  if 0 <? totalWealth then totalIncome / totalWealth * 10 else 0.

(** The [switch] on the strategy, then the clamp of the happiness. *)
Definition strategy_phase (agent : Agent) : Agent :=
  let agent' :=
    match strategy agent with
    | save =>
        let a1 := set_wealth agent (wealth agent + income agent * 0.3) in
        set_happiness a1 (Math_max 0 (happiness a1 - 0.005))
    | spend =>
        if 10 <? wealth agent then
          let a1 := set_wealth agent (wealth agent * 0.95) in
          set_happiness a1 (Math_min 1 (happiness a1 + 0.01))
        else agent
    | invest =>
        if is_capitalist agent then
          let a1 := set_wealth agent (wealth agent * 1.02) in
          set_income a1 (income a1 * 1.002)
        else agent
    | normal | regulate => agent
    end in
  set_happiness agent' (Math_max 0 (Math_min 1 (happiness agent'))).

Definition pay_ubi (p : Params) (w : Agent) : Agent :=
  let w1 := set_income w (income w + ubi p) in
  set_happiness w1 (Math_min 1 (happiness w1 + 0.005)).

Definition tax_of (p : Params) (c : Agent) : float :=
  let agiSurplus := income c * (1 - 1 / agiBoost p) in
  agiSurplus * computeTax p.

Definition pay_tax (p : Params) (c : Agent) : Agent :=
  let c1 := set_income c (income c - tax_of p c) in
  set_happiness c1 (Math_max 0 (happiness c1 - 0.003)).

Definition receive (redistribution : float) (w : Agent) : Agent :=
  set_income w (income w + redistribution).

Definition ubi_on (p : Params) : bool := 0 <? ubi p.

Definition tax_on (p : Params) (deployed : bool) : bool :=
  (0 <? computeTax p) && deployed.

Definition compute_tax (p : Params) (ags : list Agent) : list Agent :=
  let taxRevenue := reduce_sum (tax_of p) (filter is_capitalist ags) in
  let ags1 := forEach_where is_capitalist (pay_tax p) ags in
  let redistribution := taxRevenue / length_of (filter is_worker ags) in
  forEach_where is_worker (receive redistribution) ags1.

Definition policy_phase (p : Params) (deployed : bool) (ags : list Agent)
    : list Agent :=
  if ubi_on p || tax_on p deployed then
    let ags1 := if ubi_on p then forEach_where is_worker (pay_ubi p) ags else ags in
    if tax_on p deployed then compute_tax p ags1 else ags1
  else ags.

Definition record_history (stp : Z) (ags : list Agent) (h : History) : History :=
  let workers := filter is_worker ags in
  let capitalists := filter is_capitalist ags in
  let wh := reduce_sum happiness workers / length_of workers in
  let ch := reduce_sum happiness capitalists / length_of capitalists in
  {| steps := steps h ++ [stp];
     gini := gini h ++ [calculateGini (map wealth ags)];
     velocity := velocity h ++ [calculateVelocity ags];
     workerHappiness := workerHappiness h ++ [wh];
     capitalistHappiness := capitalistHappiness h ++ [ch] |}.

Definition runStep (s : Simulation) : Simulation :=
  let step' := (step s + 1)%Z in
  let ags1 := map strategy_phase (agents s) in
  let ags2 := policy_phase (params s) (agiDeployed s) ags1 in
  {| params := params s;
     step := step';
     agiDeployed := agiDeployed s;
     agents := ags2;
     history := if (Z.rem step' 5 =? 0)%Z
                then record_history step' ags2 (history s)
                else history s |}.

Definition shock (agiBoost : float) (agent : Agent) : Agent :=
  if is_capitalist agent then
    let a1 := set_income agent (income agent * agiBoost) in
    set_wealth a1 (wealth a1 * 1.5)
  else if is_worker agent then
    let a1 := set_income agent (income agent * 0.3) in
    set_happiness a1 (happiness a1 * 0.5)
  else agent.

Definition deployAGI (s : Simulation) : Simulation :=
  {| params := params s;
     step := step s;
     agiDeployed := true;
     agents := map (shock (agiBoost (params s))) (agents s);
     history := history s |}.

Definition Deploy (s : Simulation) : Simulation :=
  if negb (agiDeployed s) then deployAGI s else s.

Fixpoint runSteps (k : nat) (s : Simulation) : Simulation :=
  match k with
  | O => s
  | S k' => runSteps k' (runStep s)
  end.

(** The body of an Advance request. *)
Record StepRequest : Type := mkStepRequest {
  req_steps : option float;
  req_deployAGI : bool
}.

(** The number of rounds of [for (let i = 0; i < steps; i++)] for a finite
    [steps]; the loop has no round when [steps] is minus infinity (and
    does not end when it is plus infinity). *)
Definition rounds (steps : float) : nat :=
  match ceiling steps with
  | Some c => Z.to_nat c
  | None => O
  end.

(** The engine part of [handleStep]. *)
Definition handleStep (body : StepRequest) (s : Simulation) : Simulation :=
  let steps := or_default (req_steps body) 5 in
  let s1 := runSteps (rounds steps) s in
  if req_deployAGI body then Deploy s1 else s1.

Inductive reachable (Math_exp : float -> float) (draws : nat -> float)
    : Simulation -> Prop :=
| reach_new : forall raw, reachable Math_exp draws (new_Simulation Math_exp draws raw)
| reach_step : forall s, reachable Math_exp draws s -> reachable Math_exp draws (runStep s)
| reach_deploy : forall s, reachable Math_exp draws s -> reachable Math_exp draws (deployAGI s).

End Binary64.

(** *** Notions on binary64 numbers *)

(** The sign of a rounded value is the sign that was handed in. *)
Definition has_sign (sx : bool) (x : spec_float) : Prop :=
  match x with
  | S754_nan => False
  | S754_zero s | S754_infinity s | S754_finite s _ _ => s = sx
  end.

(** A number that is not negative: a zero of either sign, a positive
    finite number or plus infinity. *)
Definition SFnonneg (x : spec_float) : Prop :=
  match x with
  | S754_zero _ | S754_infinity false | S754_finite false _ _ => True
  | _ => False
  end.

Definition SFzero (x : spec_float) : Prop :=
  match x with
  | S754_zero _ => True
  | _ => False
  end.

(** [w >= 0]: false of NaN and of every number below zero, true of plus
    infinity. *)
Definition not_negative (w : float) : Prop := (0 <=? w)%float = true.

(** [w === 0] *)
Definition is_zero (w : float) : Prop := (w =? 0)%float = true.

(** An agent of the binary64 engine whose wealth is not negative and whose
    strategy is one the constructor hands out. *)
Definition sound_agent (a : Binary64.Agent) : Prop :=
  not_negative (Binary64.wealth a) /\ initial_strategy (Binary64.strategy a).

Definition sound (s : Binary64.Simulation) : Prop :=
  Forall sound_agent (Binary64.agents s).

(** The environment above in binary64: a step function for the
    exponential and draws in [0, 1). *)
Definition exp_steps64 (x : float) : float :=
  if (x <? 3)%float then 7.5%float
  else if (x <? 7)%float then 400%float
  else 1100%float.

Definition sample_draws64 (k : nat) : float :=
  (1 / PrimFloat.of_uint63 (Uint63.of_Z (Z.of_nat (S (S k)))))%float.

(** The income of a worker after [k] payments of [ubi]: one rounded
    addition per step. *)
Definition paid (ubi : float) (k : nat) (income : float) : float :=
  Nat.iter k (fun x => (x + ubi)%float) income.

(** A step of the binary64 engine on one agent while the tax does not
    run: the strategy phase, then the UBI if it is on and the agent is a
    worker. *)
Definition step_untaxed (p : Binary64.Params) (a : Binary64.Agent) : Binary64.Agent :=
  let a1 := Binary64.strategy_phase a in
  if Binary64.ubi_on p && Binary64.is_worker a1 then Binary64.pay_ubi p a1 else a1.

(** Whether the bounds of the three loops, as the binary64 constructor
    computes them for the whole agent count [k], are the floors of the exact
    products [4k/5] and [999k/1000], and [k] itself. *)
Definition bands_at (k : Z) : bool :=
  let n := PrimFloat.of_uint63 (Uint63.of_Z k) in
  match Binary64.Math_floor (n * 0.8)%float,
        Binary64.Math_floor (n * 0.999)%float,
        Binary64.ceiling n with
  | Some b1, Some b2, Some top =>
      (b1 =? 4 * k / 5)%Z && (b2 =? 999 * k / 1000)%Z && (top =? k)%Z
  | _, _, _ => false
  end.

(** ** The rest of the engine and the service around it *)

(** *** Statistics and events *)

(** The object [getStats] returns. *)
Module Stats.

Record t : Type := mk {
  step : Z;
  gini : num;
  velocity : num;
  workerHappiness : num;
  capitalistHappiness : num;
  agiDeployed : bool;
  workerCount : Z;
  capitalistCount : Z;
  avgWorkerWealth : num;
  avgCapitalistWealth : num
}.

End Stats.

Definition getStats (s : Simulation) : Stats.t :=
  let workers := filter is_worker (agents s) in
  let capitalists := filter is_capitalist (agents s) in
  {| Stats.step := step s;
     Stats.gini := calculateGini (agents s);
     Stats.velocity := calculateVelocity (agents s);
     Stats.workerHappiness := (reduce_sum happiness workers / length_num workers)%num;
     Stats.capitalistHappiness :=
       (reduce_sum happiness capitalists / length_num capitalists)%num;
     Stats.agiDeployed := agiDeployed s;
     Stats.workerCount := Z.of_nat (length workers);
     Stats.capitalistCount := Z.of_nat (length capitalists);
     Stats.avgWorkerWealth := (reduce_sum wealth workers / length_num workers)%num;
     Stats.avgCapitalistWealth :=
       (reduce_sum wealth capitalists / length_num capitalists)%num |}.

Inductive EventType : Type := warning | success.

(** An element of the [events] array of [handleStep]. *)
Module Event.

Record t : Type := mk {
  type : EventType;
  message : String.string
}.

End Event.

Definition inequality_warning : Event.t :=
  Event.mk warning "基尼系数超过0.7，经济不平等严重！"%string.

Definition velocity_warning : Event.t :=
  Event.mk warning "货币流通速度过低，消费濒临停滞！"%string.

Definition steady_state : Event.t :=
  Event.mk success "系统达到稳态"%string.

(** The three threshold tests of [handleStep], in their order. *)
Definition events_of (stats : Stats.t) (deployed : bool) : list Event.t :=
  (if gtb (Stats.gini stats) (Fin 0.7) then [inequality_warning] else [])
  ++ (if ltb (Stats.velocity stats) (Fin 0.5) then [velocity_warning] else [])
  ++ (if ltb (Stats.gini stats) (Fin 0.5) && gtb (Stats.velocity stats) (Fin 1.5)
         && deployed
      then [steady_state] else []).

(** *** Notions used in the further statements *)

(** The steps at which the first [m] samples are taken: 5, 10, ..., 5m. *)
Definition sample_steps (m : nat) : list Z :=
  map (fun j => (5 * (Z.of_nat j + 1))%Z) (seq 0 m).

(** The five history sequences hold one entry per multiple of five reached
    by the step counter. *)
Definition history_aligned (s : Simulation) : Prop :=
  (0 <= step s)%Z
  /\ steps (history s) = sample_steps (Z.to_nat (step s / 5))
  /\ length (gini (history s)) = Z.to_nat (step s / 5)
  /\ length (velocity (history s)) = Z.to_nat (step s / 5)
  /\ length (workerHappiness (history s)) = Z.to_nat (step s / 5)
  /\ length (capitalistHappiness (history s)) = Z.to_nat (step s / 5).

(** The strategy the constructor gives to each type of agent. *)
Definition strategy_of_type (t : AgentType) : Strategy :=
  match t with
  | worker => normal
  | capitalist => invest
  | government => regulate
  end.

Definition banded (a : Agent) : Prop := strategy a = strategy_of_type (type a).

(** An agent as the constructor and the operations leave it: the strategy
    of its type and a finite non-negative wealth. *)
Definition regular (a : Agent) : Prop := banded a /\ nonneg (wealth a).

(** The wealth of [a'] continues that of [a]: kept if [a] is no capitalist,
    not smaller if it is one. *)
Definition wealth_continues (a a' : Agent) : Prop :=
  type a' = type a /\ strategy a' = strategy a
  /\ (is_capitalist a = false -> wealth a' = wealth a)
  /\ (is_capitalist a = true ->
      exists w w', wealth a = Fin w /\ wealth a' = Fin w' /\ 0 <= w <= w').

(** The state the constructor gives a government agent. *)
Definition untouched_government (a : Agent) : Prop :=
  is_government a = true ->
  wealth a = Fin 1000000 /\ income a = Fin 0 /\ happiness a = Fin 0.5
  /\ strategy a = regulate.

(** The sum of the distances of [x] from the values of [l], and the sum of
    the distances of all ordered pairs of values of [l]. *)
Definition distances_from (x : Q) (l : list Q) : Q :=
  total (map (fun y => Qabs (x - y)) l).

Definition pairwise_distance (l : list Q) : Q :=
  total (map (fun x => distances_from x l) l).

(** [f] holds of 0, 1, ..., [bound] - 1. *)
Definition holds_below (f : Z -> bool) (bound : N) : bool :=
  snd (N.iter bound (fun st => ((fst st + 1)%Z, snd st && f (fst st))) (0%Z, true)).

(** *** The service (Service Worker format, src/worker/index.js) *)

Definition Headers : Type := list (String.string * String.string).

(** The object handed to [JSON.stringify], or the text or [null] handed to
    [Response]; the serialisation itself is not modelled. *)
Inductive Payload : Type :=
| NoBody
| Text (text : String.string)
| ErrorReply (error : String.string)
| SimulateReply (success : bool) (message : String.string)
                (stats : Stats.t) (history : History)
| StepReply (success : bool) (stats : Stats.t) (history : History)
            (events : list Event.t)
| HistoryReply (history : History)
| ResetReply (success : bool) (message : String.string).

(** A response: its status, the headers the code passes, its body. *)
Record Response : Type := mkResponse {
  status : Z;
  headers : Headers;
  body : Payload
}.

(** What the handlers read of a parsed request body: the keys of the
    constructor's parameters and those of an Advance request.  The body is
    taken to be an object; a key that is present holds a finite number
    ([deployAGI]: a value read for its truth). *)
Record Body : Type := mkBody {
  params_of : RawParams;
  request_of : StepRequest
}.

(** A request: method, path, and the outcome of [request.json()], which
    either rejects with an error of some message or yields the body. *)
Record Request : Type := mkRequest {
  method : String.string;
  pathname : String.string;
  json : String.string + Body
}.

(** The global [simulationState], together with the number of values
    [Math.random()] has handed out so far. *)
Record Service : Type := mkService {
  simulationState : option Simulation;
  drawn : nat
}.

Definition newline : String.string :=
  String.String (Ascii.ascii_of_nat 10) String.EmptyString.

Module Worker.

Local Open Scope string_scope.

Definition getCORSHeaders : Headers :=
  [ ("Access-Control-Allow-Origin", "*");
    ("Access-Control-Allow-Methods", "GET, POST, OPTIONS");
    ("Access-Control-Allow-Headers", "Content-Type");
    ("Content-Type", "application/json") ]%string.

Definition jsonResponse (data : Payload) (status : Z) : Response :=
  {| status := status; headers := getCORSHeaders; body := data |}.

(** [new Simulation(body)] at the current position of the random stream,
    and the position after it. *)
Definition construct (Math_exp : Q -> Q) (draws : nat -> Q) (raw : RawParams)
    (position : nat) : Simulation * nat :=
  let stream := fun k => draws (position + k)%nat in
  (new_Simulation Math_exp stream raw,
   (position + snd (initAgents Math_exp stream (make_params raw) 0%nat))%nat).

Definition handleSimulate (Math_exp : Q -> Q) (draws : nat -> Q)
    (request : Request) (sv : Service) : Response * Service :=
  match json request with
  | inr body =>
      let (sim, position) := construct Math_exp draws (params_of body) (drawn sv) in
      (jsonResponse
         (SimulateReply true "Simulation initialized" (getStats sim) (history sim)) 200,
       {| simulationState := Some sim; drawn := position |})
  | inl message => (jsonResponse (ErrorReply message) 400, sv)
  end.

Definition handleStep (request : Request) (sv : Service) : Response * Service :=
  match simulationState sv with
  | None => (jsonResponse (ErrorReply "No simulation running") 400, sv)
  | Some sim =>
      match json request with
      | inr body =>
          let sim' := handleStep (request_of body) sim in
          let stats := getStats sim' in
          let events := events_of stats (agiDeployed sim') in
          (jsonResponse (StepReply true stats (history sim') events) 200,
           {| simulationState := Some sim'; drawn := drawn sv |})
      | inl message => (jsonResponse (ErrorReply message) 400, sv)
      end
  end.

Definition handleHistory (sv : Service) : Response :=
  match simulationState sv with
  | None => jsonResponse (HistoryReply (mkHistory [] [] [] [] [])) 200
  | Some sim => jsonResponse (HistoryReply (history sim)) 200
  end.

Definition handleReset (sv : Service) : Response * Service :=
  (jsonResponse (ResetReply true "Simulation reset") 200,
   {| simulationState := None; drawn := drawn sv |}).

Definition index_text : String.string :=
  String.concat newline
    [ "AGI Economy Simulator API"; ""; "Endpoints:";
      "- POST /api/simulate - 初始化模拟";
      "- POST /api/step - 运行步骤";
      "- GET /api/history - 获取历史";
      "- POST /api/reset - 重置模拟" ]%string.

(** The listener of the [fetch] event. *)
Definition fetch (Math_exp : Q -> Q) (draws : nat -> Q)
    (request : Request) (sv : Service) : Response * Service :=
  if String.eqb (method request) "OPTIONS" then
    ({| status := 200; headers := getCORSHeaders; body := NoBody |}, sv)
  else if String.eqb (pathname request) "/api/simulate"
          && String.eqb (method request) "POST" then
    handleSimulate Math_exp draws request sv
  else if String.eqb (pathname request) "/api/step"
          && String.eqb (method request) "POST" then
    handleStep request sv
  else if String.eqb (pathname request) "/api/history" then
    (handleHistory sv, sv)
  else if String.eqb (pathname request) "/api/reset"
          && String.eqb (method request) "POST" then
    handleReset sv
  else if String.eqb (pathname request) "/" then
    ({| status := 200; headers := [("Content-Type", "text/plain")]%string;
        body := Text index_text |}, sv)
  else
    ({| status := 404; headers := []; body := Text "Not found" |}, sv).

(** The service after a sequence of requests, and the responses given. *)
Fixpoint serve (Math_exp : Q -> Q) (draws : nat -> Q)
    (requests : list Request) (sv : Service) : list Response * Service :=
  match requests with
  | [] => ([], sv)
  | r :: rest =>
      let (response, sv1) := fetch Math_exp draws r sv in
      let (responses, sv2) := serve Math_exp draws rest sv1 in
      (response :: responses, sv2)
  end.

(** The service when the script is loaded: [let simulationState = null]. *)
Definition initial : Service := {| simulationState := None; drawn := 0 |}.

End Worker.

(** The history inside a reply, with the step counter that comes with it
    when the reply has statistics. *)
Definition reply_history (p : Payload) : option (option Z * History) :=
  match p with
  | SimulateReply _ _ stats h => Some (Some (Stats.step stats), h)
  | StepReply _ stats h _ => Some (Some (Stats.step stats), h)
  | HistoryReply h => Some (None, h)
  | _ => None
  end.

(** The five sequences of [h] hold [m] entries each, taken at the steps
    5, 10, ..., 5m. *)
Definition holds_samples (m : nat) (h : History) : Prop :=
  steps h = sample_steps m
  /\ length (gini h) = m
  /\ length (velocity h) = m
  /\ length (workerHappiness h) = m
  /\ length (capitalistHappiness h) = m.

Definition well_sampled (reply : option Z * History) : Prop :=
  match reply with
  | (Some stp, h) => (0 <= stp)%Z /\ holds_samples (Z.to_nat (stp / 5)) h
  | (None, h) => holds_samples (length (steps h)) h
  end.

(** The branch of the listener a request takes. *)
Inductive Route : Type :=
| Preflight | ToSimulate | ToStep | ToHistory | ToReset | Index | NotFound.

Definition route (request : Request) : Route :=
  if String.eqb (method request) "OPTIONS"%string then Preflight
  else if String.eqb (pathname request) "/api/simulate"%string
          && String.eqb (method request) "POST"%string then ToSimulate
  else if String.eqb (pathname request) "/api/step"%string
          && String.eqb (method request) "POST"%string then ToStep
  else if String.eqb (pathname request) "/api/history"%string then ToHistory
  else if String.eqb (pathname request) "/api/reset"%string
          && String.eqb (method request) "POST"%string then ToReset
  else if String.eqb (pathname request) "/"%string then Index
  else NotFound.

(** The simulation the service holds, if any, has an aligned history. *)
Definition holds_aligned (sv : Service) : Prop :=
  forall sim, simulationState sv = Some sim -> history_aligned sim.

Definition reply_is_well_sampled (response : Response) : Prop :=
  forall reply, reply_history (body response) = Some reply -> well_sampled reply.

(** *** The service in ES module format (src/worker/src/index.js) *)

(** The second file holds the same engine behind another listener: it
    looks at the path only, reads an unparsable body as the empty object
    and answers every other path with its index text. *)
Module ModuleWorker.

Local Open Scope string_scope.

Definition corsHeaders : Headers :=
  [ ("Access-Control-Allow-Origin", "*");
    ("Access-Control-Allow-Methods", "GET, POST, OPTIONS");
    ("Access-Control-Allow-Headers", "Content-Type") ].

(** [Response.json(data, { status, headers: corsHeaders })] *)
Definition Response_json (data : Payload) (status : Z) : Response :=
  {| status := status; headers := corsHeaders; body := data |}.

(** The object [{}]: no key is present. *)
Definition empty_object : Body :=
  mkBody (mkRawParams None None None None None None None) (mkStepRequest None false).

(** [await request.json().catch(() => ({}))] *)
Definition json_or_empty (request : Request) : Body :=
  match json request with
  | inr body => body
  | inl _ => empty_object
  end.

Definition handleSimulate (Math_exp : Q -> Q) (draws : nat -> Q)
    (request : Request) (sv : Service) : Response * Service :=
  let body := json_or_empty request in
  let (sim, position) := Worker.construct Math_exp draws (params_of body) (drawn sv) in
  (Response_json
     (SimulateReply true "Simulation initialized" (getStats sim) (history sim)) 200,
   {| simulationState := Some sim; drawn := position |}).

Definition handleStep (request : Request) (sv : Service) : Response * Service :=
  match simulationState sv with
  | None => (Response_json (ErrorReply "No simulation running") 400, sv)
  | Some sim =>
      let body := json_or_empty request in
      let sim' := handleStep (request_of body) sim in
      let stats := getStats sim' in
      let events := events_of stats (agiDeployed sim') in
      (Response_json (StepReply true stats (history sim') events) 200,
       {| simulationState := Some sim'; drawn := drawn sv |})
  end.

Definition handleHistory (sv : Service) : Response :=
  match simulationState sv with
  | None => Response_json (HistoryReply (mkHistory [] [] [] [] [])) 200
  | Some sim => Response_json (HistoryReply (history sim)) 200
  end.

Definition handleReset (sv : Service) : Response * Service :=
  (Response_json (ResetReply true "Simulation reset") 200,
   {| simulationState := None; drawn := drawn sv |}).

Definition index_text : String.string :=
  String.concat newline
    [ "AGI Economy Simulator API";
      "Endpoints: /api/simulate, /api/step, /api/history, /api/reset" ].

Definition fetch (Math_exp : Q -> Q) (draws : nat -> Q)
    (request : Request) (sv : Service) : Response * Service :=
  if String.eqb (method request) "OPTIONS" then
    ({| status := 200; headers := corsHeaders; body := NoBody |}, sv)
  else if String.eqb (pathname request) "/api/simulate" then
    handleSimulate Math_exp draws request sv
  else if String.eqb (pathname request) "/api/step" then
    handleStep request sv
  else if String.eqb (pathname request) "/api/history" then
    (handleHistory sv, sv)
  else if String.eqb (pathname request) "/api/reset" then
    handleReset sv
  else
    ({| status := 200; headers := corsHeaders; body := Text index_text |}, sv).

End ModuleWorker.

(** The income of an agent as a rational, 0 if it is not finite. *)
Definition income_value (a : Agent) : Q :=
  match income a with
  | Fin q => q
  | _ => 0
  end.

Definition finite_income (a : Agent) : Prop := exists q, income a = Fin q.

(** The tax on a finite income [q], in exact arithmetic. *)
Definition tax_value (p : Params) (q : Q) : Q :=
  q * (1 + - (1 / agiBoost p)) * computeTax p.

(** What the tax block does to one agent, [share] being what a worker gets. *)
Definition taxed (p : Params) (share : num) (a : Agent) : Agent :=
  let a1 := if is_capitalist a then pay_tax p a else a in
  if is_worker a1 then receive share a1 else a1.

(** * Properties *)

(** Case analysis on every conditional of the goal. *)
Ltac case_ifs :=
  repeat match goal with
         | |- context [if ?c then _ else _] => destruct c
         end.

(** ** The constructor's parameters *)

Lemma nAgents_make_params (raw : RawParams) :
  nAgents (make_params raw) =
  match raw_nAgents raw with Some q => q | None => 1000 end.
Proof.
  unfold make_params; simpl.
  destruct (raw_nAgents raw) as [q|]; reflexivity.
Qed.

Lemma loop_indices_empty (lo : Z) (hi : Q) :
  (Qceiling hi <= lo)%Z -> loop_indices lo hi = [].
Proof.
  intros Hle. unfold loop_indices.
  replace (Z.to_nat (Qceiling hi - lo)) with 0%nat by lia.
  reflexivity.
Qed.

(** The population built for a parameter record is the concatenation of the
    three bands, each built by its own loop. *)
Lemma initAgents_bands (Math_exp : Q -> Q) (draws : nat -> Q) (p : Params) :
  exists k1 k2 : nat,
    fst (initAgents Math_exp draws p 0%nat) =
    fst (mapM (new_worker Math_exp draws)
              (loop_indices 0 (inject_Z (Qfloor (nAgents p * 0.8)))) 0%nat)
    ++ fst (mapM (new_capitalist Math_exp draws)
              (loop_indices (Qfloor (nAgents p * 0.8))
                            (inject_Z (Qfloor (nAgents p * 0.999)))) k1)
    ++ fst (mapM new_government (loop_indices (Qfloor (nAgents p * 0.999)) (nAgents p)) k2).
Proof.
  unfold initAgents, bind.
  destruct (mapM (new_worker Math_exp draws) _ 0%nat) as [ws k1].
  destruct (mapM (new_capitalist Math_exp draws) _ k1) as [cs k2] eqn:Ecs.
  destruct (mapM new_government _ k2) as [gs k3] eqn:Egs.
  exists k1, k2. rewrite Ecs, Egs. reflexivity.
Qed.

(** [mapM] visits the indices in order: a property of each constructed
    element, whatever the random state, holds position by position. *)
Lemma mapM_Forall2 {A B : Type} (f : A -> Rand B) (P : A -> B -> Prop) :
  (forall x k, P x (fst (f x k))) ->
  forall l k, Forall2 P l (fst (mapM f l k)).
Proof.
  intros Hf l. induction l as [|x rest IH]; intro k; simpl.
  - constructor.
  - unfold bind. specialize (Hf x k).
    destruct (f x k) as [y k1]. specialize (IH k1).
    destruct (mapM f rest k1) as [ys k2]. simpl in *.
    constructor; assumption.
Qed.

(** Claim C10.  The stored agent count is the input's own [nAgents] whenever
    the key is present, and the default 1000 only when it is absent: the
    input is spread over the [||]-defaults and overrides them.  With an
    explicit 0 the stored count is therefore 0 and the population is empty:
    no worker, no capitalist, no government agent. *)
Theorem explicit_zero_nAgents_is_kept :
  forall (Math_exp : Q -> Q) (draws : nat -> Q) (raw : RawParams),
    let s := new_Simulation Math_exp draws raw in
    nAgents (params s) = match raw_nAgents raw with Some q => q | None => 1000 end
    /\ (forall q, raw_nAgents raw = Some q -> q == 0 ->
          nAgents (params s) = q /\ agents s = []
          /\ filter is_worker (agents s) = []
          /\ filter is_capitalist (agents s) = []
          /\ filter is_government (agents s) = []).
Proof.
  intros Math_exp draws raw s. split.
  - apply nAgents_make_params.
  - intros q Hq Hz.
    assert (Hn : nAgents (make_params raw) = q).
    { rewrite nAgents_make_params, Hq. reflexivity. }
    assert (Hags : agents s = []).
    { change (agents s) with (fst (initAgents Math_exp draws (make_params raw) 0%nat)).
      destruct (initAgents_bands Math_exp draws (make_params raw)) as (k1 & k2 & ->).
      rewrite Hn.
      assert (H8 : Qfloor (q * 0.8) = 0%Z).
      { rewrite (Qfloor_comp (q * 0.8) 0); [reflexivity | rewrite Hz; reflexivity]. }
      assert (H9 : Qfloor (q * 0.999) = 0%Z).
      { rewrite (Qfloor_comp (q * 0.999) 0); [reflexivity | rewrite Hz; reflexivity]. }
      assert (Hc : Qceiling q = 0%Z).
      { rewrite (Qceiling_comp q 0); [reflexivity | exact Hz]. }
      rewrite H8, H9.
      rewrite (loop_indices_empty 0 (inject_Z 0)) by reflexivity.
      rewrite (loop_indices_empty 0 q) by (rewrite Hc; lia).
      reflexivity. }
    rewrite Hags. repeat split; assumption || reflexivity.
Qed.

(** The claim at the request [{nAgents: 0}]. *)
Lemma explicit_zero_nAgents_witness :
  let s := new_Simulation exp_steps sample_draws
             (mkRawParams (Some 0) None None None None None None) in
  nAgents (params s) = 0 /\ agents s = [].
Proof.
  destruct (explicit_zero_nAgents_is_kept exp_steps sample_draws
              (mkRawParams (Some 0) None None None None None None)) as [_ H].
  destruct (H 0 eq_refl (Qeq_refl 0)) as (Hn & Ha & _).
  split; [exact Hn | exact Ha].
Defined.

(** ** Deployment is guarded by the flag *)

Lemma agiDeployed_deployAGI (s : Simulation) : agiDeployed (deployAGI s) = true.
Proof. reflexivity. Qed.

Lemma agiDeployed_Deploy (s : Simulation) : agiDeployed (Deploy s) = true.
Proof.
  unfold Deploy. destruct (agiDeployed s) eqn:E; simpl; [exact E | reflexivity].
Qed.

Lemma Deploy_when_deployed (s : Simulation) :
  agiDeployed s = true -> Deploy s = s.
Proof. intro E. unfold Deploy. rewrite E. reflexivity. Qed.

Lemma step_Deploy (s : Simulation) : step (Deploy s) = step s.
Proof. unfold Deploy. destruct (agiDeployed s); reflexivity. Qed.

Lemma history_Deploy (s : Simulation) : history (Deploy s) = history s.
Proof. unfold Deploy. destruct (agiDeployed s); reflexivity. Qed.

(** Claim C1.  The Deploy operation is idempotent: performed twice it
    leaves the same state as performed once, in particular the same agents
    (wealth, income and happiness of each) and the same [agiDeployed] flag;
    the first call sets the flag, so the second one changes nothing and
    applies no multiplier. *)
Theorem Deploy_idempotent :
  forall s : Simulation,
    agiDeployed (Deploy s) = true
    /\ Deploy (Deploy s) = Deploy s
    /\ agents (Deploy (Deploy s)) = agents (Deploy s)
    /\ map wealth (agents (Deploy (Deploy s))) = map wealth (agents (Deploy s))
    /\ map income (agents (Deploy (Deploy s))) = map income (agents (Deploy s))
    /\ map happiness (agents (Deploy (Deploy s))) = map happiness (agents (Deploy s))
    /\ agiDeployed (Deploy (Deploy s)) = agiDeployed (Deploy s).
Proof.
  intro s.
  assert (H : Deploy (Deploy s) = Deploy s)
    by (apply Deploy_when_deployed, agiDeployed_Deploy).
  split; [apply agiDeployed_Deploy|].
  rewrite H. repeat split; reflexivity.
Qed.

(** An Advance request that runs no step and carries the flag performs
    exactly the Deploy operation. *)
Lemma handleStep_only_deploy (s : Simulation) :
  handleStep (mkStepRequest (Some (-1)) true) s = Deploy s.
Proof. reflexivity. Qed.

(** Once the flag is set, an Advance request that asks for the deployment
    does what the same request without it does. *)
Lemma handleStep_flag_ignored_once_deployed (n : option Q) (s : Simulation) :
  agiDeployed s = true ->
  handleStep (mkStepRequest n true) s = handleStep (mkStepRequest n false) s.
Proof.
  intro Hd. unfold handleStep. cbn [req_steps req_deployAGI].
  apply Deploy_when_deployed.
  generalize (Z.to_nat (Qceiling (or_default n 5))). intro k.
  revert s Hd. induction k as [|k IH]; intros s Hd; [exact Hd|].
  apply (IH (runStep s)). exact Hd.
Qed.

(** The guard is what makes the operation idempotent: the method
    [deployAGI] by itself multiplies again on every call. *)
Remark deployAGI_unguarded_compounds :
  let c := mkAgent 0 capitalist (Fin 100) (Fin 10) (Fin 0.7) invest in
  let s := mkSimulation (make_params (mkRawParams None None None None None None None))
             0 false [c] empty_history in
  map income (agents (deployAGI s)) = [Fin (10 * 5)]
  /\ map income (agents (deployAGI (deployAGI s))) = [Fin (10 * 5 * 5)].
Proof. split; reflexivity. Qed.

(** ** The step counter and the history *)

Lemma step_runStep (s : Simulation) : step (runStep s) = (step s + 1)%Z.
Proof. reflexivity. Qed.

Lemma params_runStep (s : Simulation) : params (runStep s) = params s.
Proof. reflexivity. Qed.

Lemma agiDeployed_runStep (s : Simulation) : agiDeployed (runStep s) = agiDeployed s.
Proof. reflexivity. Qed.

Lemma history_runStep (s : Simulation) :
  history (runStep s) =
  if (Z.rem (step s + 1) 5 =? 0)%Z
  then record_history (step s + 1) (agents (runStep s)) (history s)
  else history s.
Proof. reflexivity. Qed.

Lemma runSteps_snoc (k : nat) (s : Simulation) :
  runSteps (S k) s = runStep (runSteps k s).
Proof.
  revert s. induction k as [|k IH]; intro s.
  - reflexivity.
  - change (runSteps (S (S k)) s) with (runSteps (S k) (runStep s)).
    rewrite IH. reflexivity.
Qed.

Lemma step_runSteps (k : nat) (s : Simulation) :
  step (runSteps k s) = (step s + Z.of_nat k)%Z.
Proof.
  induction k as [|k IH].
  - simpl. lia.
  - rewrite runSteps_snoc, step_runStep, IH. lia.
Qed.

Lemma params_runSteps (k : nat) (s : Simulation) :
  params (runSteps k s) = params s.
Proof.
  induction k as [|k IH]; [reflexivity|].
  rewrite runSteps_snoc, params_runStep. exact IH.
Qed.

Lemma agiDeployed_runSteps (k : nat) (s : Simulation) :
  agiDeployed (runSteps k s) = agiDeployed s.
Proof.
  induction k as [|k IH]; [reflexivity|].
  rewrite runSteps_snoc, agiDeployed_runStep. exact IH.
Qed.

(** No sample is taken on the way from a multiple of five to the next. *)
Lemma history_runSteps_between (k : nat) (s : Simulation) :
  (0 <= step s)%Z -> (Z.rem (step s) 5 + Z.of_nat k < 5)%Z ->
  history (runSteps k s) = history s.
Proof.
  induction k as [|k IH]; intros Hpos Hlt; [reflexivity|].
  rewrite runSteps_snoc, history_runStep, step_runSteps.
  assert (Hrem : Z.rem (step s + Z.of_nat k + 1) 5 <> 0%Z).
  { rewrite Z.rem_mod_nonneg in * by lia.
    pose proof (Z.mod_pos_bound (step s) 5 ltac:(lia)) as Hb.
    rewrite (Z.div_mod (step s) 5) at 1 by lia.
    replace (5 * (step s / 5) + step s mod 5 + Z.of_nat k + 1)%Z
      with ((step s mod 5 + Z.of_nat k + 1) + (step s / 5) * 5)%Z by ring.
    rewrite Z.mod_add by lia.
    rewrite Z.mod_small by lia. lia. }
  apply Z.eqb_neq in Hrem. rewrite Hrem.
  apply IH; lia.
Qed.

Lemma length_record_history (stp : Z) (ags : list Agent) (h : History) :
  let h' := record_history stp ags h in
  steps h' = steps h ++ [stp]
  /\ length (gini h') = S (length (gini h))
  /\ length (velocity h') = S (length (velocity h))
  /\ length (workerHappiness h') = S (length (workerHappiness h))
  /\ length (capitalistHappiness h') = S (length (capitalistHappiness h)).
Proof.
  simpl. rewrite !length_app. simpl. repeat split; lia.
Qed.

(** Five steps from a state at step 0 with an empty history take one
    sample, at step 5; four steps take none. *)
Lemma five_steps_from_zero (s : Simulation) :
  step s = 0%Z -> history s = empty_history ->
  step (runSteps 5 s) = 5%Z
  /\ steps (history (runSteps 5 s)) = [5%Z]
  /\ length (gini (history (runSteps 5 s))) = 1%nat
  /\ length (velocity (history (runSteps 5 s))) = 1%nat
  /\ length (workerHappiness (history (runSteps 5 s))) = 1%nat
  /\ length (capitalistHappiness (history (runSteps 5 s))) = 1%nat.
Proof.
  intros Hs Hh.
  assert (H4 : history (runSteps 4 s) = empty_history).
  { rewrite history_runSteps_between; [exact Hh | lia | rewrite Hs; simpl; lia]. }
  split; [rewrite step_runSteps, Hs; reflexivity|].
  rewrite (runSteps_snoc 4), history_runStep, step_runSteps, Hs, H4.
  change (Z.rem (0 + Z.of_nat 4 + 1) 5 =? 0)%Z with true. cbv iota.
  destruct (length_record_history (0 + Z.of_nat 4 + 1)
              (agents (runStep (runSteps 4 s))) empty_history)
    as (E1 & E2 & E3 & E4 & E5).
  rewrite E1, E2, E3, E4, E5. repeat split; reflexivity.
Qed.

Lemma four_steps_from_zero (s : Simulation) :
  step s = 0%Z -> history s = empty_history ->
  step (runSteps 4 s) = 4%Z /\ history (runSteps 4 s) = empty_history.
Proof.
  intros Hs Hh. split.
  - rewrite step_runSteps, Hs. reflexivity.
  - rewrite history_runSteps_between; [exact Hh | lia | rewrite Hs; simpl; lia].
Qed.

(** Claim C6.  A freshly initialised simulation has step counter 0 and an
    empty history.  Advancing it by 5 steps leaves the counter at 5 and
    appends exactly one entry to each of the five history sequences (the
    entry of [steps] being 5); advancing it by 4 steps leaves the counter
    at 4 and the history empty. *)
Theorem fresh_advance_five_and_four :
  forall (Math_exp : Q -> Q) (draws : nat -> Q) (raw : RawParams) (deploy : bool),
    let s0 := new_Simulation Math_exp draws raw in
    let s5 := handleStep (mkStepRequest (Some 5) deploy) s0 in
    let s4 := handleStep (mkStepRequest (Some 4) deploy) s0 in
    (step s0 = 0%Z /\ history s0 = empty_history)
    /\ (step s5 = 5%Z
        /\ steps (history s5) = [5%Z]
        /\ length (gini (history s5)) = 1%nat
        /\ length (velocity (history s5)) = 1%nat
        /\ length (workerHappiness (history s5)) = 1%nat
        /\ length (capitalistHappiness (history s5)) = 1%nat)
    /\ (step s4 = 4%Z /\ history s4 = empty_history).
Proof.
  intros Math_exp draws raw deploy s0 s5 s4.
  assert (Hs : step s0 = 0%Z) by reflexivity.
  assert (Hh : history s0 = empty_history) by reflexivity.
  split; [split; assumption|].
  assert (E5 : step s5 = step (runSteps 5 s0) /\ history s5 = history (runSteps 5 s0)).
  { unfold s5, handleStep.
    change (Z.to_nat (Qceiling (or_default (req_steps (mkStepRequest (Some 5) deploy)) 5)))
      with 5%nat.
    destruct deploy; simpl req_deployAGI; cbv iota;
      [rewrite step_Deploy, history_Deploy|]; split; reflexivity. }
  assert (E4 : step s4 = step (runSteps 4 s0) /\ history s4 = history (runSteps 4 s0)).
  { unfold s4, handleStep.
    change (Z.to_nat (Qceiling (or_default (req_steps (mkStepRequest (Some 4) deploy)) 5)))
      with 4%nat.
    destruct deploy; simpl req_deployAGI; cbv iota;
      [rewrite step_Deploy, history_Deploy|]; split; reflexivity. }
  destruct E5 as [E5s E5h], E4 as [E4s E4h].
  rewrite E5s, E5h, E4s, E4h.
  split; [apply five_steps_from_zero | apply four_steps_from_zero]; assumption.
Qed.

(** ** What a step does to one agent *)

Lemma type_strategy_phase (a : Agent) : type (strategy_phase a) = type a.
Proof.
  unfold strategy_phase.
  destruct (strategy a); try reflexivity.
  - destruct (gtb (wealth a) (Fin 10)); reflexivity.
  - destruct (is_capitalist a); reflexivity.
Qed.

Lemma strategy_strategy_phase (a : Agent) : strategy (strategy_phase a) = strategy a.
Proof.
  unfold strategy_phase.
  destruct (strategy a) eqn:E; try exact E.
  - destruct (gtb (wealth a) (Fin 10)); exact E.
  - destruct (is_capitalist a); exact E.
Qed.

Lemma id_strategy_phase (a : Agent) : id (strategy_phase a) = id a.
Proof.
  unfold strategy_phase.
  destruct (strategy a); try reflexivity.
  - destruct (gtb (wealth a) (Fin 10)); reflexivity.
  - destruct (is_capitalist a); reflexivity.
Qed.

(** The strategy phase changes the income of capitalists that invest and of
    no other agent. *)
Lemma income_strategy_phase (a : Agent) :
  income (strategy_phase a) =
  match strategy a with
  | invest => if is_capitalist a then (income a * Fin 1.002)%num else income a
  | _ => income a
  end.
Proof.
  unfold strategy_phase.
  destruct (strategy a); try reflexivity.
  - destruct (gtb (wealth a) (Fin 10)); reflexivity.
  - destruct (is_capitalist a); reflexivity.
Qed.

Lemma worker_not_capitalist (a : Agent) :
  is_worker a = true -> is_capitalist a = false.
Proof. unfold is_worker, is_capitalist. destruct (type a); simpl; congruence. Qed.

Lemma capitalist_not_worker (a : Agent) :
  is_capitalist a = true -> is_worker a = false.
Proof. unfold is_worker, is_capitalist. destruct (type a); simpl; congruence. Qed.

Lemma Forall2_map_right {A B : Type} (R : A -> B -> Prop) (f : A -> B) (l : list A) :
  (forall x, In x l -> R x (f x)) -> Forall2 R l (map f l).
Proof.
  induction l as [|x rest IH]; intro H; simpl; constructor.
  - apply H. left. reflexivity.
  - apply IH. intros y Hy. apply H. right. exact Hy.
Qed.

Lemma Forall2_map_both {A B C : Type} (R : B -> C -> Prop)
    (f : A -> B) (g : A -> C) (l : list A) :
  (forall x, In x l -> R (f x) (g x)) -> Forall2 R (map f l) (map g l).
Proof.
  induction l as [|x rest IH]; intro H; simpl; constructor.
  - apply H. left. reflexivity.
  - apply IH. intros y Hy. apply H. right. exact Hy.
Qed.

Lemma agents_runStep (s : Simulation) :
  agents (runStep s) =
  map (step_agent (params s) (agiDeployed s) (revenue_share (params s) (agents s)))
      (agents s).
Proof.
  unfold runStep; simpl agents.
  unfold policy_phase, revenue_share, after_ubi, step_agent.
  destruct (ubi_on (params s)) eqn:Eu; destruct (tax_on (params s) (agiDeployed s)) eqn:Et;
    simpl; unfold compute_tax, forEach_where; rewrite ?map_map; reflexivity.
Qed.

Lemma type_step_agent (p : Params) (d : bool) (r : num) (a : Agent) :
  type (step_agent p d r a) = type a.
Proof.
  unfold step_agent.
  case_ifs;
    apply type_strategy_phase.
Qed.

Lemma id_step_agent (p : Params) (d : bool) (r : num) (a : Agent) :
  id (step_agent p d r a) = id a.
Proof.
  unfold step_agent.
  case_ifs;
    apply id_strategy_phase.
Qed.

Lemma strategy_step_agent (p : Params) (d : bool) (r : num) (a : Agent) :
  strategy (step_agent p d r a) = strategy a.
Proof.
  unfold step_agent.
  case_ifs;
    apply strategy_strategy_phase.
Qed.

(** ** The compute tax before and after deployment *)

Lemma tax_off_before_deploy (p : Params) : tax_on p false = false.
Proof. unfold tax_on. apply andb_false_r. Qed.

Lemma policy_phase_before_deploy (p : Params) (t : Q) (ags : list Agent) :
  policy_phase (set_computeTax p t) false ags = policy_phase p false ags.
Proof.
  unfold policy_phase. rewrite !tax_off_before_deploy. reflexivity.
Qed.

Lemma runStep_with_computeTax (s : Simulation) (t : Q) :
  agiDeployed s = false ->
  runStep (with_computeTax s t) = with_computeTax (runStep s) t.
Proof.
  intro Hd. unfold runStep, with_computeTax, with_params.
  cbn [params step agiDeployed agents history].
  rewrite Hd, policy_phase_before_deploy. reflexivity.
Qed.

Lemma runSteps_with_computeTax (k : nat) (s : Simulation) (t : Q) :
  agiDeployed s = false ->
  runSteps k (with_computeTax s t) = with_computeTax (runSteps k s) t.
Proof.
  intro Hd. induction k as [|k IH]; [reflexivity|].
  rewrite !runSteps_snoc, IH.
  apply runStep_with_computeTax.
  rewrite agiDeployed_runSteps. exact Hd.
Qed.

(** After deployment a positive rate reaches every capitalist. *)
Lemma income_step_agent_taxed (p : Params) (r : num) (a : Agent) :
  tax_on p true = true -> is_capitalist a = true ->
  income (step_agent p true r a) =
  (income (strategy_phase a)
   - income (strategy_phase a) * (Fin 1 - Fin 1 / Fin (agiBoost p))
     * Fin (computeTax p))%num.
Proof.
  intros Ht Hc. unfold step_agent. rewrite Ht.
  assert (Hc1 : is_capitalist (strategy_phase a) = true).
  { unfold is_capitalist in *. rewrite type_strategy_phase. exact Hc. }
  rewrite (capitalist_not_worker _ Hc1), andb_false_r, Hc1.
  assert (Hw : is_worker (pay_tax p (strategy_phase a)) = false).
  { apply capitalist_not_worker. exact Hc1. }
  rewrite Hw. reflexivity.
Qed.

(** Claim C5.  While [agiDeployed] is false, any number of steps run with
    [computeTax = 0.5] leave the same agents, hence the same capitalist
    incomes, and the same history as the same steps run with
    [computeTax = 0].  Once [agiDeployed] is true, a step with
    [computeTax = 0.5] takes [income * (1 - 1/agiBoost) * computeTax] off the
    income each capitalist has when the tax is levied (its income after
    the strategy phase of that step), which is also the income the same
    step leaves it when the rate is 0. *)
Theorem computeTax_inert_until_deployed :
  (forall (s : Simulation) (k : nat),
      agiDeployed s = false ->
      let taxed := runSteps k (with_computeTax s 0.5) in
      let untaxed := runSteps k (with_computeTax s 0) in
      agents taxed = agents untaxed
      /\ map income (filter is_capitalist (agents taxed)) =
         map income (filter is_capitalist (agents untaxed))
      /\ history taxed = history untaxed)
  /\ (forall s : Simulation,
      agiDeployed s = true ->
      Forall2
        (fun a a' =>
           is_capitalist a = true ->
           let i := income (strategy_phase a) in
           income a' =
           (i - i * (Fin 1 - Fin 1 / Fin (agiBoost (params s))) * Fin 0.5)%num)
        (agents s) (agents (runStep (with_computeTax s 0.5)))
      /\ Forall2
        (fun a0 a' =>
           is_capitalist a0 = true ->
           income a' =
           (income a0
            - income a0 * (Fin 1 - Fin 1 / Fin (agiBoost (params s))) * Fin 0.5)%num)
        (agents (runStep (with_computeTax s 0)))
        (agents (runStep (with_computeTax s 0.5)))).
Proof.
  split.
  - intros s k Hd taxed untaxed. unfold taxed, untaxed.
    rewrite !runSteps_with_computeTax by exact Hd.
    repeat split; reflexivity.
  - intros s Hd.
    assert (Hon : tax_on (set_computeTax (params s) 0.5) true = true) by reflexivity.
    assert (Hoff : tax_on (set_computeTax (params s) 0) true = false) by reflexivity.
    split.
    + rewrite agents_runStep.
      apply Forall2_map_right. intros a _ Hc.
      cbn [with_computeTax with_params params agiDeployed agents].
      rewrite Hd. apply (income_step_agent_taxed _ _ _ Hon Hc).
    + rewrite !agents_runStep.
      cbn [with_computeTax with_params params agiDeployed agents].
      rewrite Hd.
      apply Forall2_map_both. intros a _ Hc0.
      assert (Hc : is_capitalist a = true).
      { unfold is_capitalist in *. rewrite type_step_agent in Hc0. exact Hc0. }
      rewrite (income_step_agent_taxed _ _ _ Hon Hc).
      assert (E : income (step_agent (set_computeTax (params s) 0) true
                   (revenue_share (set_computeTax (params s) 0) (agents s)) a)
                  = income (strategy_phase a)).
      { unfold step_agent. rewrite Hoff.
        assert (Hc1 : is_capitalist (strategy_phase a) = true).
        { unfold is_capitalist in *. rewrite type_strategy_phase. exact Hc. }
        rewrite (capitalist_not_worker _ Hc1), andb_false_r. reflexivity. }
      rewrite E. reflexivity.
Qed.

(** A worked step after deployment: a capitalist with income 100 and
    [agiBoost = 5] is left with 100.2 at rate 0 and with
    100.2 - 100.2 * (1 - 1/5) * 0.5 = 60.12 at rate 0.5. *)
Example computeTax_after_deploy_example :
  let c := mkAgent 0 capitalist (Fin 1000) (Fin 100) (Fin 0.7) invest in
  let w := mkAgent 1 worker (Fin 10) (Fin 100) (Fin 0.6) normal in
  let s := mkSimulation (make_params (mkRawParams None None None None None None None))
             7 true [c; w] empty_history in
  match map income (agents (runStep (with_computeTax s 0))),
        map income (agents (runStep (with_computeTax s 0.5))) with
  | [Fin c0; Fin w0], [Fin c1; Fin w1] =>
      c0 == 100.2 /\ w0 == 100 /\ c1 == 60.12 /\ w1 == 140.08
  | _, _ => False
  end.
Proof. vm_compute. repeat split; reflexivity. Qed.

(** The claim on two such states: three steps before deployment, one
    step after it. *)
Lemma computeTax_inert_until_deployed_witness :
  let c := mkAgent 0 capitalist (Fin 1000) (Fin 100) (Fin 0.7) invest in
  let w := mkAgent 1 worker (Fin 10) (Fin 100) (Fin 0.6) normal in
  let p := make_params (mkRawParams None None None None (Some 50) None None) in
  let before := mkSimulation p 0 false [c; w] empty_history in
  let after := mkSimulation p 7 true [c; w] empty_history in
  agents (runSteps 3 (with_computeTax before 0.5)) =
  agents (runSteps 3 (with_computeTax before 0))
  /\ Forall2
       (fun a a' =>
          is_capitalist a = true ->
          let i := income (strategy_phase a) in
          income a' = (i - i * (Fin 1 - Fin 1 / Fin (agiBoost p)) * Fin 0.5)%num)
       (agents after) (agents (runStep (with_computeTax after 0.5))).
Proof.
  split.
  - exact (proj1 (proj1 computeTax_inert_until_deployed
                    (mkSimulation
                       (make_params (mkRawParams None None None None (Some 50) None None))
                       0 false
                       [mkAgent 0 capitalist (Fin 1000) (Fin 100) (Fin 0.7) invest;
                        mkAgent 1 worker (Fin 10) (Fin 100) (Fin 0.6) normal]
                       empty_history)
                    3%nat eq_refl)).
  - exact (proj1 (proj2 computeTax_inert_until_deployed
                    (mkSimulation
                       (make_params (mkRawParams None None None None (Some 50) None None))
                       7 true
                       [mkAgent 0 capitalist (Fin 1000) (Fin 100) (Fin 0.7) invest;
                        mkAgent 1 worker (Fin 10) (Fin 100) (Fin 0.6) normal]
                       empty_history)
                    eq_refl)).
Defined.

(** ** The three bands of the initial population *)

Lemma Forall2_map_eq {A B C : Type} (g : B -> C) (h : A -> C)
    (l : list A) (l' : list B) :
  Forall2 (fun x y => g y = h x) l l' -> map g l' = map h l.
Proof.
  induction 1 as [|x y l l' Hxy _ IH]; simpl; [reflexivity|].
  rewrite Hxy, IH. reflexivity.
Qed.

Lemma Forall2_Forall_right {A B : Type} (P : A -> B -> Prop) (Q : B -> Prop)
    (l : list A) (l' : list B) :
  (forall x y, P x y -> Q y) -> Forall2 P l l' -> Forall Q l'.
Proof.
  intros HPQ H. induction H as [|x y l l' Hxy _ IH]; constructor.
  - apply (HPQ x y Hxy).
  - exact IH.
Qed.

Section Bands.

Variable Math_exp : Q -> Q.
Variable draws : nat -> Q.

(** A property that every freshly built worker, capitalist and government
    agent has holds of the whole initial population. *)
Lemma new_agents_Forall (P : Agent -> Prop) :
  (forall i k, P (fst (new_worker Math_exp draws i k))) ->
  (forall i k, P (fst (new_capitalist Math_exp draws i k))) ->
  (forall i k, P (fst (new_government i k))) ->
  forall raw, Forall P (agents (new_Simulation Math_exp draws raw)).
Proof.
  intros Hw Hc Hg raw.
  change (agents (new_Simulation Math_exp draws raw))
    with (fst (initAgents Math_exp draws (make_params raw) 0%nat)).
  destruct (initAgents_bands Math_exp draws (make_params raw)) as (k1 & k2 & ->).
  rewrite !Forall_app. repeat split.
  - eapply (Forall2_Forall_right (fun (_ : Z) a => P a) P); [intros ? ? H; exact H|].
    apply mapM_Forall2. exact Hw.
  - eapply (Forall2_Forall_right (fun (_ : Z) a => P a) P); [intros ? ? H; exact H|].
    apply mapM_Forall2. exact Hc.
  - eapply (Forall2_Forall_right (fun (_ : Z) a => P a) P); [intros ? ? H; exact H|].
    apply mapM_Forall2. exact Hg.
Qed.

(** A field that depends on the loop index only is laid out band by band. *)
Lemma new_agents_map {C : Type} (g : Agent -> C) (hw hc hg : Z -> C) :
  (forall i k, g (fst (new_worker Math_exp draws i k)) = hw i) ->
  (forall i k, g (fst (new_capitalist Math_exp draws i k)) = hc i) ->
  (forall i k, g (fst (new_government i k)) = hg i) ->
  forall raw,
    let n := nAgents (make_params raw) in
    map g (agents (new_Simulation Math_exp draws raw)) =
    map hw (loop_indices 0 (inject_Z (Qfloor (n * 0.8))))
    ++ map hc (loop_indices (Qfloor (n * 0.8)) (inject_Z (Qfloor (n * 0.999))))
    ++ map hg (loop_indices (Qfloor (n * 0.999)) n).
Proof.
  intros Hw Hc Hg raw n.
  change (agents (new_Simulation Math_exp draws raw))
    with (fst (initAgents Math_exp draws (make_params raw) 0%nat)).
  destruct (initAgents_bands Math_exp draws (make_params raw)) as (k1 & k2 & ->).
  rewrite !map_app. fold n. f_equal; [|f_equal].
  - apply Forall2_map_eq. apply mapM_Forall2. exact Hw.
  - apply Forall2_map_eq. apply mapM_Forall2. exact Hc.
  - apply Forall2_map_eq. apply mapM_Forall2. exact Hg.
Qed.

End Bands.

Lemma length_filter_type (q : AgentType -> bool) (l : list Agent) :
  length (filter (fun a => q (type a)) l) = length (filter q (map type l)).
Proof.
  induction l as [|a rest IH]; simpl; [reflexivity|].
  destruct (q (type a)); simpl; rewrite IH; reflexivity.
Qed.

(** Claim C7.  With [nAgents = 1000] the band boundaries are
    [floor(1000 * 0.8) = 800] and [floor(1000 * 0.999) = 999]; the population
    has the ids 0..999 in order, the first 800 agents are workers with
    strategy [normal], the next 199 capitalists with strategy [invest] and
    the last one a government agent with strategy [regulate]. *)
Theorem initial_bands_for_1000 :
  forall (Math_exp : Q -> Q) (draws : nat -> Q) (raw : RawParams),
    nAgents (make_params raw) = 1000 ->
    let ags := agents (new_Simulation Math_exp draws raw) in
    (Qfloor (1000 * 0.8) = 800%Z /\ Qfloor (1000 * 0.999) = 999%Z)
    /\ map id ags = map Z.of_nat (seq 0 1000)
    /\ map type ags =
       repeat worker 800 ++ repeat capitalist 199 ++ repeat government 1
    /\ map strategy ags =
       repeat normal 800 ++ repeat invest 199 ++ repeat regulate 1
    /\ length (filter is_worker ags) = 800%nat
    /\ length (filter is_capitalist ags) = 199%nat
    /\ length (filter is_government ags) = 1%nat.
Proof.
  intros Math_exp draws raw Hn ags.
  assert (Hid : map id ags = map Z.of_nat (seq 0 1000)).
  { unfold ags.
    rewrite (new_agents_map Math_exp draws id (fun i => i) (fun i => i) (fun i => i))
      by reflexivity.
    rewrite Hn. vm_compute. reflexivity. }
  assert (Hty : map type ags =
                repeat worker 800 ++ repeat capitalist 199 ++ repeat government 1).
  { unfold ags.
    rewrite (new_agents_map Math_exp draws type
               (fun _ => worker) (fun _ => capitalist) (fun _ => government))
      by reflexivity.
    rewrite Hn. vm_compute. reflexivity. }
  assert (Hst : map strategy ags =
                repeat normal 800 ++ repeat invest 199 ++ repeat regulate 1).
  { unfold ags.
    rewrite (new_agents_map Math_exp draws strategy
               (fun _ => normal) (fun _ => invest) (fun _ => regulate))
      by reflexivity.
    rewrite Hn. vm_compute. reflexivity. }
  split; [split; reflexivity|].
  repeat split; try assumption.
  - change is_worker with (fun a => AgentType_eqb (type a) worker).
    rewrite (length_filter_type (fun t => AgentType_eqb t worker)), Hty.
    vm_compute. reflexivity.
  - change is_capitalist with (fun a => AgentType_eqb (type a) capitalist).
    rewrite (length_filter_type (fun t => AgentType_eqb t capitalist)), Hty.
    vm_compute. reflexivity.
  - change is_government with (fun a => AgentType_eqb (type a) government).
    rewrite (length_filter_type (fun t => AgentType_eqb t government)), Hty.
    vm_compute. reflexivity.
Qed.

(** The claim at the request [{nAgents: 1000}]. *)
Lemma initial_bands_for_1000_witness :
  let raw := mkRawParams (Some 1000) None None None None None None in
  let ags := agents (new_Simulation exp_steps sample_draws raw) in
  nAgents (make_params raw) = 1000
  /\ length (filter is_worker ags) = 800%nat
  /\ length (filter is_capitalist ags) = 199%nat
  /\ length (filter is_government ags) = 1%nat.
Proof.
  split; [reflexivity|].
  apply (initial_bands_for_1000 exp_steps sample_draws
           (mkRawParams (Some 1000) None None None None None None)).
  reflexivity.
Defined.

(** ** The UBI scenario in exact arithmetic *)

Lemma Forall2_refl_on {A : Type} (R : A -> A -> Prop) (l : list A) :
  (forall x, R x x) -> Forall2 R l l.
Proof. intro H. induction l; constructor; auto. Qed.

Lemma Forall2_map_right_step {A B : Type} (R R' : A -> B -> Prop) (f : B -> B)
    (l : list A) (l' : list B) :
  (forall x y, R x y -> R' x (f y)) -> Forall2 R l l' -> Forall2 R' l (map f l').
Proof.
  intros Hf H. induction H as [|x y l l' Hxy _ IH]; simpl; constructor; auto.
Qed.

(** Without the tax, a step adds the UBI to a worker's income and nothing
    else: no strategy changes the income of a worker. *)
Lemma income_step_agent_worker (p : Params) (d : bool) (r : num) (a : Agent) :
  tax_on p d = false -> ubi_on p = true -> is_worker a = true ->
  income (step_agent p d r a) = (income a + Fin (ubi p))%num.
Proof.
  intros Ht Hu Hw. unfold step_agent. rewrite Ht, Hu.
  assert (Hw1 : is_worker (strategy_phase a) = true).
  { unfold is_worker in *. rewrite type_strategy_phase. exact Hw. }
  rewrite Hw1. cbn [andb pay_ubi income set_income set_happiness].
  rewrite income_strategy_phase, (worker_not_capitalist _ Hw).
  destruct (strategy a); reflexivity.
Qed.

Lemma worker_income_after_steps (k : nat) (s : Simulation) :
  agiDeployed s = false -> ubi_on (params s) = true ->
  Forall2
    (fun a a' =>
       id a' = id a /\ type a' = type a
       /\ (is_worker a = true ->
           income a' =
           Nat.iter k (fun x => (x + Fin (ubi (params s)))%num) (income a)))
    (agents s) (agents (runSteps k s)).
Proof.
  intros Hd Hu. induction k as [|k IH].
  - apply Forall2_refl_on. intro a. repeat split; reflexivity.
  - rewrite runSteps_snoc, agents_runStep.
    rewrite params_runSteps, agiDeployed_runSteps, Hd.
    revert IH. apply Forall2_map_right_step.
    intros a a' (Hid & Hty & Hinc).
    rewrite id_step_agent, type_step_agent. repeat split; try assumption.
    intro Hw.
    rewrite income_step_agent_worker.
    + rewrite (Hinc Hw). reflexivity.
    + apply tax_off_before_deploy.
    + exact Hu.
    + unfold is_worker in *. rewrite Hty. exact Hw.
Qed.

(** Every agent is created with a finite income. *)
Lemma new_agents_income_finite (Math_exp : Q -> Q) (draws : nat -> Q) (raw : RawParams) :
  Forall (fun a => exists i0, income a = Fin i0)
         (agents (new_Simulation Math_exp draws raw)).
Proof.
  apply new_agents_Forall; intros i k; eexists; reflexivity.
Qed.

(** In exact arithmetic the five payments add up: after initialising with
    [nAgents = 100] and [ubi = 50] and advancing 5 steps without
    deployment, each of the 80 workers has its initial income plus 250.
    The engine rounds each addition; what it computes is stated on the
    binary64 engine, in the section on the UBI scenario there. *)
Lemma ubi_scenario_in_exact_arithmetic :
  forall (Math_exp : Q -> Q) (draws : nat -> Q) (raw : RawParams),
    nAgents (make_params raw) = 100 ->
    ubi (make_params raw) = 50 ->
    let s0 := new_Simulation Math_exp draws raw in
    let s5 := handleStep (mkStepRequest (Some 5) false) s0 in
    length (filter is_worker (agents s0)) = 80%nat
    /\ Forall2
         (fun a0 a5 =>
            id a5 = id a0 /\ type a5 = type a0
            /\ (is_worker a0 = true ->
                exists i0, income a0 = Fin i0 /\ is_value (income a5) (i0 + 250)))
         (agents s0) (agents s5)
    /\ steps (history s5) = [5%Z]
    /\ length (gini (history s5)) = 1%nat
    /\ length (velocity (history s5)) = 1%nat
    /\ length (workerHappiness (history s5)) = 1%nat
    /\ length (capitalistHappiness (history s5)) = 1%nat.
Proof.
  intros Math_exp draws raw Hn Hubi s0 s5.
  change s5 with (runSteps 5 s0).
  split; [|split].
  - change is_worker with (fun a => AgentType_eqb (type a) worker).
    rewrite (length_filter_type (fun t => AgentType_eqb t worker)).
    unfold s0.
    rewrite (new_agents_map Math_exp draws type
               (fun _ => worker) (fun _ => capitalist) (fun _ => government))
      by reflexivity.
    rewrite Hn. vm_compute. reflexivity.
  - assert (Hu : ubi_on (params s0) = true).
    { unfold ubi_on. change (params s0) with (make_params raw).
      rewrite Hubi. reflexivity. }
    pose proof (worker_income_after_steps 5 s0 eq_refl Hu) as H.
    pose proof (new_agents_income_finite Math_exp draws raw) as Hfin.
    fold s0 in Hfin.
    change (params s0) with (make_params raw) in H. rewrite Hubi in H.
    revert Hfin H. generalize (agents s0) (agents (runSteps 5 s0)).
    intros l l' Hfin H. induction H as [|a a' l l' (Hid & Hty & Hinc) _ IH].
    + constructor.
    + inversion Hfin as [|? ? [i0 Hi0] Hfin']; subst.
      constructor; [|apply IH; exact Hfin'].
      repeat split; try assumption.
      intro Hw. exists i0. split; [exact Hi0|].
      rewrite (Hinc Hw), Hi0. simpl. ring.
  - apply (five_steps_from_zero s0); reflexivity.
Qed.

(** ** The metrics on finite wealths, in exact arithmetic *)

Lemma Qgtb_true (x y : Q) : Qgtb x y = true -> y < x.
Proof.
  unfold Qgtb. destruct (0 ?= x - y) eqn:E; try discriminate.
  intros _. apply Qlt_alt in E. lra.
Qed.

Lemma Qgtb_false (x y : Q) : Qgtb x y = false -> x <= y.
Proof.
  unfold Qgtb. destruct (0 ?= x - y) eqn:E; try discriminate; intros _.
  - apply Qeq_alt in E. lra.
  - apply Qgt_alt in E. lra.
Qed.

Lemma insert_map_Fin (x : Q) (l : list Q) :
  insert (Fin x) (map Fin l) = map Fin (insertQ x l).
Proof.
  induction l as [|y rest IH]; simpl; [reflexivity|].
  change (comes_after (Fin x) (Fin y)) with (Qgtb x y).
  destruct (Qgtb x y); simpl; [rewrite IH|]; reflexivity.
Qed.

Lemma sort_map_Fin (l : list Q) : sort (map Fin l) = map Fin (sortQ l).
Proof.
  unfold sort, sortQ.
  induction l as [|x rest IH]; simpl; [reflexivity|].
  rewrite IH. apply insert_map_Fin.
Qed.

Lemma insertQ_perm (x : Q) (l : list Q) : Permutation (x :: l) (insertQ x l).
Proof.
  induction l as [|y rest IH]; simpl; [apply Permutation_refl|].
  destruct (Qgtb x y).
  - eapply perm_trans; [apply perm_swap|]. apply perm_skip. exact IH.
  - apply Permutation_refl.
Qed.

Lemma sortQ_perm (l : list Q) : Permutation l (sortQ l).
Proof.
  induction l as [|x rest IH]; simpl; [constructor|].
  eapply perm_trans; [apply perm_skip; exact IH | apply insertQ_perm].
Qed.

Lemma insertQ_sorted (x : Q) (l : list Q) :
  StronglySorted Qle l -> StronglySorted Qle (insertQ x l).
Proof.
  induction 1 as [|y rest Hs IH Hy]; simpl.
  - constructor; constructor.
  - destruct (Qgtb x y) eqn:E.
    + constructor; [exact IH|].
      apply (Permutation_Forall (insertQ_perm x rest)).
      constructor; [apply Qlt_le_weak, Qgtb_true, E | exact Hy].
    + apply Qgtb_false in E.
      constructor; [constructor; assumption|].
      constructor; [exact E|].
      revert Hy. apply Forall_impl. intros z Hz. lra.
Qed.

Lemma sortQ_sorted (l : list Q) : StronglySorted Qle (sortQ l).
Proof.
  induction l as [|x rest IH]; simpl; [constructor|].
  apply insertQ_sorted. exact IH.
Qed.

Lemma total_perm (l l' : list Q) : Permutation l l' -> total l == total l'.
Proof.
  induction 1; simpl; lra.
Qed.

Lemma length_sortQ (l : list Q) : length (sortQ l) = length l.
Proof. symmetry. apply Permutation_length, sortQ_perm. Qed.

(** *** From the computation on numbers to the one on rationals *)

Lemma reduce_sum_map {A : Type} (g : A -> num) (l : list A) :
  reduce_sum g l = reduce_sum (fun w => w) (map g l).
Proof.
  unfold reduce_sum. generalize (Fin 0).
  induction l as [|x rest IH]; intro a; simpl; [reflexivity|]. apply IH.
Qed.

Lemma fold_add_Fin (l : list Q) (a : Q) :
  exists r, fold_left (fun sum x => (sum + x)%num) (map Fin l) (Fin a) = Fin r
            /\ r == a + total l.
Proof.
  revert a. induction l as [|x rest IH]; intro a; simpl.
  - exists a. split; [reflexivity | lra].
  - destruct (IH (a + x)) as (r & Hr & Er).
    exists r. split; [exact Hr | lra].
Qed.

Lemma reduce_sum_Fin (l : list Q) :
  exists r, reduce_sum (fun w => w) (map Fin l) = Fin r /\ r == total l.
Proof.
  destruct (fold_add_Fin l 0) as (r & Hr & Er).
  exists r. split; [exact Hr | lra].
Qed.

Lemma add_finite_inv (a b : num) (t : Q) :
  (a + b)%num = Fin t -> (exists p, a = Fin p) /\ (exists q, b = Fin q).
Proof.
  destruct a as [p| | |], b as [q| | |]; simpl; try discriminate.
  intros _. split; eexists; reflexivity.
Qed.

(** A sum that comes out finite started finite and has finite summands. *)
Lemma fold_add_finite_inv (l : list num) (a : num) (t : Q) :
  fold_left (fun sum x => (sum + x)%num) l a = Fin t ->
  (exists p, a = Fin p) /\ (exists qs, l = map Fin qs).
Proof.
  revert a. induction l as [|x rest IH]; intros a H; simpl in H.
  - split; [exists t; exact H | exists []; reflexivity].
  - destruct (IH _ H) as ((p & Hp) & (qs & ->)).
    destruct (add_finite_inv _ _ _ Hp) as (Ha & (q & ->)).
    split; [exact Ha | exists (q :: qs); reflexivity].
Qed.

Lemma wealths_finite_of_total (ags : list Agent) (t : Q) :
  reduce_sum wealth ags = Fin t ->
  exists qs, map wealth ags = map Fin qs /\ t == total qs.
Proof.
  intro H. rewrite reduce_sum_map in H.
  destruct (fold_add_finite_inv _ _ _ H) as (_ & (qs & Hqs)).
  exists qs. split; [exact Hqs|].
  rewrite Hqs in H. destruct (reduce_sum_Fin qs) as (r & Hr & Er).
  rewrite Hr in H. injection H as <-. exact Er.
Qed.

(** ** Happiness stays within the unit interval *)

Lemma Math_max_Fin (a b : Q) :
  exists r, Math_max (Fin a) (Fin b) = Fin r
            /\ ((r = a /\ b <= a) \/ (r = b /\ a < b)).
Proof.
  unfold Math_max, ltb. destruct (a ?= b) eqn:E.
  - exists a. split; [reflexivity|]. left. apply Qeq_alt in E. split; [reflexivity | lra].
  - exists b. split; [reflexivity|]. right. apply Qlt_alt in E. split; [reflexivity | lra].
  - exists a. split; [reflexivity|]. left. apply Qgt_alt in E. split; [reflexivity | lra].
Qed.

Lemma Math_min_Fin (a b : Q) :
  exists r, Math_min (Fin a) (Fin b) = Fin r
            /\ ((r = a /\ a <= b) \/ (r = b /\ b < a)).
Proof.
  unfold Math_min, ltb. destruct (b ?= a) eqn:E.
  - exists a. split; [reflexivity|]. left. apply Qeq_alt in E. split; [reflexivity | lra].
  - exists b. split; [reflexivity|]. right. apply Qlt_alt in E. split; [reflexivity | lra].
  - exists a. split; [reflexivity|]. left. apply Qgt_alt in E. split; [reflexivity | lra].
Qed.

(** [Math.max(0, Math.min(1, h))] lands in the unit interval unless [h] is NaN. *)
Lemma clamp_in_unit (h : num) :
  h <> NaN -> in_unit (Math_max (Fin 0) (Math_min (Fin 1) h)).
Proof.
  intro Hh. destruct h as [q| | |]; try (simpl; lra); [|congruence].
  destruct (Math_min_Fin 1 q) as (m & -> & Hm).
  destruct (Math_max_Fin 0 m) as (r & -> & Hr).
  simpl. destruct Hm as [[-> ?]|[-> ?]], Hr as [[-> ?]|[-> ?]]; lra.
Qed.

Lemma floor_happiness_defined (h : num) (c : Q) :
  h <> NaN -> Math_max (Fin 0) (h - Fin c)%num <> NaN.
Proof.
  intro Hh. destruct h as [q| | |]; try (simpl; discriminate); [|congruence].
  change (Fin q - Fin c)%num with (Fin (q + - c)).
  destruct (Math_max_Fin 0 (q + - c)) as (r & -> & _). discriminate.
Qed.

Lemma cap_happiness_defined (h : num) (c : Q) :
  h <> NaN -> Math_min (Fin 1) (h + Fin c)%num <> NaN.
Proof.
  intro Hh. destruct h as [q| | |]; try (simpl; discriminate); [|congruence].
  change (Fin q + Fin c)%num with (Fin (q + c)).
  destruct (Math_min_Fin 1 (q + c)) as (r & -> & _). discriminate.
Qed.

Lemma happiness_strategy_phase (a : Agent) :
  happiness a <> NaN -> in_unit (happiness (strategy_phase a)).
Proof.
  intro Hh. unfold strategy_phase.
  destruct (strategy a).
  - apply clamp_in_unit. exact Hh.
  - apply clamp_in_unit. apply floor_happiness_defined. exact Hh.
  - destruct (gtb (wealth a) (Fin 10)); apply clamp_in_unit;
      [apply cap_happiness_defined|]; exact Hh.
  - destruct (is_capitalist a); apply clamp_in_unit; exact Hh.
  - apply clamp_in_unit. exact Hh.
Qed.

Lemma happiness_pay_ubi (p : Params) (a : Agent) :
  in_unit (happiness a) -> in_unit (happiness (pay_ubi p a)).
Proof.
  cbn [pay_ubi happiness set_happiness set_income].
  destruct (happiness a) as [q| | |]; simpl; try contradiction. intro Hq.
  change (in_unit (Math_min (Fin 1) (Fin (q + 0.005)))).
  destruct (Math_min_Fin 1 (q + 0.005)) as (r & -> & Hr).
  simpl. destruct Hr as [[-> ?]|[-> ?]]; lra.
Qed.

Lemma happiness_pay_tax (p : Params) (a : Agent) :
  in_unit (happiness a) -> in_unit (happiness (pay_tax p a)).
Proof.
  cbn [pay_tax happiness set_happiness set_income].
  destruct (happiness a) as [q| | |]; simpl; try contradiction. intro Hq.
  change (in_unit (Math_max (Fin 0) (Fin (q + - 0.003)))).
  destruct (Math_max_Fin 0 (q + - 0.003)) as (r & -> & Hr).
  simpl. destruct Hr as [[-> ?]|[-> ?]]; lra.
Qed.

Lemma happiness_step_agent (p : Params) (d : bool) (r : num) (a : Agent) :
  happiness a <> NaN -> in_unit (happiness (step_agent p d r a)).
Proof.
  intro Hh. apply happiness_strategy_phase in Hh.
  unfold step_agent.
  case_ifs;
    cbn [receive happiness set_income];
    repeat first [apply happiness_pay_tax | apply happiness_pay_ubi]; exact Hh.
Qed.

Lemma happiness_shock (b : Q) (a : Agent) :
  in_unit (happiness a) -> in_unit (happiness (shock b a)).
Proof.
  unfold shock. destruct (is_capitalist a); [exact (fun H => H)|].
  destruct (is_worker a); [|exact (fun H => H)].
  cbn [happiness set_happiness set_income].
  destruct (happiness a) as [q| | |]; simpl; try contradiction. lra.
Qed.

Lemma in_unit_defined (h : num) : in_unit h -> h <> NaN.
Proof. destruct h; simpl; [discriminate | contradiction ..]. Qed.

Lemma happiness_runStep (s : Simulation) :
  Forall (fun a => happiness a <> NaN) (agents s) -> happiness_in_range (runStep s).
Proof.
  intro H. unfold happiness_in_range. rewrite agents_runStep.
  apply Forall_map. revert H. apply Forall_impl.
  intros a Ha. apply happiness_step_agent. exact Ha.
Qed.

Lemma happiness_deployAGI (s : Simulation) :
  happiness_in_range s -> happiness_in_range (deployAGI s).
Proof.
  unfold happiness_in_range. intro H. cbn [deployAGI agents].
  apply Forall_map. revert H. apply Forall_impl.
  intros a Ha. apply happiness_shock. exact Ha.
Qed.

Lemma happiness_new_Simulation (Math_exp : Q -> Q) (draws : nat -> Q) (raw : RawParams) :
  happiness_in_range (new_Simulation Math_exp draws raw).
Proof.
  apply new_agents_Forall; intros i k; simpl; lra.
Qed.

(** Claim C4.  After every call of [runStep] the happiness of every agent
    lies in [0, 1], whatever the happiness values before the call, NaN
    excepted (no operation of the engine produces a NaN happiness); the
    deployment, as the method [deployAGI] and as the guarded Deploy
    operation, preserves the range; so every agent of every reachable state
    has its happiness in [0, 1]. *)
Theorem happiness_within_unit_interval :
  (forall s : Simulation,
      Forall (fun a => happiness a <> NaN) (agents s) ->
      happiness_in_range (runStep s))
  /\ (forall s : Simulation,
      happiness_in_range s ->
      happiness_in_range (deployAGI s) /\ happiness_in_range (Deploy s))
  /\ (forall (Math_exp : Q -> Q) (draws : nat -> Q) (s : Simulation),
      reachable Math_exp draws s -> happiness_in_range s).
Proof.
  split; [exact happiness_runStep|]. split.
  - intros s H. split; [apply happiness_deployAGI; exact H|].
    unfold Deploy. destruct (negb (agiDeployed s));
      [apply happiness_deployAGI|]; exact H.
  - intros Math_exp draws s Hr. induction Hr as [raw|s _ IH|s _ IH].
    + apply happiness_new_Simulation.
    + apply happiness_runStep. revert IH. apply Forall_impl.
      intros a. apply in_unit_defined.
    + apply happiness_deployAGI. exact IH.
Qed.

(** The claim on a state whose happiness values are out of range before
    the step: 7, -3 and Infinity come out as 1, 0 and 1. *)
Lemma happiness_within_unit_interval_witness :
  let s := mkSimulation
             (make_params (mkRawParams None None None None (Some 50) None None))
             0 false
             [mkAgent 0 worker (Fin 10) (Fin 100) (Fin 7) normal;
              mkAgent 1 capitalist (Fin 1000) (Fin 500) (Fin (-3)) invest;
              mkAgent 2 government (Fin 1000000) (Fin 0) PInf regulate]
             empty_history in
  Forall (fun a => happiness a <> NaN) (agents s)
  /\ happiness_in_range (runStep s)
  /\ map happiness (agents (runStep s)) = [Fin 1; Fin 0; Fin 1].
Proof.
  assert (H : Forall (fun a => happiness a <> NaN)
                [mkAgent 0 worker (Fin 10) (Fin 100) (Fin 7) normal;
                 mkAgent 1 capitalist (Fin 1000) (Fin 500) (Fin (-3)) invest;
                 mkAgent 2 government (Fin 1000000) (Fin 0) PInf regulate])
    by (repeat constructor; discriminate).
  split; [exact H|]. split; [|reflexivity].
  exact (proj1 happiness_within_unit_interval
           (mkSimulation
              (make_params (mkRawParams None None None None (Some 50) None None))
              0 false
              [mkAgent 0 worker (Fin 10) (Fin 100) (Fin 7) normal;
               mkAgent 1 capitalist (Fin 1000) (Fin 500) (Fin (-3)) invest;
               mkAgent 2 government (Fin 1000000) (Fin 0) PInf regulate]
              empty_history) H).
Defined.

(** ** Wealth in exact arithmetic *)

Lemma exp_steps_nonneg (x : Q) : 0 <= exp_steps x.
Proof. apply Qpower_0_le. discriminate. Qed.

Lemma nonneg_scale (w : num) (c : Q) :
  0 <= c -> nonneg w -> nonneg (w * Fin c)%num.
Proof.
  intro Hc. destruct w as [q| | |]; simpl; try contradiction.
  intro Hq. apply Qmult_le_0_compat; assumption.
Qed.

Lemma wealth_step_agent (p : Params) (d : bool) (r : num) (a : Agent) :
  wealth (step_agent p d r a) = wealth (strategy_phase a).
Proof.
  unfold step_agent.
  case_ifs;
    reflexivity.
Qed.

(** The states [handleStep] produces are reachable. *)
Lemma reachable_runSteps (Math_exp : Q -> Q) (draws : nat -> Q) (k : nat) (s : Simulation) :
  reachable Math_exp draws s -> reachable Math_exp draws (runSteps k s).
Proof.
  revert s. induction k as [|k IH]; intros s H; simpl; [exact H|].
  apply IH, reach_step, H.
Qed.

Lemma reachable_handleStep (Math_exp : Q -> Q) (draws : nat -> Q)
    (body : StepRequest) (s : Simulation) :
  reachable Math_exp draws s -> reachable Math_exp draws (handleStep body s).
Proof.
  intro H. unfold handleStep, Deploy.
  destruct (req_deployAGI body); [|apply reachable_runSteps, H].
  destruct (negb (agiDeployed _)); [apply reach_deploy|]; apply reachable_runSteps, H.
Qed.

(** ** The Gini coefficient in exact arithmetic *)

Lemma gini_loop_Fin (ws : list Q) (n i : Z) (a : Q) :
  exists r, gini_loop n i (map Fin ws) (Fin a) = Fin r /\ r == a + gsum n i ws.
Proof.
  revert i a. induction ws as [|w rest IH]; intros i a; cbn [gini_loop gsum map].
  - exists a. split; [reflexivity | lra].
  - destruct (IH (i + 1)%Z (a + inject_Z (2 * (i + 1) - n - 1) * w)) as (r & Hr & Er).
    exists r. split; [exact Hr|]. rewrite Er. ring.
Qed.

(** Moving the window of indices by one adds each wealth once. *)
Lemma gsum_shift (ws : list Q) (n i : Z) :
  gsum n (i + 1) ws == gsum (n - 1) i ws + total ws.
Proof.
  revert i. induction ws as [|w rest IH]; intro i; cbn [gsum total].
  - ring.
  - rewrite IH.
    replace (2 * (i + 1 + 1) - n - 1)%Z with (2 * (i + 1) - (n - 1) - 1 + 1)%Z by lia.
    rewrite inject_Z_plus. change (inject_Z 1) with 1. ring.
Qed.

(** The sum over a list is the sum over its tail plus the distances of the
    tail's elements from the head. *)
Lemma gsum_cons (a : Q) (rest : list Q) :
  gsum (Z.of_nat (length (a :: rest))) 0 (a :: rest) ==
  gsum (Z.of_nat (length rest)) 0 rest
  + (total rest - inject_Z (Z.of_nat (length rest)) * a).
Proof.
  cbn [gsum length].
  rewrite gsum_shift.
  replace (Z.of_nat (S (length rest)) - 1)%Z with (Z.of_nat (length rest)) by lia.
  replace (2 * (0 + 1) - Z.of_nat (S (length rest)) - 1)%Z
    with (- Z.of_nat (length rest))%Z by lia.
  rewrite inject_Z_opp. ring.
Qed.

Lemma total_lower (a : Q) (l : list Q) :
  Forall (Qle a) l -> inject_Z (Z.of_nat (length l)) * a <= total l.
Proof.
  induction 1 as [|x rest Hx _ IH]; cbn [length total].
  - change (inject_Z (Z.of_nat 0)) with 0. lra.
  - rewrite Nat2Z.inj_succ, <- Z.add_1_r, inject_Z_plus.
    change (inject_Z 1) with 1. lra.
Qed.

Lemma total_equal (w : Q) (l : list Q) :
  Forall (fun x => x == w) l -> total l == inject_Z (Z.of_nat (length l)) * w.
Proof.
  induction 1 as [|x rest Hx _ IH]; cbn [length total].
  - change (inject_Z (Z.of_nat 0)) with 0. ring.
  - rewrite Nat2Z.inj_succ, <- Z.add_1_r, inject_Z_plus.
    change (inject_Z 1) with 1. rewrite IH, Hx. ring.
Qed.

(** On an ascending list the sum is not negative. *)
Lemma gsum_lower (l : list Q) :
  StronglySorted Qle l -> 0 <= gsum (Z.of_nat (length l)) 0 l.
Proof.
  induction 1 as [|a rest _ IH Ha].
  - simpl. lra.
  - rewrite gsum_cons. pose proof (total_lower a rest Ha). lra.
Qed.

(** On a list of equal values it is zero. *)
Lemma gsum_equal (w : Q) (l : list Q) :
  Forall (fun x => x == w) l -> gsum (Z.of_nat (length l)) 0 l == 0.
Proof.
  induction 1 as [|a rest Ha Hrest IH].
  - reflexivity.
  - rewrite gsum_cons, IH, (total_equal w rest Hrest), Ha. ring.
Qed.

(** On non-negative values it is at most [n] times their sum. *)
Lemma gsum_upper (l : list Q) (n i : Z) :
  Forall (Qle 0) l -> (i + Z.of_nat (length l) <= n)%Z ->
  gsum n i l <= inject_Z n * total l.
Proof.
  intro H. revert i. induction H as [|w rest Hw _ IH]; intros i Hi; cbn [gsum total length] in *.
  - lra.
  - assert (Hc : inject_Z (2 * (i + 1) - n - 1) * w <= inject_Z n * w).
    { apply Qmult_le_compat_r; [|exact Hw].
      rewrite <- Zle_Qle. lia. }
    specialize (IH (i + 1)%Z ltac:(lia)). lra.
Qed.

(** The value [calculateGini] returns on finite wealths that do not sum
    to zero. *)
Lemma calculateGini_Fin (ags : list Agent) (qs : list Q) :
  map wealth ags = map Fin qs -> ~ total qs == 0 ->
  exists g, calculateGini ags = Fin g
            /\ g == gsum (Z.of_nat (length qs)) 0 (sortQ qs)
                    / (inject_Z (Z.of_nat (length qs)) * total qs).
Proof.
  intros Hqs Hnz. unfold calculateGini.
  rewrite Hqs, sort_map_Fin, length_map, length_sortQ.
  destruct (reduce_sum_Fin (sortQ qs)) as (r & -> & Er).
  assert (Et : r == total qs).
  { rewrite Er. symmetry. apply total_perm, sortQ_perm. }
  assert (Hr : Qeq_bool r 0 = false).
  { apply not_true_is_false. intro E. apply Qeq_bool_iff in E.
    apply Hnz. rewrite <- Et. exact E. }
  cbn [eqb]. rewrite Hr.
  destruct (gini_loop_Fin (sortQ qs) (Z.of_nat (length qs)) 0 0) as (g0 & -> & Eg).
  assert (Hlen : ~ inject_Z (Z.of_nat (length qs)) == 0).
  { destruct qs as [|q qs']; [exfalso; apply Hnz; reflexivity|].
    intro E. unfold Qeq in E. cbn [Qnum Qden inject_Z length] in E. lia. }
  assert (Hden : Qeq_bool (inject_Z (Z.of_nat (length qs)) * r) 0 = false).
  { apply not_true_is_false. intro E. apply Qeq_bool_iff in E.
    apply Qmult_integral in E. destruct E as [E|E]; [exact (Hlen E)|].
    apply Hnz. rewrite <- Et. exact E. }
  unfold of_Z. cbn [mul div]. rewrite Hden.
  eexists. split; [reflexivity|].
  rewrite Eg, Et. field. split; assumption.
Qed.

Lemma finite_wealths (P : Q -> Prop) (Pn : num -> Prop) (ags : list Agent) :
  (forall x, Pn x -> exists q, x = Fin q /\ P q) ->
  Forall (fun a => Pn (wealth a)) ags ->
  exists qs, map wealth ags = map Fin qs /\ Forall P qs.
Proof.
  intros HP H. induction H as [|a rest Ha _ (qs & Eqs & Hqs)].
  - exists []. split; [reflexivity | constructor].
  - destruct (HP _ Ha) as (q & Eq & Hq).
    exists (q :: qs). simpl. rewrite Eq, Eqs. split; [reflexivity|].
    constructor; assumption.
Qed.

Lemma nonneg_inv (x : num) : nonneg x -> exists q, x = Fin q /\ 0 <= q.
Proof. destruct x as [q| | |]; simpl; try contradiction. intro H. exists q. auto. Qed.

Lemma is_value_inv (w : Q) (x : num) :
  is_value x w -> exists q, x = Fin q /\ q == w.
Proof. destruct x as [q| | |]; simpl; try contradiction. intro H. exists q. auto. Qed.

Lemma positive_length (l : list Q) :
  ~ total l == 0 -> 0 < inject_Z (Z.of_nat (length l)).
Proof.
  destruct l as [|x rest]; intro H; [exfalso; apply H; reflexivity|].
  change 0 with (inject_Z 0). rewrite <- Zlt_Qlt. simpl length. lia.
Qed.

(** Claim C2, amended.  In exact arithmetic, for every population of
    finite non-negative wealths with a positive total [calculateGini]
    returns a value in [0, 1], and for every population whose wealths all
    equal one positive value it returns 0. *)
Theorem calculateGini_exact_arithmetic :
  (forall ags : list Agent,
      Forall (fun a => nonneg (wealth a)) ags ->
      positive (reduce_sum wealth ags) ->
      in_unit (calculateGini ags))
  /\ (forall (ags : list Agent) (w : Q),
      0 < w ->
      Forall (fun a => is_value (wealth a) w) ags ->
      is_value (calculateGini ags) 0).
Proof.
  split.
  - intros ags Hnn Hpos.
    destruct (reduce_sum wealth ags) as [t| | |] eqn:Et; simpl in Hpos; try contradiction.
    destruct (wealths_finite_of_total ags t Et) as (qs & Hqs & Etot).
    destruct (finite_wealths (Qle 0) nonneg ags nonneg_inv Hnn) as (qs' & Hqs' & Hge).
    assert (qs' = qs).
    { rewrite Hqs in Hqs'. clear - Hqs'. revert qs' Hqs'.
      induction qs as [|q qs IH]; intros [|q' qs'] H; simpl in H; try discriminate;
        [reflexivity|].
      injection H as -> H. f_equal. apply IH. exact H. }
    subst qs'.
    assert (Hnz : ~ total qs == 0) by (intro E; rewrite E in Etot; lra).
    destruct (calculateGini_Fin ags qs Hqs Hnz) as (g & -> & Eg).
    pose proof (positive_length qs Hnz) as Hn.
    pose proof (gsum_lower (sortQ qs) (sortQ_sorted qs)) as Hlo.
    rewrite length_sortQ in Hlo.
    assert (Hup : gsum (Z.of_nat (length qs)) 0 (sortQ qs)
                  <= inject_Z (Z.of_nat (length qs)) * total qs).
    { rewrite (total_perm _ _ (sortQ_perm qs)).
      apply gsum_upper.
      - apply (Permutation_Forall (sortQ_perm qs)). exact Hge.
      - rewrite length_sortQ. lia. }
    assert (Hden : 0 < inject_Z (Z.of_nat (length qs)) * total qs).
    { apply Qmult_lt_0_compat; [exact Hn | lra]. }
    simpl. rewrite Eg. split.
    + apply Qle_shift_div_l; [exact Hden | lra].
    + apply Qle_shift_div_r; [exact Hden | lra].
  - intros ags w Hw Heq.
    destruct (finite_wealths (fun q => q == w) (fun x => is_value x w) ags
                (is_value_inv w) Heq) as (qs & Hqs & Hall).
    destruct qs as [|q0 qs0] eqn:Eqs.
    + destruct ags; [reflexivity | discriminate].
    + rewrite <- Eqs in *.
      assert (Hn : 0 < inject_Z (Z.of_nat (length qs))).
      { rewrite Eqs. change 0 with (inject_Z 0). rewrite <- Zlt_Qlt. simpl length. lia. }
      assert (Htot : total qs == inject_Z (Z.of_nat (length qs)) * w)
        by (apply total_equal; exact Hall).
      assert (Hpos : 0 < total qs).
      { rewrite Htot. apply Qmult_lt_0_compat; assumption. }
      assert (Hnz : ~ total qs == 0) by (intro E; rewrite E in Hpos; lra).
      destruct (calculateGini_Fin ags qs Hqs Hnz) as (g & -> & Eg).
      assert (Hz : gsum (Z.of_nat (length qs)) 0 (sortQ qs) == 0).
      { rewrite <- (length_sortQ qs). apply (gsum_equal w).
        apply (Permutation_Forall (sortQ_perm qs)). exact Hall. }
      simpl. rewrite Eg, Hz. unfold Qdiv. ring.
Qed.

(** The claim on the wealths 10, 1, 3, 2, whose coefficient is 7/16, and
    on five wealths of 0.1. *)
Lemma calculateGini_exact_arithmetic_witness :
  let agent_of w := mkAgent 0 worker (Fin w) (Fin 100) (Fin 0.6) normal in
  in_unit (calculateGini (map agent_of [10; 1; 3; 2]))
  /\ is_value (calculateGini (map agent_of [10; 1; 3; 2])) (7 # 16)
  /\ is_value (calculateGini (map agent_of [0.1; 0.1; 0.1; 0.1; 0.1])) 0.
Proof.
  split; [|split].
  - apply (proj1 calculateGini_exact_arithmetic).
    + repeat constructor; discriminate.
    + reflexivity.
  - reflexivity.
  - apply (proj2 calculateGini_exact_arithmetic _ 0.1).
    + reflexivity.
    + repeat constructor; reflexivity.
Defined.

(** ** The Gini coefficient as the engine evaluates it *)

(** Claim C2, as stated, fails on the running code: five equal wealths of
    0.1 are non-negative with a positive total, and the coefficient
    computed in binary64 is a rounding residue below zero (about -2.2e-17),
    neither 0 nor within [0, 1]. *)
Lemma calculateGini_binary64_rounding :
  let wealths := [0.1; 0.1; 0.1; 0.1; 0.1]%float in
  forallb (fun w => PrimFloat.ltb 0%float w) wealths = true
  /\ PrimFloat.ltb 0%float (fold_left PrimFloat.add wealths 0%float) = true
  /\ PrimFloat.eqb (Binary64.calculateGini wealths) (-2.2204460492503132e-17)%float = true
  /\ PrimFloat.ltb (Binary64.calculateGini wealths) 0%float = true
  /\ PrimFloat.eqb (Binary64.calculateGini wealths) 0%float = false.
Proof. vm_compute. repeat split; reflexivity. Qed.

(** In binary64 the bounds do not hold up to a small error either: when
    the sum of the wealths overflows, the coefficient is NaN. *)
Remark calculateGini_binary64_overflow :
  let wealths := [1e308; 1e308; 1e308]%float in
  fold_left PrimFloat.add wealths 0%float = infinity
  /\ PrimFloat.is_nan (Binary64.calculateGini wealths) = true.
Proof. vm_compute. split; reflexivity. Qed.

(** The band boundaries of the populations used above come out the same
    in binary64 as in exact arithmetic. *)
Remark band_boundaries_binary64 :
  (PrimFloat.eqb (1000 * 0.8)%float 800%float = true
   /\ PrimFloat.eqb (1000 * 0.999)%float 999%float = true)
  /\ (PrimFloat.eqb (100 * 0.8)%float 80%float = true
      /\ PrimFloat.leb 99%float (100 * 0.999)%float = true
      /\ PrimFloat.ltb (100 * 0.999)%float 100%float = true).
Proof. vm_compute. repeat split; reflexivity. Qed.

(** * Further properties *)

(** ** The history keeps pace with the step counter *)

Lemma sample_steps_snoc (m : nat) :
  sample_steps (S m) = sample_steps m ++ [(5 * (Z.of_nat m + 1))%Z].
Proof.
  unfold sample_steps. rewrite seq_S, map_app. reflexivity.
Qed.

Lemma history_aligned_runStep (s : Simulation) :
  history_aligned s -> history_aligned (runStep s).
Proof.
  intros (Hpos & Hs & Hg & Hv & Hw & Hc).
  unfold history_aligned. rewrite step_runStep, history_runStep.
  split; [lia|].
  rewrite Z.rem_mod_nonneg by lia.
  destruct (Z.eqb_spec ((step s + 1) mod 5) 0) as [E|E].
  - assert (Hdiv : ((step s + 1) / 5 = step s / 5 + 1)%Z).
    { pose proof (Z.div_mod (step s + 1) 5 ltac:(lia)) as H1.
      pose proof (Z.div_mod (step s) 5 ltac:(lia)) as H2.
      pose proof (Z.mod_pos_bound (step s) 5 ltac:(lia)) as H3. lia. }
    assert (Hn : Z.to_nat ((step s + 1) / 5) = S (Z.to_nat (step s / 5))).
    { rewrite Hdiv. pose proof (Z.div_pos (step s) 5 Hpos ltac:(lia)). lia. }
    assert (Hval : (step s + 1 = 5 * (Z.of_nat (Z.to_nat (step s / 5)) + 1))%Z).
    { pose proof (Z.div_pos (step s) 5 Hpos ltac:(lia)).
      pose proof (Z.div_mod (step s + 1) 5 ltac:(lia)). lia. }
    rewrite Hn, sample_steps_snoc.
    cbn [record_history steps gini velocity workerHappiness capitalistHappiness].
    rewrite !length_app, Hs, Hg, Hv, Hw, Hc, <- Hval. cbn [length].
    repeat split; lia || reflexivity.
  - assert (Hdiv : ((step s + 1) / 5 = step s / 5)%Z).
    { pose proof (Z.div_mod (step s + 1) 5 ltac:(lia)) as H1.
      pose proof (Z.div_mod (step s) 5 ltac:(lia)) as H2.
      pose proof (Z.mod_pos_bound (step s) 5 ltac:(lia)) as H3.
      pose proof (Z.mod_pos_bound (step s + 1) 5 ltac:(lia)) as H4. lia. }
    rewrite Hdiv. repeat split; assumption.
Qed.

(** In every reachable state the step counter is not negative, the [steps]
    sequence of the history is 5, 10, ..., up to the last multiple of five
    the counter has reached, and the other four sequences have that many
    entries: the five sequences are aligned and nothing is ever dropped. *)
Theorem history_keeps_pace_with_steps :
  forall (Math_exp : Q -> Q) (draws : nat -> Q) (s : Simulation),
    reachable Math_exp draws s -> history_aligned s.
Proof.
  intros Math_exp draws s Hr. induction Hr as [raw|s _ IH|s _ IH].
  - unfold history_aligned. cbn. repeat split; reflexivity || lia.
  - apply history_aligned_runStep. exact IH.
  - exact IH.
Qed.

Lemma history_keeps_pace_with_steps_witness :
  let s := handleStep (mkStepRequest (Some 12) true)
             (new_Simulation exp_steps sample_draws
                (mkRawParams (Some 10) None None None None None None)) in
  reachable exp_steps sample_draws s
  /\ history_aligned s
  /\ steps (history s) = [5; 10]%Z.
Proof.
  intro s.
  assert (H : reachable exp_steps sample_draws s)
    by apply reachable_handleStep, reach_new.
  split; [exact H|].
  split; [exact (history_keeps_pace_with_steps _ _ _ H)|].
  vm_compute. reflexivity.
Defined.

(** ** What an Advance request changes and what it leaves alone *)

Lemma map_step_agent_frame (p : Params) (d : bool) (r : num) (l : list Agent) :
  map id (map (step_agent p d r) l) = map id l
  /\ map type (map (step_agent p d r) l) = map type l
  /\ map strategy (map (step_agent p d r) l) = map strategy l.
Proof.
  rewrite !map_map. repeat split; apply map_ext; intro a.
  - apply id_step_agent.
  - apply type_step_agent.
  - apply strategy_step_agent.
Qed.

Lemma shock_frame (b : Q) (a : Agent) :
  id (shock b a) = id a /\ type (shock b a) = type a
  /\ strategy (shock b a) = strategy a.
Proof.
  unfold shock. destruct (is_capitalist a); [|destruct (is_worker a)];
    repeat split; reflexivity.
Qed.

Lemma runSteps_frame (k : nat) (s : Simulation) :
  map id (agents (runSteps k s)) = map id (agents s)
  /\ map type (agents (runSteps k s)) = map type (agents s)
  /\ map strategy (agents (runSteps k s)) = map strategy (agents s).
Proof.
  induction k as [|k (Hi & Ht & Hs)]; [repeat split; reflexivity|].
  rewrite runSteps_snoc, agents_runStep.
  destruct (map_step_agent_frame (params (runSteps k s)) (agiDeployed (runSteps k s))
              (revenue_share (params (runSteps k s)) (agents (runSteps k s)))
              (agents (runSteps k s))) as (Ei & Et & Es).
  rewrite Ei, Et, Es. repeat split; assumption.
Qed.

Lemma deployAGI_frame (s : Simulation) :
  map id (agents (deployAGI s)) = map id (agents s)
  /\ map type (agents (deployAGI s)) = map type (agents s)
  /\ map strategy (agents (deployAGI s)) = map strategy (agents s).
Proof.
  cbn [deployAGI agents]. rewrite !map_map.
  repeat split; apply map_ext; intro a; apply shock_frame.
Qed.

(** Whatever the request and the state, [handleStep] leaves the parameters
    alone and keeps the population as it is: the same agents in the same
    order, each with its id, its type and its strategy.  Only wealth,
    income and happiness ever change. *)
Theorem handleStep_keeps_params_and_identities :
  forall (body : StepRequest) (s : Simulation),
    params (handleStep body s) = params s
    /\ map id (agents (handleStep body s)) = map id (agents s)
    /\ map type (agents (handleStep body s)) = map type (agents s)
    /\ map strategy (agents (handleStep body s)) = map strategy (agents s)
    /\ length (agents (handleStep body s)) = length (agents s).
Proof.
  intros body s.
  assert (H : params (handleStep body s) = params s
              /\ map id (agents (handleStep body s)) = map id (agents s)
              /\ map type (agents (handleStep body s)) = map type (agents s)
              /\ map strategy (agents (handleStep body s)) = map strategy (agents s)).
  { unfold handleStep, Deploy.
    destruct (runSteps_frame (Z.to_nat (Qceiling (or_default (req_steps body) 5))) s)
      as (Hi & Ht & Hs).
    pose proof (params_runSteps (Z.to_nat (Qceiling (or_default (req_steps body) 5))) s)
      as Hp.
    destruct (req_deployAGI body); [|repeat split; assumption].
    destruct (negb (agiDeployed _)); [|repeat split; assumption].
    destruct (deployAGI_frame
                (runSteps (Z.to_nat (Qceiling (or_default (req_steps body) 5))) s))
      as (Ei & Et & Es).
    rewrite Ei, Et, Es. repeat split; assumption. }
  destruct H as (Hp & Hi & Ht & Hs). repeat split; try assumption.
  rewrite <- (length_map id (agents (handleStep body s))), Hi. apply length_map.
Qed.

(** After an Advance request the flag is set exactly when it was set
    before or the request asked for the deployment: it never reverts, and
    steps alone never set it. *)
Theorem handleStep_flag :
  forall (body : StepRequest) (s : Simulation),
    agiDeployed (handleStep body s) = agiDeployed s || req_deployAGI body.
Proof.
  intros body s. unfold handleStep.
  destruct (req_deployAGI body).
  - rewrite agiDeployed_Deploy. symmetry. apply orb_true_r.
  - rewrite agiDeployed_runSteps. symmetry. apply orb_false_r.
Qed.





(** ** Who gets richer *)

Lemma wealth_strategy_phase_banded (a : Agent) :
  banded a ->
  wealth (strategy_phase a) =
  if is_capitalist a then (wealth a * Fin 1.02)%num else wealth a.
Proof.
  unfold banded, strategy_phase, is_capitalist. intro Hb. rewrite Hb.
  destruct (type a); reflexivity.
Qed.

Lemma regular_new_Simulation (Math_exp : Q -> Q) (draws : nat -> Q) :
  (forall x, 0 <= Math_exp x) ->
  forall raw, Forall regular (agents (new_Simulation Math_exp draws raw)).
Proof.
  intro Hexp. apply new_agents_Forall; intros i k; split;
    try reflexivity; simpl; auto; discriminate.
Qed.

Lemma regular_step_agent (p : Params) (d : bool) (r : num) (a : Agent) :
  regular a -> regular (step_agent p d r a).
Proof.
  intros [Hb Hw]. split.
  - unfold banded. rewrite strategy_step_agent, type_step_agent. exact Hb.
  - rewrite wealth_step_agent, (wealth_strategy_phase_banded a Hb).
    destruct (is_capitalist a); [|exact Hw].
    apply nonneg_scale; [discriminate | exact Hw].
Qed.

Lemma regular_shock (b : Q) (a : Agent) : regular a -> regular (shock b a).
Proof.
  intros [Hb Hw]. destruct (shock_frame b a) as (_ & Ht & Hs). split.
  - unfold banded. rewrite Hs, Ht. exact Hb.
  - unfold shock. destruct (is_capitalist a); [|destruct (is_worker a); exact Hw].
    cbn [wealth set_wealth set_income]. apply nonneg_scale; [discriminate | exact Hw].
Qed.

Lemma regular_reachable (Math_exp : Q -> Q) (draws : nat -> Q) (s : Simulation) :
  (forall x, 0 <= Math_exp x) ->
  reachable Math_exp draws s -> Forall regular (agents s).
Proof.
  intros Hexp Hr. induction Hr as [raw|s _ IH|s _ IH].
  - apply regular_new_Simulation. exact Hexp.
  - rewrite agents_runStep. apply Forall_map. revert IH. apply Forall_impl.
    intro a. apply regular_step_agent.
  - cbn [deployAGI agents]. apply Forall_map. revert IH. apply Forall_impl.
    intro a. apply regular_shock.
Qed.

Lemma grow_wealth (w : Q) (c : Q) (x : num) :
  1 <= c -> 0 <= w -> x = Fin w ->
  exists w', (x * Fin c)%num = Fin w' /\ w <= w'.
Proof.
  intros Hc Hw ->. exists (w * c). split; [reflexivity|].
  rewrite <- (Qmult_1_r w) at 1.
  rewrite (Qmult_comm w 1), (Qmult_comm w c).
  apply Qmult_le_compat_r; assumption.
Qed.

Lemma wealth_continues_refl (a : Agent) : regular a -> wealth_continues a a.
Proof.
  intros [_ Hw]. repeat split; try reflexivity.
  intros _. destruct (wealth a) as [w| | |]; simpl in Hw; try contradiction.
  exists w, w. repeat split; try reflexivity; lra.
Qed.

Lemma wealth_continues_step (p : Params) (d : bool) (r : num) (a a' : Agent) :
  banded a -> wealth_continues a a' -> wealth_continues a (step_agent p d r a').
Proof.
  intros Hb (Ht & Hs & Hkeep & Hgrow).
  assert (Hb' : banded a') by (unfold banded in *; rewrite Hs, Ht; exact Hb).
  assert (Hc : is_capitalist a' = is_capitalist a)
    by (unfold is_capitalist; rewrite Ht; reflexivity).
  unfold wealth_continues.
  rewrite type_step_agent, strategy_step_agent, wealth_step_agent,
    (wealth_strategy_phase_banded a' Hb'), Hc.
  repeat split; try assumption.
  - intro E. rewrite E. apply Hkeep. exact E.
  - intro E. rewrite E. destruct (Hgrow E) as (w & w' & Ew & Ew' & Hle).
    destruct (grow_wealth w' 1.02 (wealth a') ltac:(discriminate) ltac:(lra) Ew')
      as (w'' & Ew'' & Hle').
    exists w, w''. repeat split; try assumption; lra.
Qed.

Lemma wealth_continues_shock (b : Q) (a a' : Agent) :
  wealth_continues a a' -> wealth_continues a (shock b a').
Proof.
  intros (Ht & Hs & Hkeep & Hgrow).
  destruct (shock_frame b a') as (_ & Ht' & Hs').
  assert (Hc : is_capitalist a' = is_capitalist a)
    by (unfold is_capitalist; rewrite Ht; reflexivity).
  unfold wealth_continues. rewrite Ht', Hs'.
  repeat split; try assumption.
  - intro E. rewrite <- (Hkeep E). unfold shock. rewrite Hc, E.
    destruct (is_worker a'); reflexivity.
  - intro E. destruct (Hgrow E) as (w & w' & Ew & Ew' & Hle).
    unfold shock. rewrite Hc, E. cbn [wealth set_wealth set_income].
    destruct (grow_wealth w' 1.5 (wealth a') ltac:(discriminate) ltac:(lra) Ew')
      as (w'' & Ew'' & Hle').
    exists w, w''. repeat split; try assumption; lra.
Qed.

Lemma Forall2_of_Forall {A : Type} (P : A -> Prop) (R : A -> A -> Prop) (l : list A) :
  (forall x, P x -> R x x) -> Forall P l -> Forall2 R l l.
Proof.
  intros H HP. induction HP; constructor; auto.
Qed.

Lemma Forall2_weaken_left {A B : Type} (P : A -> Prop) (R R' : A -> B -> Prop)
    (l : list A) (l' : list B) :
  (forall x y, P x -> R x y -> R' x y) ->
  Forall P l -> Forall2 R l l' -> Forall2 R' l l'.
Proof.
  intros H HP HR. induction HR as [|x y l l' Hxy _ IH]; constructor.
  - inversion HP; subst. auto.
  - apply IH. inversion HP; assumption.
Qed.

Lemma wealth_continues_runSteps (k : nat) (s : Simulation) :
  Forall regular (agents s) ->
  Forall2 (fun a a' => banded a /\ wealth_continues a a')
          (agents s) (agents (runSteps k s)).
Proof.
  intro Hreg. induction k as [|k IH].
  - apply (Forall2_of_Forall regular); [|exact Hreg].
    intros a Ha. split; [apply Ha | apply wealth_continues_refl, Ha].
  - rewrite runSteps_snoc, agents_runStep.
    revert IH. apply Forall2_map_right_step.
    intros a a' [Hb Hc]. split; [exact Hb|].
    apply wealth_continues_step; assumption.
Qed.

(** Math.exp being non-negative, no Advance request on a reachable state
    changes the wealth of a worker or of the government, and none makes a
    capitalist poorer: wealth only ever moves upward, and only for
    capitalists. *)
Theorem only_capitalists_get_richer :
  forall (Math_exp : Q -> Q) (draws : nat -> Q) (body : StepRequest) (s : Simulation),
    (forall x, 0 <= Math_exp x) ->
    reachable Math_exp draws s ->
    Forall2
      (fun a a' =>
         (is_capitalist a = false -> wealth a' = wealth a)
         /\ (is_capitalist a = true ->
             exists w w', wealth a = Fin w /\ wealth a' = Fin w' /\ 0 <= w <= w'))
      (agents s) (agents (handleStep body s)).
Proof.
  intros Math_exp draws body s Hexp Hr.
  pose proof (regular_reachable Math_exp draws s Hexp Hr) as Hreg.
  pose proof (wealth_continues_runSteps
                (Z.to_nat (Qceiling (or_default (req_steps body) 5))) s Hreg) as H.
  assert (H' : Forall2 (fun a a' => banded a /\ wealth_continues a a')
                 (agents s) (agents (handleStep body s))).
  { unfold handleStep, Deploy.
    destruct (req_deployAGI body); [|exact H].
    destruct (negb (agiDeployed _)); [|exact H].
    cbn [deployAGI agents]. revert H. apply Forall2_map_right_step.
    intros a a' [Hb Hc]. split; [exact Hb | apply wealth_continues_shock, Hc]. }
  revert H'. apply (Forall2_weaken_left regular); [|exact Hreg].
  intros a a' _ [_ (_ & _ & Hkeep & Hgrow)]. split; assumption.
Qed.

Lemma only_capitalists_get_richer_witness :
  let s := new_Simulation exp_steps sample_draws
             (mkRawParams (Some 10) None None None (Some 50) None None) in
  (forall x, 0 <= exp_steps x)
  /\ Forall2
       (fun a a' =>
          (is_capitalist a = false -> wealth a' = wealth a)
          /\ (is_capitalist a = true ->
              exists w w', wealth a = Fin w /\ wealth a' = Fin w' /\ 0 <= w <= w'))
       (agents s) (agents (handleStep (mkStepRequest (Some 3) true) s)).
Proof.
  split; [exact exp_steps_nonneg|].
  apply (only_capitalists_get_richer exp_steps sample_draws
           (mkStepRequest (Some 3) true) _ exp_steps_nonneg).
  apply reach_new.
Defined.

(** ** The government never moves *)

Lemma untouched_step_agent (p : Params) (d : bool) (r : num) (a : Agent) :
  untouched_government a -> untouched_government (step_agent p d r a).
Proof.
  unfold untouched_government, is_government. rewrite type_step_agent.
  intros H Hg. destruct (H Hg) as (Hw & Hi & Hh & Hs).
  assert (Hphase : strategy_phase a = a).
  { clear H Hg. destruct a as [i t w inc h st].
    cbn [wealth income happiness strategy] in Hw, Hi, Hh, Hs. subst. reflexivity. }
  assert (Hnw : is_worker a = false)
    by (unfold is_worker; destruct (type a); simpl in *; congruence).
  assert (Hnc : is_capitalist a = false)
    by (unfold is_capitalist; destruct (type a); simpl in *; congruence).
  unfold step_agent. rewrite Hphase, Hnw, andb_false_r.
  destruct (tax_on p d); [rewrite Hnc, Hnw|]; repeat split; assumption.
Qed.

Lemma untouched_shock (b : Q) (a : Agent) :
  untouched_government a -> untouched_government (shock b a).
Proof.
  unfold untouched_government, is_government.
  destruct (shock_frame b a) as (_ & Ht & _). rewrite Ht.
  intros H Hg.
  assert (Hnw : is_worker a = false)
    by (unfold is_worker; destruct (type a); simpl in *; congruence).
  assert (Hnc : is_capitalist a = false)
    by (unfold is_capitalist; destruct (type a); simpl in *; congruence).
  unfold shock. rewrite Hnc, Hnw. apply H. exact Hg.
Qed.

(** In every reachable state each government agent is exactly as the
    constructor made it: wealth 1000000, income 0, happiness 0.5, strategy
    [regulate].  No step, policy or deployment ever touches it. *)
Theorem government_is_never_touched :
  forall (Math_exp : Q -> Q) (draws : nat -> Q) (s : Simulation),
    reachable Math_exp draws s ->
    Forall
      (fun a =>
         is_government a = true ->
         wealth a = Fin 1000000 /\ income a = Fin 0 /\ happiness a = Fin 0.5
         /\ strategy a = regulate)
      (agents s).
Proof.
  intros Math_exp draws s Hr.
  change (Forall untouched_government (agents s)).
  induction Hr as [raw|s _ IH|s _ IH].
  - apply new_agents_Forall; intros i k Hg; try discriminate Hg.
    repeat split; reflexivity.
  - rewrite agents_runStep. apply Forall_map. revert IH. apply Forall_impl.
    intro a. apply untouched_step_agent.
  - cbn [deployAGI agents]. apply Forall_map. revert IH. apply Forall_impl.
    intro a. apply untouched_shock.
Qed.

Lemma government_is_never_touched_witness :
  Forall
    (fun a =>
       is_government a = true ->
       wealth a = Fin 1000000 /\ income a = Fin 0 /\ happiness a = Fin 0.5
       /\ strategy a = regulate)
    (agents (handleStep (mkStepRequest (Some 7) true)
               (new_Simulation exp_steps sample_draws
                  (mkRawParams (Some 10) None None None (Some 50) (Some 0.5) None)))).
Proof.
  apply (government_is_never_touched exp_steps sample_draws).
  apply reachable_handleStep, reach_new.
Defined.

(** ** A negative agent count *)

Lemma loop_indices_app (lo mid : Z) (hi : Q) :
  (lo <= mid)%Z -> (mid <= Qceiling hi)%Z ->
  loop_indices lo (inject_Z mid) ++ loop_indices mid hi = loop_indices lo hi.
Proof.
  intros H1 H2. unfold loop_indices. rewrite Qceiling_Z.
  replace (Z.to_nat (Qceiling hi - lo))
    with (Z.to_nat (mid - lo) + Z.to_nat (Qceiling hi - mid))%nat by lia.
  rewrite seq_app, map_app. f_equal.
  rewrite Nat.add_0_l.
  replace (Z.to_nat (mid - lo)) with (Z.to_nat (mid - lo) + 0)%nat at 1 by lia.
  generalize (Z.to_nat (Qceiling hi - mid)). intro n.
  generalize 0%nat. induction n as [|n IH]; intro k; simpl; [reflexivity|].
  f_equal; [lia|].
  rewrite (IH (S k)). f_equal. f_equal. lia.
Qed.

Lemma length_loop_indices (lo : Z) (hi : Q) :
  length (loop_indices lo hi) = Z.to_nat (Qceiling hi - lo).
Proof. unfold loop_indices. rewrite length_map, length_seq. reflexivity. Qed.

Lemma length_filter_const {A : Type} (q : AgentType -> bool) (t : AgentType)
    (l : list A) :
  length (filter q (map (fun _ => t) l)) = if q t then length l else 0%nat.
Proof.
  induction l as [|x rest IH]; simpl.
  - destruct (q t); reflexivity.
  - destruct (q t); simpl; rewrite ?IH; reflexivity.
Qed.

Lemma count_in_bands (q : AgentType -> bool) (lw lc lg : list Z) :
  length (filter q (map (fun _ => worker) lw ++ map (fun _ => capitalist) lc
                    ++ map (fun _ => government) lg))
  = ((if q worker then length lw else 0)
     + (if q capitalist then length lc else 0)
     + (if q government then length lg else 0))%nat.
Proof.
  rewrite !filter_app, !length_app, !length_filter_const. lia.
Qed.



(** ** Statistics *)

Lemma finite_values {A : Type} (g : A -> num) (P : Q -> Prop) (Pn : num -> Prop)
    (l : list A) :
  (forall x, Pn x -> exists q, x = Fin q /\ P q) ->
  Forall (fun a => Pn (g a)) l ->
  exists qs, map g l = map Fin qs /\ Forall P qs.
Proof.
  intros HP H. induction H as [|a rest Ha _ (qs & Eqs & Hqs)].
  - exists []. split; [reflexivity | constructor].
  - destruct (HP _ Ha) as (q & Eq & Hq).
    exists (q :: qs). simpl. rewrite Eq, Eqs. split; [reflexivity|].
    constructor; assumption.
Qed.

Lemma in_unit_inv (x : num) : in_unit x -> exists q, x = Fin q /\ 0 <= q <= 1.
Proof. destruct x as [q| | |]; simpl; try contradiction. intro H. exists q. auto. Qed.

Lemma total_in_unit (l : list Q) :
  Forall (fun q => 0 <= q <= 1) l ->
  0 <= total l <= inject_Z (Z.of_nat (length l)).
Proof.
  induction 1 as [|x rest Hx _ IH]; cbn [length total].
  - change (inject_Z (Z.of_nat 0)) with 0. lra.
  - rewrite Nat2Z.inj_succ, <- Z.add_1_r, inject_Z_plus.
    change (inject_Z 1) with 1. lra.
Qed.

(** The mean of values of the unit interval over a cohort that is not empty. *)
Lemma mean_in_unit {A : Type} (g : A -> num) (l : list A) :
  l <> [] -> Forall (fun a => in_unit (g a)) l ->
  in_unit (reduce_sum g l / length_num l)%num.
Proof.
  intros Hne H.
  destruct (finite_values g (fun q => 0 <= q <= 1) in_unit l in_unit_inv H)
    as (qs & Eqs & Hqs).
  rewrite reduce_sum_map, Eqs.
  destruct (reduce_sum_Fin qs) as (r & -> & Er).
  assert (Hlen : length l = length qs).
  { rewrite <- (length_map g l), Eqs. apply length_map. }
  assert (Hn : 0 < inject_Z (Z.of_nat (length l))).
  { destruct l as [|a rest]; [congruence|].
    change 0 with (inject_Z 0). rewrite <- Zlt_Qlt. simpl length. lia. }
  pose proof (total_in_unit qs Hqs) as Ht. rewrite <- Hlen in Ht.
  unfold length_num, of_Z. cbn [div].
  destruct (Qeq_bool (inject_Z (Z.of_nat (length l))) 0) eqn:E.
  - apply Qeq_bool_iff in E. rewrite E in Hn. discriminate Hn.
  - simpl. split.
    + apply Qle_shift_div_l; [exact Hn | lra].
    + apply Qle_shift_div_r; [exact Hn | lra].
Qed.

Lemma mean_of_nobody {A : Type} (g : A -> num) :
  (reduce_sum g (@nil A) / length_num (@nil A))%num = NaN.
Proof. reflexivity. Qed.

(** The means [getStats] reports over a cohort without members are NaN,
    with a count of 0; and so is the mean that [runStep] appends to the
    history when it samples such a population.  No operation changes who
    is a worker or a capitalist, so a population built without capitalists
    (any whole agent count up to 5) reports NaN for them forever. *)
Theorem means_of_an_empty_cohort :
  forall s : Simulation,
    (filter is_worker (agents s) = [] ->
     Stats.workerCount (getStats s) = 0%Z
     /\ Stats.workerHappiness (getStats s) = NaN
     /\ Stats.avgWorkerWealth (getStats s) = NaN)
    /\ (filter is_capitalist (agents s) = [] ->
        Stats.capitalistCount (getStats s) = 0%Z
        /\ Stats.capitalistHappiness (getStats s) = NaN
        /\ Stats.avgCapitalistWealth (getStats s) = NaN
        /\ (Z.rem (step s + 1) 5 = 0%Z ->
            capitalistHappiness (history (runStep s))
            = capitalistHappiness (history s) ++ [NaN])).
Proof.
  intro s. split.
  - intro E. unfold getStats. cbn [Stats.workerCount Stats.workerHappiness
                                   Stats.avgWorkerWealth].
    rewrite E. repeat split; reflexivity.
  - intro E. unfold getStats. cbn [Stats.capitalistCount Stats.capitalistHappiness
                                   Stats.avgCapitalistWealth].
    rewrite E. repeat split; try reflexivity.
    intro Hrem. rewrite history_runStep, Hrem. cbn [Z.eqb record_history capitalistHappiness].
    assert (Hc : filter is_capitalist (agents (runStep s)) = []).
    { apply length_zero_iff_nil.
      apply (f_equal (@length Agent)) in E. revert E.
      change is_capitalist with (fun a => AgentType_eqb (type a) capitalist).
      rewrite !(length_filter_type (fun t => AgentType_eqb t capitalist)).
      destruct (runSteps_frame 1 s) as (_ & Ht & _). cbn [runSteps] in Ht.
      rewrite Ht. exact (fun E => E). }
    rewrite Hc. reflexivity.
Qed.

Lemma means_of_an_empty_cohort_witness :
  let s := new_Simulation exp_steps sample_draws
             (mkRawParams (Some 5) None None None None None None) in
  filter is_capitalist (agents s) = []
  /\ length (filter is_worker (agents s)) = 4%nat
  /\ Stats.capitalistHappiness (getStats s) = NaN
  /\ Stats.avgCapitalistWealth (getStats s) = NaN.
Proof.
  assert (E : filter is_capitalist
                (agents (new_Simulation exp_steps sample_draws
                           (mkRawParams (Some 5) None None None None None None))) = [])
    by reflexivity.
  split; [exact E|]. split; [reflexivity|].
  destruct (proj2 (means_of_an_empty_cohort
                     (new_Simulation exp_steps sample_draws
                        (mkRawParams (Some 5) None None None None None None))) E)
    as (_ & Hh & Hw & _).
  split; assumption.
Defined.

Lemma happiness_reachable (Math_exp : Q -> Q) (draws : nat -> Q) (s : Simulation) :
  reachable Math_exp draws s -> happiness_in_range s.
Proof.
  intro Hr. induction Hr as [raw|s _ IH|s _ IH].
  - apply happiness_new_Simulation.
  - apply happiness_runStep. revert IH. apply Forall_impl.
    intro a. apply in_unit_defined.
  - apply happiness_deployAGI. exact IH.
Qed.

(** In a state whose happiness values all lie in [0, 1], as in every
    reachable state, the mean happiness [getStats] reports for a cohort
    that has members lies in [0, 1] too. *)
Theorem mean_happiness_within_unit_interval :
  forall s : Simulation,
    happiness_in_range s ->
    (filter is_worker (agents s) <> [] ->
     in_unit (Stats.workerHappiness (getStats s)))
    /\ (filter is_capitalist (agents s) <> [] ->
        in_unit (Stats.capitalistHappiness (getStats s))).
Proof.
  intros s H. split; intro Hne; cbn [getStats Stats.workerHappiness
                                      Stats.capitalistHappiness];
    apply mean_in_unit; try exact Hne;
    apply Forall_forall; intros a Ha; apply filter_In in Ha;
    destruct Ha as [Ha _]; unfold happiness_in_range in H;
    rewrite Forall_forall in H; apply H; exact Ha.
Qed.

Lemma mean_happiness_within_unit_interval_witness :
  let s := handleStep (mkStepRequest (Some 7) true)
             (new_Simulation exp_steps sample_draws
                (mkRawParams (Some 10) None None None (Some 50) (Some 0.5) None)) in
  happiness_in_range s
  /\ in_unit (Stats.workerHappiness (getStats s))
  /\ in_unit (Stats.capitalistHappiness (getStats s)).
Proof.
  assert (H : happiness_in_range
                (handleStep (mkStepRequest (Some 7) true)
                   (new_Simulation exp_steps sample_draws
                      (mkRawParams (Some 10) None None None (Some 50) (Some 0.5) None)))).
  { apply (happiness_reachable exp_steps sample_draws).
    apply reachable_handleStep, reach_new. }
  split; [exact H|].
  destruct (mean_happiness_within_unit_interval _ H) as [Hw Hc].
  split; [apply Hw | apply Hc]; vm_compute; discriminate.
Defined.

Lemma sample_is_current_stats (s : Simulation) :
  Z.rem (step s + 1) 5 = 0%Z ->
  let s' := runStep s in
  last (steps (history s')) 0%Z = Stats.step (getStats s')
  /\ last (gini (history s')) NaN = Stats.gini (getStats s')
  /\ last (velocity (history s')) NaN = Stats.velocity (getStats s')
  /\ last (workerHappiness (history s')) NaN = Stats.workerHappiness (getStats s')
  /\ last (capitalistHappiness (history s')) NaN
     = Stats.capitalistHappiness (getStats s').
Proof.
  intros Hrem s'. unfold s'. rewrite history_runStep, Hrem.
  cbn [Z.eqb record_history steps gini velocity workerHappiness capitalistHappiness].
  rewrite !last_last. repeat split; reflexivity.
Qed.

(** Whenever an Advance request moves the step counter to a multiple of
    five and performs no deployment, the statistics of the state it leaves
    are the latest entries of the five history sequences.  (A deployment
    in the same request happens after the last sample, so the statistics
    then describe a state the history has not recorded.) *)
Theorem stats_match_the_latest_sample :
  forall (body : StepRequest) (s : Simulation),
    let s' := handleStep body s in
    (step s < step s')%Z ->
    Z.rem (step s') 5 = 0%Z ->
    req_deployAGI body = false \/ agiDeployed s = true ->
    last (steps (history s')) 0%Z = Stats.step (getStats s')
    /\ last (gini (history s')) NaN = Stats.gini (getStats s')
    /\ last (velocity (history s')) NaN = Stats.velocity (getStats s')
    /\ last (workerHappiness (history s')) NaN = Stats.workerHappiness (getStats s')
    /\ last (capitalistHappiness (history s')) NaN
       = Stats.capitalistHappiness (getStats s').
Proof.
  intros body s s' Hlt Hrem Hno.
  assert (Hs' : s' = runSteps (Z.to_nat (Qceiling (or_default (req_steps body) 5))) s).
  { unfold s', handleStep. destruct Hno as [E|E].
    - rewrite E. reflexivity.
    - destruct (req_deployAGI body); [|reflexivity].
      apply Deploy_when_deployed. rewrite agiDeployed_runSteps. exact E. }
  rewrite Hs' in *. clear Hs'.
  destruct (Z.to_nat (Qceiling (or_default (req_steps body) 5))) as [|k].
  - cbn [runSteps] in Hlt. lia.
  - rewrite runSteps_snoc in *. apply sample_is_current_stats.
    rewrite step_runStep in Hrem. exact Hrem.
Qed.

Lemma stats_match_the_latest_sample_witness :
  let s := new_Simulation exp_steps sample_draws
             (mkRawParams (Some 10) None None None (Some 50) None None) in
  let s' := handleStep (mkStepRequest (Some 10) false) s in
  (step s < step s')%Z
  /\ last (gini (history s')) NaN = Stats.gini (getStats s')
  /\ last (workerHappiness (history s')) NaN = Stats.workerHappiness (getStats s').
Proof.
  split; [reflexivity|].
  destruct (stats_match_the_latest_sample (mkStepRequest (Some 10) false)
              (new_Simulation exp_steps sample_draws
                 (mkRawParams (Some 10) None None None (Some 50) None None))
              ltac:(reflexivity) ltac:(reflexivity) (or_introl eq_refl))
    as (_ & Hg & _ & Hw & _).
  split; assumption.
Defined.

(** With a deployment in the request the two differ: the sample of step 5
    holds the mean worker happiness before the shock, the statistics the
    one after it. *)
Remark stats_after_deployment_differ_from_sample :
  let s := new_Simulation exp_steps sample_draws
             (mkRawParams (Some 10) None None None None None None) in
  let s' := handleStep (mkStepRequest (Some 5) true) s in
  is_value (last (workerHappiness (history s')) NaN) 0.6
  /\ is_value (Stats.workerHappiness (getStats s')) 0.3.
Proof. vm_compute. split; reflexivity. Qed.

(** ** Events *)

Lemma low_is_not_high (x : num) (lo hi : Q) :
  lo <= hi -> ltb x (Fin lo) = true -> gtb x (Fin hi) = false.
Proof.
  intros Hle. unfold gtb. destruct x as [q| | |]; simpl; try discriminate; try reflexivity.
  destruct (q ?= lo) eqn:E1; try discriminate. intros _.
  apply Qlt_alt in E1.
  destruct (hi ?= q) eqn:E2; try reflexivity.
  apply Qlt_alt in E2. lra.
Qed.

Lemma high_is_not_low (x : num) (lo hi : Q) :
  lo <= hi -> gtb x (Fin hi) = true -> ltb x (Fin lo) = false.
Proof.
  intros Hle Hhi. destruct (ltb x (Fin lo)) eqn:E; [|reflexivity].
  rewrite (low_is_not_high x lo hi Hle E) in Hhi. discriminate.
Qed.

(** The events of an Advance response are one of five lists: none, one of
    the two warnings, both warnings with the inequality warning first, or
    the steady-state message alone.  The steady-state message never comes
    with a warning and never before the deployment; statistics that are NaN
    raise no event. *)
Theorem events_are_one_of_five :
  forall (stats : Stats.t) (deployed : bool),
    let ev := events_of stats deployed in
    (ev = [] \/ ev = [inequality_warning] \/ ev = [velocity_warning]
     \/ ev = [inequality_warning; velocity_warning] \/ ev = [steady_state])
    /\ (ev = [steady_state] -> deployed = true)
    /\ (Stats.gini stats = NaN -> Stats.velocity stats = NaN -> ev = []).
Proof.
  intros stats deployed ev. unfold ev, events_of.
  split; [|split].
  - destruct (gtb (Stats.gini stats) (Fin 0.7)) eqn:Eg.
    + rewrite (high_is_not_low _ 0.5 0.7 ltac:(discriminate) Eg). cbn [andb].
      destruct (ltb (Stats.velocity stats) (Fin 0.5)); cbn [app]; auto.
    + destruct (ltb (Stats.velocity stats) (Fin 0.5)) eqn:Ev.
      * rewrite (low_is_not_high _ 0.5 1.5 ltac:(discriminate) Ev).
        rewrite andb_false_r. cbn [andb app]. auto.
      * destruct (ltb (Stats.gini stats) (Fin 0.5)
                  && gtb (Stats.velocity stats) (Fin 1.5) && deployed);
          cbn [app]; auto 6.
  - destruct deployed; [reflexivity|]. rewrite andb_false_r.
    destruct (gtb (Stats.gini stats) (Fin 0.7)),
             (ltb (Stats.velocity stats) (Fin 0.5)); cbn [app]; discriminate.
  - intros -> ->. reflexivity.
Qed.

(** ** Properties of the service *)

Lemma fetch_by_route (Math_exp : Q -> Q) (draws : nat -> Q)
    (request : Request) (sv : Service) :
  Worker.fetch Math_exp draws request sv =
  match route request with
  | Preflight => (mkResponse 200 Worker.getCORSHeaders NoBody, sv)
  | ToSimulate => Worker.handleSimulate Math_exp draws request sv
  | ToStep => Worker.handleStep request sv
  | ToHistory => (Worker.handleHistory sv, sv)
  | ToReset => Worker.handleReset sv
  | Index => (mkResponse 200 [("Content-Type", "text/plain")]%string
                (Text Worker.index_text), sv)
  | NotFound => (mkResponse 404 [] (Text "Not found"%string), sv)
  end.
Proof.
  unfold Worker.fetch, route.
  destruct (String.eqb (method request) "OPTIONS"); [reflexivity|].
  destruct (String.eqb (pathname request) "/api/simulate"
            && String.eqb (method request) "POST"); [reflexivity|].
  destruct (String.eqb (pathname request) "/api/step"
            && String.eqb (method request) "POST"); [reflexivity|].
  destruct (String.eqb (pathname request) "/api/history"); [reflexivity|].
  destruct (String.eqb (pathname request) "/api/reset"
            && String.eqb (method request) "POST"); [reflexivity|].
  destruct (String.eqb (pathname request) "/"); reflexivity.
Qed.

Lemma route_posts (request : Request) :
  match route request with
  | ToSimulate => pathname request = "/api/simulate"%string /\ method request = "POST"%string
  | ToStep => pathname request = "/api/step"%string /\ method request = "POST"%string
  | ToReset => pathname request = "/api/reset"%string /\ method request = "POST"%string
  | _ => True
  end.
Proof.
  unfold route.
  destruct (String.eqb (method request) "OPTIONS"); [exact I|].
  destruct (String.eqb (pathname request) "/api/simulate"
            && String.eqb (method request) "POST") eqn:E1.
  { apply andb_prop in E1. destruct E1 as [E1 E2].
    apply String.eqb_eq in E1, E2. split; assumption. }
  destruct (String.eqb (pathname request) "/api/step"
            && String.eqb (method request) "POST") eqn:E2.
  { apply andb_prop in E2. destruct E2 as [E2 E3].
    apply String.eqb_eq in E2, E3. split; assumption. }
  destruct (String.eqb (pathname request) "/api/history"); [exact I|].
  destruct (String.eqb (pathname request) "/api/reset"
            && String.eqb (method request) "POST") eqn:E3.
  { apply andb_prop in E3. destruct E3 as [E3 E4].
    apply String.eqb_eq in E3, E4. split; assumption. }
  destruct (String.eqb (pathname request) "/"); exact I.
Qed.

(** A request that is answered with another status than 200 leaves the
    service exactly as it was; and the service changes only on a POST to
    /api/simulate, /api/step or /api/reset. *)
Theorem fetch_changes_only_on_success :
  forall (Math_exp : Q -> Q) (draws : nat -> Q) (request : Request) (sv : Service),
    let result := Worker.fetch Math_exp draws request sv in
    (status (fst result) <> 200%Z -> snd result = sv)
    /\ (snd result <> sv ->
        method request = "POST"%string
        /\ (pathname request = "/api/simulate"%string
            \/ pathname request = "/api/step"%string
            \/ pathname request = "/api/reset"%string)).
Proof.
  intros Math_exp draws request sv result. unfold result.
  rewrite fetch_by_route. pose proof (route_posts request) as Hr.
  destruct (route request).
  - split; [intros _; reflexivity | intro H; exfalso; apply H; reflexivity].
  - split; [|intros _; destruct Hr as [Hp Hm]; auto].
    unfold Worker.handleSimulate. destruct (json request); [reflexivity|].
    destruct (Worker.construct _ _ _ _). cbn. intro H. exfalso. apply H. reflexivity.
  - split; [|intros _; destruct Hr as [Hp Hm]; auto].
    unfold Worker.handleStep. destruct (simulationState sv); [|reflexivity].
    destruct (json request); [reflexivity|].
    cbn. intro H. exfalso. apply H. reflexivity.
  - split; [intros _; reflexivity | intro H; exfalso; apply H; reflexivity].
  - split; [|intros _; destruct Hr as [Hp Hm]; auto].
    cbn. intro H. exfalso. apply H. reflexivity.
  - split; [intros _; reflexivity | intro H; exfalso; apply H; reflexivity].
  - split; [intros _; reflexivity | intro H; exfalso; apply H; reflexivity].
Qed.

Lemma fetch_changes_only_on_success_witness :
  let request := mkRequest "POST"%string "/api/step"%string (inl "Unexpected end of JSON input"%string) in
  let sv := mkService (Some (new_Simulation exp_steps sample_draws
                               (mkRawParams (Some 10) None None None None None None)))
                      18 in
  status (fst (Worker.fetch exp_steps sample_draws request sv)) <> 200%Z
  /\ snd (Worker.fetch exp_steps sample_draws request sv) = sv.
Proof.
  assert (H : status (fst (Worker.fetch exp_steps sample_draws
                (mkRequest "POST"%string "/api/step"%string (inl "Unexpected end of JSON input"%string))
                (mkService (Some (new_Simulation exp_steps sample_draws
                                    (mkRawParams (Some 10) None None None None None None)))
                           18))) <> 200%Z) by discriminate.
  split; [exact H|].
  exact (proj1 (fetch_changes_only_on_success exp_steps sample_draws _ _) H).
Defined.

(** Every response has status 200, 400 or 404.  Status 400 goes with an
    error object and with nothing else; 404 is the bare text "Not found",
    for which the code passes no header.  The code passes the CORS headers
    and the JSON content type to every response except that 404 and the
    index text of the root path. *)
Theorem responses_are_classified :
  forall (Math_exp : Q -> Q) (draws : nat -> Q) (request : Request) (sv : Service),
    let response := fst (Worker.fetch Math_exp draws request sv) in
    (status response = 200%Z \/ status response = 400%Z \/ status response = 404%Z)
    /\ (status response = 400%Z <-> exists message, body response = ErrorReply message)
    /\ (status response = 404%Z <->
        response = mkResponse 404 [] (Text "Not found"%string))
    /\ (headers response = Worker.getCORSHeaders
        \/ response = mkResponse 200 [("Content-Type", "text/plain")]%string
                        (Text Worker.index_text)
        \/ response = mkResponse 404 [] (Text "Not found"%string)).
Proof.
  intros Math_exp draws request sv response. unfold response.
  rewrite fetch_by_route.
  assert (Hok : forall (p : Payload),
             (forall m, p <> ErrorReply m) ->
             let r := Worker.jsonResponse p 200 in
             (status r = 200%Z \/ status r = 400%Z \/ status r = 404%Z)
             /\ (status r = 400%Z <-> exists message, body r = ErrorReply message)
             /\ (status r = 404%Z <-> r = mkResponse 404 [] (Text "Not found"%string))
             /\ (headers r = Worker.getCORSHeaders
                 \/ r = mkResponse 200 [("Content-Type", "text/plain")]%string
                          (Text Worker.index_text)
                 \/ r = mkResponse 404 [] (Text "Not found"%string))).
  { intros p Hp r. cbn. repeat split; auto; try discriminate.
    intros [m Hm]. exfalso. exact (Hp m Hm). }
  assert (Herr : forall (m : String.string),
             let r := Worker.jsonResponse (ErrorReply m) 400 in
             (status r = 200%Z \/ status r = 400%Z \/ status r = 404%Z)
             /\ (status r = 400%Z <-> exists message, body r = ErrorReply message)
             /\ (status r = 404%Z <-> r = mkResponse 404 [] (Text "Not found"%string))
             /\ (headers r = Worker.getCORSHeaders
                 \/ r = mkResponse 200 [("Content-Type", "text/plain")]%string
                          (Text Worker.index_text)
                 \/ r = mkResponse 404 [] (Text "Not found"%string))).
  { intros m r. cbn. repeat split; auto; try discriminate.
    intros _. exists m. reflexivity. }
  destruct (route request).
  - cbn. repeat split; auto; try discriminate. intros [m Hm]. discriminate Hm.
  - unfold Worker.handleSimulate. destruct (json request) as [m|b].
    + apply Herr.
    + destruct (Worker.construct _ _ _ _). apply Hok. discriminate.
  - unfold Worker.handleStep. destruct (simulationState sv); [|apply Herr].
    destruct (json request) as [m|b]; [apply Herr|]. apply Hok. discriminate.
  - unfold Worker.handleHistory. destruct (simulationState sv); apply Hok; discriminate.
  - apply Hok. discriminate.
  - cbn. repeat split; auto; try discriminate. intros [m Hm]. discriminate Hm.
  - cbn. repeat split; auto; try discriminate. intros [m Hm]. discriminate Hm.
Qed.

Lemma history_aligned_handleStep (request : StepRequest) (s : Simulation) :
  history_aligned s -> history_aligned (handleStep request s).
Proof.
  intro H.
  assert (Hk : forall k, history_aligned (runSteps k s)).
  { induction k as [|k IH]; [exact H|].
    rewrite runSteps_snoc. apply history_aligned_runStep. exact IH. }
  unfold handleStep, Deploy.
  destruct (req_deployAGI request); [|apply Hk].
  destruct (negb (agiDeployed _)); apply Hk.
Qed.

Lemma length_sample_steps (m : nat) : length (sample_steps m) = m.
Proof. unfold sample_steps. rewrite length_map. apply length_seq. Qed.

Lemma fetch_keeps_aligned (Math_exp : Q -> Q) (draws : nat -> Q)
    (request : Request) (sv : Service) :
  holds_aligned sv ->
  reply_is_well_sampled (fst (Worker.fetch Math_exp draws request sv))
  /\ holds_aligned (snd (Worker.fetch Math_exp draws request sv)).
Proof.
  intro Hinv. rewrite fetch_by_route.
  assert (Hfresh : forall d raw, history_aligned (new_Simulation Math_exp d raw)).
  { intros d raw. unfold history_aligned. cbn. repeat split; reflexivity || lia. }
  destruct (route request).
  - split; [intros reply E; discriminate E | exact Hinv].
  - unfold Worker.handleSimulate.
    destruct (json request) as [m|b]; [split; [intros reply E; discriminate E | exact Hinv]|].
    unfold Worker.construct. cbn [fst snd]. split.
    + intros reply E. cbn in E. injection E as <-.
      exact (Hfresh (fun k => draws (drawn sv + k)%nat) (params_of b)).
    + intros sim E. cbn in E. injection E as <-.
      exact (Hfresh (fun k => draws (drawn sv + k)%nat) (params_of b)).
  - unfold Worker.handleStep. destruct (simulationState sv) as [sim|] eqn:Es;
      [|split; [intros reply E; discriminate E | exact Hinv]].
    destruct (json request) as [m|b]; [split; [intros reply E; discriminate E | exact Hinv]|].
    pose proof (history_aligned_handleStep (request_of b) sim (Hinv sim Es)) as Ha.
    cbn [fst snd]. split.
    + intros reply E. cbn in E. injection E as <-. exact Ha.
    + intros sim' E. cbn in E. injection E as <-. exact Ha.
  - split; [|exact Hinv]. unfold Worker.handleHistory.
    destruct (simulationState sv) as [sim|] eqn:Es; intros reply E; cbn in E;
      injection E as <-.
    + destruct (Hinv sim Es) as (_ & Hs & Hg & Hv & Hw & Hc).
      unfold well_sampled, holds_samples.
      rewrite Hs at 1. rewrite Hs, length_sample_steps. repeat split; assumption.
    + cbn. repeat split; reflexivity.
  - split; [intros reply E; discriminate E|]. intros sim E. discriminate E.
  - split; [intros reply E; discriminate E | exact Hinv].
  - split; [intros reply E; discriminate E | exact Hinv].
Qed.

(** Whatever requests the service receives from the moment it is loaded,
    every history it sends, in an Initialize, Advance or history reply,
    has five sequences of one length, with [steps] equal to 5, 10, ...;
    when the reply carries statistics, that length is the number of
    multiples of five up to their step counter. *)
Theorem every_history_sent_is_aligned :
  forall (Math_exp : Q -> Q) (draws : nat -> Q) (requests : list Request),
    Forall
      (fun response =>
         forall reply, reply_history (body response) = Some reply -> well_sampled reply)
      (fst (Worker.serve Math_exp draws requests Worker.initial)).
Proof.
  intros Math_exp draws requests.
  assert (H : forall sv, holds_aligned sv ->
                Forall reply_is_well_sampled (fst (Worker.serve Math_exp draws requests sv))).
  { induction requests as [|r rest IH]; intros sv Hinv; cbn [Worker.serve].
    - constructor.
    - destruct (fetch_keeps_aligned Math_exp draws r sv Hinv) as [Hr Hnext].
      destruct (Worker.fetch Math_exp draws r sv) as [response sv1].
      specialize (IH sv1 Hnext).
      destruct (Worker.serve Math_exp draws rest sv1) as [responses sv2].
      constructor; assumption. }
  apply H. intros sim E. discriminate E.
Qed.

Lemma route_of_post (request : Request) :
  method request = "POST"%string ->
  (pathname request = "/api/simulate"%string -> route request = ToSimulate)
  /\ (pathname request = "/api/step"%string -> route request = ToStep)
  /\ (pathname request = "/api/reset"%string -> route request = ToReset).
Proof.
  intro Hm. unfold route. rewrite Hm.
  repeat split; intros ->; reflexivity.
Qed.

Lemma route_of_history (request : Request) :
  method request <> "OPTIONS"%string ->
  pathname request = "/api/history"%string -> route request = ToHistory.
Proof.
  intros Hm Hp. unfold route. rewrite Hp.
  destruct (String.eqb_spec (method request) "OPTIONS"); [contradiction|].
  reflexivity.
Qed.

(** A reset always leaves the service without a simulation.  While there
    is none, an Advance request is refused with status 400 and the message
    "No simulation running" whatever its body, the history endpoint answers
    with five empty sequences, and the only request that brings a
    simulation into being is a POST to /api/simulate whose body parses. *)
Theorem only_initialize_starts_a_simulation :
  forall (Math_exp : Q -> Q) (draws : nat -> Q) (request : Request),
    (forall sv,
        pathname request = "/api/reset"%string -> method request = "POST"%string ->
        simulationState (snd (Worker.fetch Math_exp draws request sv)) = None)
    /\ (forall sv,
        simulationState sv = None ->
        let result := Worker.fetch Math_exp draws request sv in
        (simulationState (snd result) <> None ->
         pathname request = "/api/simulate"%string /\ method request = "POST"%string
         /\ exists b, json request = inr b)
        /\ (pathname request = "/api/step"%string -> method request = "POST"%string ->
            result = (mkResponse 400 Worker.getCORSHeaders
                        (ErrorReply "No simulation running"%string), sv))
        /\ (pathname request = "/api/history"%string ->
            method request <> "OPTIONS"%string ->
            result = (mkResponse 200 Worker.getCORSHeaders
                        (HistoryReply (mkHistory [] [] [] [] [])), sv))).
Proof.
  intros Math_exp draws request. split.
  - intros sv Hp Hm. rewrite fetch_by_route.
    destruct (route_of_post request Hm) as (_ & _ & Hr). rewrite (Hr Hp). reflexivity.
  - intros sv Hnone result. unfold result. split; [|split].
    + rewrite fetch_by_route. pose proof (route_posts request) as Hr.
      destruct (route request); cbn [snd]; try (intro H; exfalso; apply H; exact Hnone).
      * unfold Worker.handleSimulate. destruct (json request) as [m|b].
        -- intro H. exfalso. apply H. exact Hnone.
        -- intros _. destruct Hr as [Hp Hm]. repeat split; try assumption.
           exists b. reflexivity.
      * unfold Worker.handleStep. rewrite Hnone.
        intro H. exfalso. apply H. exact Hnone.
      * intro H. exfalso. apply H. reflexivity.
    + intros Hp Hm. rewrite fetch_by_route.
      destruct (route_of_post request Hm) as (_ & Hr & _). rewrite (Hr Hp).
      unfold Worker.handleStep. rewrite Hnone. reflexivity.
    + intros Hp Hm. rewrite fetch_by_route, (route_of_history request Hm Hp).
      unfold Worker.handleHistory. rewrite Hnone. reflexivity.
Qed.

Lemma only_initialize_starts_a_simulation_witness :
  let reset := mkRequest "POST"%string "/api/reset"%string (inl "no body"%string) in
  let advance :=
    mkRequest "POST"%string "/api/step"%string
      (inr (mkBody (mkRawParams None None None None None None None)
                   (mkStepRequest (Some 5) false))) in
  let sv := snd (Worker.fetch exp_steps sample_draws reset
                   (mkService (Some (new_Simulation exp_steps sample_draws
                                       (mkRawParams (Some 10) None None None None None None)))
                              18)) in
  simulationState sv = None
  /\ Worker.fetch exp_steps sample_draws advance sv
     = (mkResponse 400 Worker.getCORSHeaders
          (ErrorReply "No simulation running"%string), sv).
Proof.
  split; [reflexivity|].
  exact (proj1 (proj2 (proj2 (only_initialize_starts_a_simulation exp_steps sample_draws
           (mkRequest "POST"%string "/api/step"%string
              (inr (mkBody (mkRawParams None None None None None None None)
                           (mkStepRequest (Some 5) false)))))
           (mkService None 18) eq_refl)) eq_refl eq_refl).
Defined.

(** ** The two listeners compared *)

(** On a POST with a body that parses, sent to one of the four API paths,
    the two listeners leave the same service state and answer with the same
    status and the same body; they differ only in the headers they pass:
    the Service Worker listener adds the JSON content type to the three
    CORS headers of the ES module listener. *)
Theorem listeners_agree_on_parsable_posts :
  forall (Math_exp : Q -> Q) (draws : nat -> Q) (request : Request) (sv : Service)
         (b : Body),
    method request = "POST"%string ->
    json request = inr b ->
    pathname request = "/api/simulate"%string \/ pathname request = "/api/step"%string
    \/ pathname request = "/api/history"%string \/ pathname request = "/api/reset"%string ->
    let sw := Worker.fetch Math_exp draws request sv in
    let mw := ModuleWorker.fetch Math_exp draws request sv in
    snd sw = snd mw
    /\ status (fst sw) = status (fst mw)
    /\ body (fst sw) = body (fst mw)
    /\ headers (fst sw) = headers (fst mw) ++ [("Content-Type", "application/json")]%string.
Proof.
  intros Math_exp draws request sv b Hm Hj Hp sw mw. unfold sw, mw.
  unfold Worker.fetch, ModuleWorker.fetch. rewrite Hm.
  change (String.eqb "POST" "OPTIONS") with false. cbv iota.
  change (String.eqb "POST" "POST") with true. rewrite !andb_true_r.
  destruct Hp as [Hp|[Hp|[Hp|Hp]]]; rewrite Hp.
  - change (String.eqb "/api/simulate" "/api/simulate") with true. cbv iota.
    unfold Worker.handleSimulate, ModuleWorker.handleSimulate,
      ModuleWorker.json_or_empty. rewrite Hj.
    destruct (Worker.construct _ _ _ _). repeat split; reflexivity.
  - change (String.eqb "/api/step" "/api/simulate") with false.
    change (String.eqb "/api/step" "/api/step") with true. cbv iota.
    unfold Worker.handleStep, ModuleWorker.handleStep, ModuleWorker.json_or_empty.
    rewrite Hj. destruct (simulationState sv); repeat split; reflexivity.
  - change (String.eqb "/api/history" "/api/simulate") with false.
    change (String.eqb "/api/history" "/api/step") with false.
    change (String.eqb "/api/history" "/api/history") with true. cbv iota.
    unfold Worker.handleHistory, ModuleWorker.handleHistory.
    destruct (simulationState sv); repeat split; reflexivity.
  - change (String.eqb "/api/reset" "/api/simulate") with false.
    change (String.eqb "/api/reset" "/api/step") with false.
    change (String.eqb "/api/reset" "/api/history") with false.
    change (String.eqb "/api/reset" "/api/reset") with true. cbv iota.
    repeat split; reflexivity.
Qed.

Lemma listeners_agree_on_parsable_posts_witness :
  let request :=
    mkRequest "POST"%string "/api/simulate"%string
      (inr (mkBody (mkRawParams (Some 10) None None None (Some 50) None None)
                   (mkStepRequest None false))) in
  snd (Worker.fetch exp_steps sample_draws request Worker.initial)
  = snd (ModuleWorker.fetch exp_steps sample_draws request Worker.initial)
  /\ body (fst (Worker.fetch exp_steps sample_draws request Worker.initial))
     = body (fst (ModuleWorker.fetch exp_steps sample_draws request Worker.initial)).
Proof.
  destruct (listeners_agree_on_parsable_posts exp_steps sample_draws
              (mkRequest "POST"%string "/api/simulate"%string
                 (inr (mkBody (mkRawParams (Some 10) None None None (Some 50) None None)
                              (mkStepRequest None false))))
              Worker.initial _ eq_refl eq_refl (or_introl eq_refl))
    as (Hs & _ & Hb & _).
  split; [exact Hs | exact Hb].
Defined.

(** Where they part: an Advance request whose body does not parse, or
    whose method is neither POST nor OPTIONS, is turned down by the Service
    Worker listener (400 or 404, nothing changes) but carried out by the
    ES module listener; with an unparsable body it runs the default five
    steps without deployment. *)
Theorem module_listener_runs_what_the_other_refuses :
  forall (Math_exp : Q -> Q) (draws : nat -> Q) (request : Request) (sv : Service)
         (sim : Simulation),
    pathname request = "/api/step"%string ->
    method request <> "OPTIONS"%string ->
    simulationState sv = Some sim ->
    method request <> "POST"%string \/ (exists message, json request = inl message) ->
    let sw := Worker.fetch Math_exp draws request sv in
    let mw := ModuleWorker.fetch Math_exp draws request sv in
    (status (fst sw) = 400%Z \/ status (fst sw) = 404%Z)
    /\ snd sw = sv
    /\ status (fst mw) = 200%Z
    /\ simulationState (snd mw)
       = Some (handleStep (request_of (ModuleWorker.json_or_empty request)) sim)
    /\ ((exists message, json request = inl message) ->
        simulationState (snd mw) = Some (runSteps 5 sim)).
Proof.
  intros Math_exp draws request sv sim Hp Hno Hsim Hwhy sw mw.
  assert (Hmw : mw = ModuleWorker.handleStep request sv).
  { unfold mw, ModuleWorker.fetch. rewrite Hp.
    destruct (String.eqb_spec (method request) "OPTIONS"); [contradiction|].
    reflexivity. }
  assert (Hsw : (status (fst sw) = 400%Z \/ status (fst sw) = 404%Z) /\ snd sw = sv).
  { unfold sw. rewrite fetch_by_route. unfold route. rewrite Hp.
    destruct (String.eqb_spec (method request) "OPTIONS"); [contradiction|].
    change (String.eqb "/api/step" "/api/simulate") with false.
    change (String.eqb "/api/step" "/api/step") with true.
    change (String.eqb "/api/step" "/api/history") with false.
    change (String.eqb "/api/step" "/api/reset") with false.
    change (String.eqb "/api/step" "/") with false.
    cbn [andb]. destruct (String.eqb_spec (method request) "POST") as [Hpost|Hpost].
    - destruct Hwhy as [Hw|[m Hw]]; [contradiction|].
      unfold Worker.handleStep. rewrite Hsim, Hw. split; [left|]; reflexivity.
    - split; [right|]; reflexivity. }
  destruct Hsw as [Hst Hsv].
  rewrite Hmw. unfold ModuleWorker.handleStep. rewrite Hsim. cbn [fst snd status simulationState].
  repeat split; try assumption.
  intros [m Hj]. unfold ModuleWorker.json_or_empty. rewrite Hj. reflexivity.
Qed.

Lemma module_listener_runs_what_the_other_refuses_witness :
  let sim := new_Simulation exp_steps sample_draws
               (mkRawParams (Some 10) None None None None None None) in
  let request := mkRequest "GET"%string "/api/step"%string (inl "no body"%string) in
  let sv := mkService (Some sim) 18 in
  snd (Worker.fetch exp_steps sample_draws request sv) = sv
  /\ simulationState (snd (ModuleWorker.fetch exp_steps sample_draws request sv))
     = Some (runSteps 5 sim).
Proof.
  destruct (module_listener_runs_what_the_other_refuses exp_steps sample_draws
              (mkRequest "GET"%string "/api/step"%string (inl "no body"%string))
              (mkService (Some (new_Simulation exp_steps sample_draws
                                  (mkRawParams (Some 10) None None None None None None)))
                         18)
              _ eq_refl ltac:(discriminate) eq_refl
              (or_intror (ex_intro _ "no body"%string eq_refl)))
    as (_ & Hsw & _ & _ & Hmw).
  split; [exact Hsw|].
  apply Hmw. exists "no body"%string. reflexivity.
Defined.

(** ** An explicit [agiBoost] of 0 *)

Lemma after_ubi_map (p : Params) (l : list Agent) :
  after_ubi p l =
  map (fun a => if ubi_on p && is_worker (strategy_phase a)
                then pay_ubi p (strategy_phase a) else strategy_phase a) l.
Proof.
  unfold after_ubi, forEach_where. destruct (ubi_on p); [rewrite map_map|];
    reflexivity.
Qed.

Lemma reduce_sum_NaN {A : Type} (g : A -> num) (l : list A) :
  l <> [] -> Forall (fun a => g a = NaN) l -> reduce_sum g l = NaN.
Proof.
  intros Hne H. unfold reduce_sum.
  assert (Habs : forall l' : list A, fold_left (fun sum x => (sum + g x)%num) l' NaN = NaN).
  { induction l' as [|x rest IH]; [reflexivity | exact IH]. }
  destruct H as [|a rest Ha _]; [congruence|].
  cbn [fold_left]. rewrite Ha. apply Habs.
Qed.

(** The tax on an income of 0 when [agiBoost] is 0: 0 * (1 - 1/0) is NaN. *)
Lemma tax_of_zero_boost (p : Params) (c : Agent) (z : Q) :
  agiBoost p == 0 -> z == 0 -> income c = Fin z -> tax_of p c = NaN.
Proof.
  intros Hb Hz Hi. unfold tax_of. rewrite Hi. cbn [sub neg add div mul].
  apply Qeq_bool_iff in Hb. rewrite Hb. cbn [inf_of Qcompare].
  change (1 ?= 0) with Gt. cbn [inf_of neg add mul].
  assert (E : (0 ?= z) = Eq) by (apply Qeq_alt; symmetry; exact Hz).
  rewrite E. reflexivity.
Qed.

Lemma income_shocked_capitalist (b : Q) (a : Agent) (i : Q) :
  is_capitalist a = true -> income a = Fin i -> b == 0 ->
  is_capitalist (strategy_phase (shock b a)) = true
  /\ exists z, income (strategy_phase (shock b a)) = Fin z /\ z == 0.
Proof.
  intros Hc Hi Hb. split.
  - unfold is_capitalist in *. rewrite type_strategy_phase.
    destruct (shock_frame b a) as (_ & Ht & _). rewrite Ht. exact Hc.
  - rewrite income_strategy_phase.
    destruct (shock_frame b a) as (_ & Ht & Hs).
    assert (Hc' : is_capitalist (shock b a) = true)
      by (unfold is_capitalist in *; rewrite Ht; exact Hc).
    assert (Hinc : income (shock b a) = Fin (i * b)).
    { unfold shock. rewrite Hc. cbn [income set_wealth set_income]. rewrite Hi.
      reflexivity. }
    rewrite Hc', Hinc.
    destruct (strategy (shock b a)); eexists; (split; [reflexivity|]); rewrite Hb; ring.
Qed.

(** When the input sets [agiBoost] to 0 explicitly (the default 5 applies
    to an absent key only) and the compute tax is on, the step after the
    deployment turns the income of every capitalist into NaN, and with it,
    if there is any capitalist, the income of every worker: the shock has
    multiplied the capitalists' incomes by 0, and the tax then computes
    0 * (1 - 1/0). *)
Theorem zero_agiBoost_turns_incomes_into_NaN :
  forall s : Simulation,
    agiBoost (params s) == 0 ->
    0 < computeTax (params s) ->
    Forall (fun a => is_capitalist a = true -> exists i, income a = Fin i) (agents s) ->
    let s' := runStep (deployAGI s) in
    Forall (fun a => is_capitalist a = true -> income a = NaN) (agents s')
    /\ (filter is_capitalist (agents s) <> [] ->
        Forall (fun a => is_worker a = true -> income a = NaN) (agents s')).
Proof.
  intros s Hb Hct Hfin s'.
  set (p := params s).
  assert (Hon : tax_on p true = true).
  { assert (E : (0 ?= computeTax p) = Lt) by (apply Qlt_alt; exact Hct).
    unfold tax_on, gtb, ltb. rewrite E. reflexivity. }
  assert (Hags : agents s' =
                 map (fun a => step_agent p true
                                 (revenue_share p (map (shock (agiBoost p)) (agents s)))
                                 (shock (agiBoost p) a))
                     (agents s)).
  { unfold s'. rewrite agents_runStep. cbn [deployAGI params agiDeployed agents].
    rewrite map_map. reflexivity. }
  assert (Hcap : forall a, In a (agents s) -> is_capitalist a = true ->
                   is_capitalist (strategy_phase (shock (agiBoost p) a)) = true
                   /\ tax_of p (strategy_phase (shock (agiBoost p) a)) = NaN).
  { intros a Ha Hc. rewrite Forall_forall in Hfin.
    destruct (Hfin a Ha Hc) as (i & Hi).
    destruct (income_shocked_capitalist (agiBoost p) a i Hc Hi Hb) as (Hc' & z & Hz & Ez).
    split; [exact Hc'|]. apply (tax_of_zero_boost p _ z Hb Ez Hz). }
  split.
  - rewrite Hags. apply Forall_map, Forall_forall. intros a Ha Hc.
    assert (Hca : is_capitalist a = true).
    { unfold is_capitalist in *. rewrite type_step_agent in Hc.
      destruct (shock_frame (agiBoost p) a) as (_ & Ht & _). rewrite Ht in Hc. exact Hc. }
    destruct (Hcap a Ha Hca) as [Hc' Htax].
    unfold step_agent. rewrite Hon, (capitalist_not_worker _ Hc'), andb_false_r, Hc'.
    rewrite (capitalist_not_worker (pay_tax p _) Hc').
    cbn [pay_tax income set_income set_happiness]. rewrite Htax.
    destruct (income (strategy_phase (shock (agiBoost p) a))); reflexivity.
  - intro Hne.
    assert (Hshare : revenue_share p (map (shock (agiBoost p)) (agents s)) = NaN).
    { unfold revenue_share. rewrite after_ubi_map, map_map.
      rewrite reduce_sum_NaN; [reflexivity| |].
      - destruct (filter is_capitalist (agents s)) as [|c rest] eqn:E; [congruence|].
        assert (Hin : In c (filter is_capitalist (agents s))) by (rewrite E; left; reflexivity).
        apply filter_In in Hin. destruct Hin as [Hin Hc].
        destruct (Hcap c Hin Hc) as [Hc' _].
        intro Hnil.
        assert (Hin' : In (strategy_phase (shock (agiBoost p) c))
                         (filter is_capitalist
                            (map (fun a => if ubi_on p
                                                && is_worker (strategy_phase (shock (agiBoost p) a))
                                           then pay_ubi p (strategy_phase (shock (agiBoost p) a))
                                           else strategy_phase (shock (agiBoost p) a))
                                 (agents s)))).
        { apply filter_In. split; [|exact Hc'].
          apply in_map_iff. exists c. split; [|exact Hin].
          rewrite (capitalist_not_worker _ Hc'), andb_false_r. reflexivity. }
        rewrite Hnil in Hin'. exact Hin'.
      - apply Forall_forall. intros x Hx. apply filter_In in Hx.
        destruct Hx as [Hx Hxc]. apply in_map_iff in Hx.
        destruct Hx as (a & Ea & Ha).
        destruct (ubi_on p && is_worker (strategy_phase (shock (agiBoost p) a))) eqn:Eu.
        + exfalso. subst x. apply andb_prop in Eu. destruct Eu as [_ Ew].
          unfold is_capitalist, is_worker in *. cbn [pay_ubi type set_income set_happiness] in Hxc.
          destruct (type (strategy_phase (shock (agiBoost p) a))); discriminate.
        + subst x.
          assert (Hca : is_capitalist a = true).
          { unfold is_capitalist in *. rewrite type_strategy_phase in Hxc.
            destruct (shock_frame (agiBoost p) a) as (_ & Ht & _). rewrite Ht in Hxc.
            exact Hxc. }
          apply (Hcap a Ha Hca). }
    rewrite Hags, Hshare. apply Forall_map, Forall_forall. intros a Ha Hw.
    assert (Hw1 : is_worker (strategy_phase (shock (agiBoost p) a)) = true).
    { unfold is_worker in *. rewrite type_step_agent in Hw.
      rewrite type_strategy_phase. exact Hw. }
    assert (Hrec : forall x, is_worker x = true ->
              income (if is_worker (if is_capitalist x then pay_tax p x else x)
                      then receive NaN (if is_capitalist x then pay_tax p x else x)
                      else if is_capitalist x then pay_tax p x else x) = NaN).
    { intros x Hx. rewrite (worker_not_capitalist x Hx), Hx.
      cbn [receive income set_income]. destruct (income x); reflexivity. }
    unfold step_agent. rewrite Hon, Hw1.
    destruct (ubi_on p); cbn [andb]; apply Hrec; exact Hw1.
Qed.

Lemma zero_agiBoost_turns_incomes_into_NaN_witness :
  let s := new_Simulation exp_steps sample_draws
             (mkRawParams (Some 10) (Some 0) None None None (Some 0.5) None) in
  agiBoost (params s) == 0 /\ 0 < computeTax (params s)
  /\ filter is_capitalist (agents s) <> []
  /\ Forall (fun a => is_capitalist a = true -> income a = NaN)
            (agents (runStep (deployAGI s)))
  /\ Forall (fun a => is_worker a = true -> income a = NaN)
            (agents (runStep (deployAGI s))).
Proof.
  split; [reflexivity|]. split; [reflexivity|].
  assert (Hne : filter is_capitalist
                  (agents (new_Simulation exp_steps sample_draws
                     (mkRawParams (Some 10) (Some 0) None None None (Some 0.5) None))) <> [])
    by (vm_compute; discriminate).
  split; [exact Hne|].
  destruct (zero_agiBoost_turns_incomes_into_NaN
              (new_Simulation exp_steps sample_draws
                 (mkRawParams (Some 10) (Some 0) None None None (Some 0.5) None))
              ltac:(reflexivity) ltac:(reflexivity)) as [Hc Hw].
  - generalize (new_agents_income_finite exp_steps sample_draws
                  (mkRawParams (Some 10) (Some 0) None None None (Some 0.5) None)).
    apply Forall_impl. intros a H _. exact H.
  - split; [exact Hc | exact (Hw Hne)].
Defined.

(** ** The compute tax moves income, it does not make or lose any *)

Lemma income_value_Fin (a : Agent) (q : Q) : income a = Fin q -> income_value a = q.
Proof. unfold income_value. intros ->. reflexivity. Qed.

Lemma reduce_sum_income (l : list Agent) :
  Forall finite_income l ->
  exists r, reduce_sum income l = Fin r /\ r == total (map income_value l).
Proof.
  intro H.
  assert (E : map income l = map Fin (map income_value l)).
  { induction H as [|a rest [q Hq] _ IH]; [reflexivity|].
    cbn [map]. rewrite IH, (income_value_Fin a q Hq), Hq. reflexivity. }
  rewrite reduce_sum_map, E. apply reduce_sum_Fin.
Qed.

Lemma tax_of_Fin (p : Params) (c : Agent) (q : Q) :
  ~ agiBoost p == 0 -> income c = Fin q -> tax_of p c = Fin (tax_value p q).
Proof.
  intros Hb Hq. unfold tax_of, tax_value. rewrite Hq. cbn [div].
  destruct (Qeq_bool (agiBoost p) 0) eqn:E; [|reflexivity].
  apply Qeq_bool_iff in E. contradiction.
Qed.

Lemma revenue_Fin (p : Params) (l : list Agent) :
  ~ agiBoost p == 0 -> Forall finite_income l ->
  exists r, reduce_sum (tax_of p) l = Fin r
            /\ r == total (map (fun c => tax_value p (income_value c)) l).
Proof.
  intros Hb H.
  assert (E : map (tax_of p) l
              = map Fin (map (fun c => tax_value p (income_value c)) l)).
  { induction H as [|a rest [q Hq] _ IH]; [reflexivity|].
    cbn [map]. rewrite IH, (income_value_Fin a q Hq), (tax_of_Fin p a q Hb Hq).
    reflexivity. }
  rewrite reduce_sum_map, E. apply reduce_sum_Fin.
Qed.

Lemma compute_tax_map (p : Params) (l : list Agent) :
  compute_tax p l =
  map (taxed p (reduce_sum (tax_of p) (filter is_capitalist l)
                / length_num (filter is_worker l))%num) l.
Proof.
  unfold compute_tax, forEach_where, taxed. rewrite map_map. reflexivity.
Qed.

Lemma taxed_income (p : Params) (share : Q) (a : Agent) :
  ~ agiBoost p == 0 -> finite_income a ->
  finite_income (taxed p (Fin share) a)
  /\ income_value (taxed p (Fin share) a)
     == income_value a
        + (if is_worker a then share else 0)
        - (if is_capitalist a then tax_value p (income_value a) else 0).
Proof.
  intros Hb [q Hq]. rewrite (income_value_Fin a q Hq). unfold taxed.
  destruct (is_capitalist a) eqn:Ec.
  - assert (Hw : is_worker (pay_tax p a) = false)
      by (apply (capitalist_not_worker (pay_tax p a)); exact Ec).
    rewrite Hw, (capitalist_not_worker a Ec).
    assert (Hi : income (pay_tax p a) = Fin (q + - tax_value p q)).
    { cbn [pay_tax income set_income set_happiness].
      rewrite (tax_of_Fin p a q Hb Hq), Hq. reflexivity. }
    split; [eexists; exact Hi|].
    rewrite (income_value_Fin _ _ Hi). ring.
  - destruct (is_worker a) eqn:Ew.
    + assert (Hi : income (receive (Fin share) a) = Fin (q + share)).
      { cbn [receive income set_income]. rewrite Hq. reflexivity. }
      split; [eexists; exact Hi|].
      rewrite (income_value_Fin _ _ Hi). ring.
    + split; [exists q; exact Hq|].
      rewrite (income_value_Fin a q Hq). ring.
Qed.

Lemma total_after_tax (p : Params) (share : Q) (l : list Agent) :
  ~ agiBoost p == 0 -> Forall finite_income l ->
  Forall finite_income (map (taxed p (Fin share)) l)
  /\ total (map income_value (map (taxed p (Fin share)) l))
     == total (map income_value l)
        + share * inject_Z (Z.of_nat (length (filter is_worker l)))
        - total (map (fun c => tax_value p (income_value c)) (filter is_capitalist l)).
Proof.
  intros Hb H. induction H as [|a rest Ha _ [IHf IHt]].
  - split; [constructor|]. cbn. ring.
  - destruct (taxed_income p share a Hb Ha) as [Hf Ht].
    split; [constructor; assumption|].
    cbn [map total filter]. rewrite Ht, IHt.
    destruct (is_worker a), (is_capitalist a); cbn [length map total];
      rewrite ?Nat2Z.inj_succ, <- ?Z.add_1_r, ?inject_Z_plus;
      change (inject_Z 1) with 1; ring.
Qed.

(** In exact arithmetic the compute tax is neutral: when [agiBoost] is not
    0, all incomes are finite and there is at least one worker, the sum of
    all incomes is the same after the tax block as before it; what the
    capitalists pay is what the workers receive.  Without any worker the
    revenue is collected and handed to nobody: the sum drops by it. *)
Theorem compute_tax_is_neutral :
  forall (p : Params) (l : list Agent),
    ~ agiBoost p == 0 ->
    Forall finite_income l ->
    exists before after revenue : Q,
      reduce_sum income l = Fin before
      /\ reduce_sum income (compute_tax p l) = Fin after
      /\ reduce_sum (tax_of p) (filter is_capitalist l) = Fin revenue
      /\ (filter is_worker l <> [] -> after == before)
      /\ (filter is_worker l = [] -> after == before - revenue).
Proof.
  intros p l Hb Hfin.
  destruct (reduce_sum_income l Hfin) as (before & Eb & Hbefore).
  assert (Hcaps : Forall finite_income (filter is_capitalist l)).
  { apply Forall_forall. intros a Ha. apply filter_In in Ha.
    rewrite Forall_forall in Hfin. apply Hfin, Ha. }
  destruct (revenue_Fin p (filter is_capitalist l) Hb Hcaps) as (revenue & Er & Hrev).
  rewrite compute_tax_map, Er.
  destruct (filter is_worker l) as [|w ws] eqn:Ew.
  - (* nobody to receive: the share is never added *)
    assert (Hsame : forall share,
               map (taxed p share) l = map (taxed p (Fin 0)) l).
    { intro share. apply map_ext_in. intros a Ha. unfold taxed.
      destruct (is_worker (if is_capitalist a then pay_tax p a else a)) eqn:E;
        [|reflexivity].
      exfalso.
      assert (Hwa : is_worker a = true).
      { destruct (is_capitalist a); [|exact E].
        unfold is_worker in *. exact E. }
      assert (Hin : In a (filter is_worker l)) by (apply filter_In; split; assumption).
      rewrite Ew in Hin. exact Hin. }
    rewrite Hsame.
    destruct (total_after_tax p 0 l Hb Hfin) as [Hf Ht].
    destruct (reduce_sum_income _ Hf) as (after & Ea & Hafter).
    exists before, after, revenue. repeat split; try assumption.
    + intro H. congruence.
    + intros _. rewrite Hafter, Ht, Ew, Hbefore, Hrev. cbn [length]. ring.
  - set (n := inject_Z (Z.of_nat (length (w :: ws)))).
    assert (Hn : ~ n == 0).
    { unfold n. intro E. unfold Qeq in E. cbn [Qnum Qden inject_Z length] in E. lia. }
    assert (Hshare : (Fin revenue / length_num (w :: ws))%num = Fin (revenue / n)).
    { unfold length_num, of_Z. fold n. cbn [div].
      destruct (Qeq_bool n 0) eqn:E; [|reflexivity].
      apply Qeq_bool_iff in E. contradiction. }
    rewrite Hshare.
    destruct (total_after_tax p (revenue / n) l Hb Hfin) as [Hf Ht].
    destruct (reduce_sum_income _ Hf) as (after & Ea & Hafter).
    exists before, after, revenue. repeat split; try assumption.
    + intros _. rewrite Hafter, Ht, Ew, Hbefore, <- Hrev. fold n. field. exact Hn.
    + intro H. discriminate H.
Qed.

Lemma compute_tax_is_neutral_witness :
  let p := make_params (mkRawParams None None None None None (Some 0.5) None) in
  let l := agents (deployAGI (new_Simulation exp_steps sample_draws
                               (mkRawParams (Some 10) None None None None None None))) in
  ~ agiBoost p == 0 /\ Forall finite_income l
  /\ exists before after revenue : Q,
       reduce_sum income l = Fin before
       /\ reduce_sum income (compute_tax p l) = Fin after
       /\ reduce_sum (tax_of p) (filter is_capitalist l) = Fin revenue
       /\ (filter is_worker l <> [] -> after == before)
       /\ (filter is_worker l = [] -> after == before - revenue).
Proof.
  assert (Hb : ~ agiBoost (make_params (mkRawParams None None None None None (Some 0.5) None))
                 == 0) by discriminate.
  assert (Hf : Forall finite_income
                 (agents (deployAGI (new_Simulation exp_steps sample_draws
                            (mkRawParams (Some 10) None None None None None None)))))
    by (repeat constructor; eexists; reflexivity).
  split; [exact Hb|]. split; [exact Hf|].
  exact (compute_tax_is_neutral _ _ Hb Hf).
Defined.

(** ** The Gini coefficient is the relative mean difference *)

Lemma total_map_ext {A : Type} (f g : A -> Q) (l : list A) :
  (forall x, f x == g x) -> total (map f l) == total (map g l).
Proof.
  intro H. induction l as [|x rest IH]; cbn [map total]; [reflexivity|].
  rewrite IH, (H x). reflexivity.
Qed.

Lemma total_map_add {A : Type} (f g : A -> Q) (l : list A) :
  total (map (fun x => f x + g x) l) == total (map f l) + total (map g l).
Proof.
  induction l as [|x rest IH]; cbn [map total]; [ring|]. rewrite IH. ring.
Qed.

Lemma total_map_scale (k : Q) (l : list Q) :
  total (map (Qmult k) l) == k * total l.
Proof.
  induction l as [|x rest IH]; cbn [map total]; [ring|]. rewrite IH. ring.
Qed.

Lemma distances_from_lower (a : Q) (l : list Q) :
  Forall (Qle a) l ->
  distances_from a l == total l - inject_Z (Z.of_nat (length l)) * a.
Proof.
  unfold distances_from.
  induction 1 as [|x rest Hx _ IH]; cbn [map total length].
  - reflexivity.
  - rewrite IH, Nat2Z.inj_succ, <- Z.add_1_r, inject_Z_plus.
    change (inject_Z 1) with 1.
    rewrite Qabs_neg by lra. ring.
Qed.

Lemma distances_from_perm (x : Q) (l l' : list Q) :
  Permutation l l' -> distances_from x l == distances_from x l'.
Proof.
  intro H. unfold distances_from. apply total_perm, Permutation_map, H.
Qed.

Lemma pairwise_distance_cons (a : Q) (rest : list Q) :
  pairwise_distance (a :: rest)
  == pairwise_distance rest + 2 * distances_from a rest.
Proof.
  unfold pairwise_distance. cbn [map total].
  rewrite (total_map_ext (fun x => distances_from x (a :: rest))
             (fun x => Qabs (a - x) + distances_from x rest)).
  - rewrite total_map_add. unfold distances_from at 1. cbn [map total].
    fold (distances_from a rest).
    assert (E : Qabs (a - a) == 0).
    { rewrite Qabs_pos by lra. ring. }
    rewrite E. ring.
  - intro x. unfold distances_from. cbn [map total].
    rewrite (Qabs_Qminus x a). reflexivity.
Qed.

Lemma pairwise_distance_perm (l l' : list Q) :
  Permutation l l' -> pairwise_distance l == pairwise_distance l'.
Proof.
  intro H. unfold pairwise_distance.
  rewrite (total_map_ext (fun x => distances_from x l) (fun x => distances_from x l'))
    by (intro x; apply distances_from_perm, H).
  apply total_perm, Permutation_map, H.
Qed.

Lemma pairwise_distance_scale (k : Q) (l : list Q) :
  0 <= k -> pairwise_distance (map (Qmult k) l) == k * pairwise_distance l.
Proof.
  intro Hk. unfold pairwise_distance. rewrite map_map.
  rewrite (total_map_ext (fun x => distances_from (k * x) (map (Qmult k) l))
             (fun x => k * distances_from x l)).
  - rewrite <- (total_map_scale k (map (fun x => distances_from x l) l)), map_map.
    reflexivity.
  - intro x. unfold distances_from. rewrite map_map.
    rewrite <- (total_map_scale k (map (fun y => Qabs (x - y)) l)), map_map.
    apply total_map_ext. intro y.
    setoid_replace (k * x - k * y) with (k * (x - y)) by ring.
    rewrite Qabs_Qmult, (Qabs_pos k Hk). reflexivity.
Qed.

(** On an ascending list the loop of [calculateGini] accumulates half the
    sum of the distances of all pairs. *)
Lemma gsum_sorted (l : list Q) :
  StronglySorted Qle l ->
  2 * gsum (Z.of_nat (length l)) 0 l == pairwise_distance l.
Proof.
  induction 1 as [|a rest _ IH Ha].
  - reflexivity.
  - rewrite gsum_cons, pairwise_distance_cons, (distances_from_lower a rest Ha), <- IH.
    ring.
Qed.

(** The sum the loop accumulates on the sorted wealths, whatever their
    order was. *)
Lemma gsum_by_distances (qs : list Q) :
  2 * gsum (Z.of_nat (length qs)) 0 (sortQ qs) == pairwise_distance qs.
Proof.
  rewrite <- (length_sortQ qs), (gsum_sorted _ (sortQ_sorted qs)).
  symmetry. apply pairwise_distance_perm, sortQ_perm.
Qed.

Lemma population_of_nonzero_total (qs : list Q) :
  ~ total qs == 0 -> ~ inject_Z (Z.of_nat (length qs)) == 0.
Proof.
  intro Hnz. destruct qs as [|q rest]; [exfalso; apply Hnz; reflexivity|].
  intro E. unfold Qeq in E. cbn [Qnum Qden inject_Z length] in E. lia.
Qed.

(** In exact arithmetic, on finite wealths that do not sum to zero,
    [calculateGini] returns the relative mean difference of the wealths:
    the sum of |w_i - w_j| over all ordered pairs of agents, divided by
    twice the number of agents times the total wealth.  The sort and the
    weights 2 (i + 1) - n - 1 of the loop are a way to compute that sum. *)
Theorem calculateGini_is_relative_mean_difference :
  forall (ags : list Agent) (qs : list Q),
    map wealth ags = map Fin qs ->
    ~ total qs == 0 ->
    exists g,
      calculateGini ags = Fin g
      /\ g == pairwise_distance qs
              / (2 * inject_Z (Z.of_nat (length qs)) * total qs).
Proof.
  intros ags qs Hqs Hnz.
  destruct (calculateGini_Fin ags qs Hqs Hnz) as (g & Hg & Eg).
  exists g. split; [exact Hg|].
  rewrite Eg, <- (gsum_by_distances qs).
  pose proof (population_of_nonzero_total qs Hnz) as Hn.
  field. split; assumption.
Qed.

Lemma calculateGini_is_relative_mean_difference_witness :
  let agent_of w := mkAgent 0 worker (Fin w) (Fin 100) (Fin 0.6) normal in
  exists g,
    calculateGini (map agent_of [10; 1; 3; 2]) = Fin g
    /\ g == pairwise_distance [10; 1; 3; 2] / (2 * 4 * 16)
    /\ pairwise_distance [10; 1; 3; 2] == 56.
Proof.
  intro agent_of.
  destruct (calculateGini_is_relative_mean_difference
              (map agent_of [10; 1; 3; 2]) [10; 1; 3; 2] eq_refl ltac:(discriminate))
    as (g & Hg & Eg).
  exists g. split; [exact Hg|]. split; [exact Eg | reflexivity].
Defined.

(** In exact arithmetic the Gini coefficient depends on the wealths only
    as a collection and only up to a common positive factor: two
    populations whose finite wealths are the same up to their order and up
    to a factor [k > 0] get the same coefficient, whatever the ids, types
    and order of their agents. *)
Theorem calculateGini_ignores_order_and_scale :
  forall (ags ags' : list Agent) (qs qs' : list Q) (k : Q),
    map wealth ags = map Fin qs ->
    map wealth ags' = map Fin qs' ->
    0 < k ->
    Permutation (map (Qmult k) qs) qs' ->
    ~ total qs == 0 ->
    exists g g',
      calculateGini ags = Fin g /\ calculateGini ags' = Fin g' /\ g == g'.
Proof.
  intros ags ags' qs qs' k Hqs Hqs' Hk Hperm Hnz.
  assert (Et : total qs' == k * total qs).
  { rewrite <- (total_perm _ _ Hperm). apply total_map_scale. }
  assert (Hnz' : ~ total qs' == 0).
  { rewrite Et. intro E. apply Hnz.
    apply Qmult_integral in E. destruct E as [E|E]; [lra | exact E]. }
  assert (Ed : pairwise_distance qs' == k * pairwise_distance qs).
  { rewrite <- (pairwise_distance_perm _ _ Hperm).
    apply pairwise_distance_scale, Qlt_le_weak, Hk. }
  assert (El : length qs' = length qs).
  { rewrite <- (Permutation_length Hperm). apply length_map. }
  destruct (calculateGini_Fin ags qs Hqs Hnz) as (g & Hg & Eg).
  destruct (calculateGini_Fin ags' qs' Hqs' Hnz') as (g' & Hg' & Eg').
  exists g, g'. split; [exact Hg|]. split; [exact Hg'|].
  pose proof (gsum_by_distances qs) as E1.
  pose proof (gsum_by_distances qs') as E2.
  rewrite Ed, El in E2.
  pose proof (population_of_nonzero_total qs Hnz) as Hn.
  assert (E3 : gsum (Z.of_nat (length qs)) 0 (sortQ qs')
               == k * gsum (Z.of_nat (length qs)) 0 (sortQ qs)).
  { apply (Qmult_inj_l _ _ 2); [discriminate|]. rewrite E2, <- E1. ring. }
  rewrite Eg, Eg', El, Et, E3.
  field. repeat split; try assumption. lra.
Qed.

Lemma calculateGini_ignores_order_and_scale_witness :
  let agent_of w := mkAgent 0 worker (Fin w) (Fin 100) (Fin 0.6) normal in
  let other_of w := mkAgent 7 capitalist (Fin w) (Fin 500) (Fin 0.7) invest in
  0 < 2
  /\ Permutation (map (Qmult 2) [10; 1; 3; 2]) [2; 20; 6; 4]
  /\ exists g g',
       calculateGini (map agent_of [10; 1; 3; 2]) = Fin g
       /\ calculateGini (map other_of [2; 20; 6; 4]) = Fin g'
       /\ g == g'.
Proof.
  intros agent_of other_of.
  assert (Hperm : Permutation (map (Qmult 2) [10; 1; 3; 2]) [2; 20; 6; 4])
    by exact (perm_swap 2 20 [6; 4]).
  split; [reflexivity|]. split; [exact Hperm|].
  exact (calculateGini_ignores_order_and_scale
           (map agent_of [10; 1; 3; 2]) (map other_of [2; 20; 6; 4])
           [10; 1; 3; 2] [2; 20; 6; 4] 2
           eq_refl eq_refl eq_refl Hperm ltac:(discriminate)).
Defined.

(** * Properties of the engine in binary64 *)

(** ** Facts of binary64 arithmetic *)

(** What the engine needs of the arithmetic is read off its specification
    (modules [SpecFloat] and [FloatAxioms]): the sign of a product and of a
    sum, and that a sum of numbers that are not negative is zero only if
    all of them are. *)

Lemma shr_1_halves (mrs : shr_record) :
  (0 <= shr_m mrs)%Z ->
  shr_m (shr_1 mrs) = Z.shiftr (shr_m mrs) 1 /\ (0 <= shr_m (shr_1 mrs))%Z.
Proof.
  destruct mrs as [m r s]. cbn [shr_m]. intro Hm.
  destruct m as [|p|p]; [split; [reflexivity | cbn; lia] | | lia].
  destruct p as [p|p|]; cbn [shr_1 shr_m]; split; try reflexivity; lia.
Qed.

Lemma shr_m_iter (n : BinNums.positive) (mrs : shr_record) :
  (0 <= shr_m mrs)%Z ->
  shr_m (iter_pos shr_1 n mrs) = Z.shiftr (shr_m mrs) (Zpos n)
  /\ (0 <= shr_m (iter_pos shr_1 n mrs))%Z.
Proof.
  revert mrs. induction n as [n IH|n IH|]; intros mrs Hm; cbn [iter_pos].
  - destruct (shr_1_halves mrs Hm) as [E1 H1].
    destruct (IH _ H1) as [E2 H2]. destruct (IH _ H2) as [E3 H3].
    split; [|exact H3].
    rewrite E3, E2, E1, !Z.shiftr_shiftr by lia. f_equal. lia.
  - destruct (IH _ Hm) as [E2 H2]. destruct (IH _ H2) as [E3 H3].
    split; [|exact H3].
    rewrite E3, E2, Z.shiftr_shiftr by lia. f_equal. lia.
  - apply shr_1_halves, Hm.
Qed.

Lemma shr_m_of_loc (m : Z) (l : location) : shr_m (shr_record_of_loc m l) = m.
Proof. destruct l as [|[| |]]; reflexivity. Qed.

(** Shifting keeps a mantissa that is not negative so. *)
Lemma shr_fexp_nonneg (m e : Z) (l : location) :
  (0 <= m)%Z -> (0 <= shr_m (fst (shr_fexp prec emax m e l)))%Z.
Proof.
  intro Hm. unfold shr_fexp, shr.
  destruct (fexp prec emax (Zdigits2 m + e) - e)%Z as [|n|n]; cbn [fst];
    try (rewrite shr_m_of_loc; exact Hm).
  apply shr_m_iter. rewrite shr_m_of_loc. exact Hm.
Qed.

Lemma round_nearest_even_ge (m : Z) (l : location) :
  (m <= round_nearest_even m l)%Z.
Proof.
  destruct l as [|[| |]]; cbn [round_nearest_even]; try lia.
  destruct (Z.even m); lia.
Qed.

Lemma binary_round_aux_sign (sx : bool) (m e : Z) (l : location) :
  (0 <= m)%Z -> has_sign sx (binary_round_aux prec emax sx m e l).
Proof.
  intro Hm. unfold binary_round_aux.
  pose proof (shr_fexp_nonneg m e l Hm) as H1.
  destruct (shr_fexp prec emax m e l) as [mrs1 e1]. cbn [fst] in H1.
  pose proof (round_nearest_even_ge (shr_m mrs1) (loc_of_shr_record mrs1)) as H2.
  pose proof (shr_fexp_nonneg
                (round_nearest_even (shr_m mrs1) (loc_of_shr_record mrs1)) e1
                loc_Exact ltac:(lia)) as H3.
  destruct (shr_fexp prec emax _ e1 loc_Exact) as [mrs2 e2]. cbn [fst] in H3.
  destruct (shr_m mrs2) as [|p|p]; [reflexivity| |lia].
  destruct (e2 <=? emax - prec)%Z; reflexivity.
Qed.

Lemma has_sign_nonneg (x : spec_float) : has_sign false x -> SFnonneg x.
Proof. destruct x as [s|s| |s m e]; cbn; intro H; subst; exact I || contradiction. Qed.

Lemma SFleb_zero (x : spec_float) : SFleb (S754_zero false) x = true <-> SFnonneg x.
Proof.
  destruct x as [s|[|]| |[|] m e]; cbn; split; intro H;
    exact I || reflexivity || discriminate || contradiction.
Qed.

Lemma SFeqb_zero (x : spec_float) : SFeqb x (S754_zero false) = true <-> SFzero x.
Proof.
  destruct x as [s|[|]| |[|] m e]; cbn; split; intro H;
    exact I || reflexivity || discriminate || contradiction.
Qed.

Lemma SFmul_nonneg (x : spec_float) (m : BinNums.positive) (e : Z) :
  SFnonneg x -> SFnonneg (SFmul prec emax x (S754_finite false m e)).
Proof.
  destruct x as [s|[|]| |[|] mx ex]; cbn [SFnonneg SFmul xorb]; intro H;
    try exact I; try contradiction.
  apply has_sign_nonneg, binary_round_aux_sign. lia.
Qed.

Lemma Zdigits2_lower (p : BinNums.positive) : (2 ^ (Zpos (digits2_pos p) - 1) <= Zpos p)%Z.
Proof.
  induction p as [p IH|p IH|]; cbn [digits2_pos]; [| |cbn; lia].
  - rewrite Pos2Z.inj_succ.
    replace (Z.succ (Zpos (digits2_pos p)) - 1)%Z
      with (Z.succ (Zpos (digits2_pos p) - 1)) by lia.
    rewrite Z.pow_succ_r by lia. lia.
  - rewrite Pos2Z.inj_succ.
    replace (Z.succ (Zpos (digits2_pos p)) - 1)%Z
      with (Z.succ (Zpos (digits2_pos p) - 1)) by lia.
    rewrite Z.pow_succ_r by lia. lia.
Qed.

(** At an exponent that is not below the least one, shifting a positive
    mantissa into its format leaves it positive: nothing is rounded away
    to zero. *)
Lemma shr_fexp_positive (p : BinNums.positive) (e : Z) (l : location) :
  (SpecFloat.emin prec emax <= e)%Z ->
  (0 < shr_m (fst (shr_fexp prec emax (Zpos p) e l)))%Z
  /\ (SpecFloat.emin prec emax <= snd (shr_fexp prec emax (Zpos p) e l))%Z.
Proof.
  intro He. unfold shr_fexp, shr. cbn [Zdigits2].
  set (d := Zpos (digits2_pos p)).
  destruct (fexp prec emax (d + e) - e)%Z as [|n|n] eqn:En; cbn [fst snd];
    try (rewrite shr_m_of_loc; split; lia).
  assert (Hn : (Zpos n = d - prec)%Z).
  { unfold fexp in En. lia. }
  split; [|lia].
  destruct (shr_m_iter n (shr_record_of_loc (Zpos p) l)) as [E _];
    [rewrite shr_m_of_loc; lia|].
  rewrite E, shr_m_of_loc, Z.shiftr_div_pow2 by lia.
  apply Z.div_str_pos. split; [apply Z.pow_pos_nonneg; lia|].
  pose proof (Zdigits2_lower p) as Hp. fold d in Hp.
  apply Z.le_trans with (2 ^ (d - 1))%Z; [|exact Hp].
  apply Z.pow_le_mono_r; [lia|]. rewrite Hn. unfold prec. lia.
Qed.

Lemma binary_round_aux_positive (p : BinNums.positive) (e : Z) (l : location) :
  (SpecFloat.emin prec emax <= e)%Z ->
  ~ SFzero (binary_round_aux prec emax false (Zpos p) e l).
Proof.
  intro He. unfold binary_round_aux.
  destruct (shr_fexp_positive p e l He) as [H1 H1e].
  destruct (shr_fexp prec emax (Zpos p) e l) as [mrs1 e1]. cbn [fst snd] in H1, H1e.
  pose proof (round_nearest_even_ge (shr_m mrs1) (loc_of_shr_record mrs1)) as H2.
  destruct (round_nearest_even (shr_m mrs1) (loc_of_shr_record mrs1))
    as [|p2|p2] eqn:E2; try lia.
  destruct (shr_fexp_positive p2 e1 loc_Exact H1e) as [H3 _].
  destruct (shr_fexp prec emax (Zpos p2) e1 loc_Exact) as [mrs2 e2]. cbn [fst] in H3.
  destruct (shr_m mrs2) as [|p3|p3]; try lia.
  destruct (e2 <=? emax - prec)%Z; cbn; auto.
Qed.

Lemma valid_exponent (s : bool) (m : BinNums.positive) (e : Z) :
  SpecFloat.valid_binary prec emax (S754_finite s m e) = true -> (SpecFloat.emin prec emax <= e)%Z.
Proof.
  cbn [valid_binary]. unfold bounded, canonical_mantissa. intro H.
  apply andb_true_iff in H. destruct H as [H _].
  apply Z.eqb_eq in H. unfold fexp in H. lia.
Qed.

Lemma shl_align_exponent (m : BinNums.positive) (e e' : Z) :
  (SpecFloat.emin prec emax <= e)%Z -> (SpecFloat.emin prec emax <= e')%Z ->
  (SpecFloat.emin prec emax <= snd (shl_align m e e'))%Z.
Proof.
  intros He He'. unfold shl_align. destruct (e' - e)%Z; cbn [snd]; lia.
Qed.

Lemma binary_round_positive (p : BinNums.positive) (e : Z) :
  (SpecFloat.emin prec emax <= e)%Z -> ~ SFzero (binary_round prec emax false p e).
Proof.
  intro He. unfold binary_round.
  pose proof (shl_align_exponent p e (fexp prec emax (Zpos (digits2_pos p) + e)) He) as H.
  destruct (shl_align p e _) as [mz ez]. cbn [snd] in H.
  apply binary_round_aux_positive, H. unfold fexp. lia.
Qed.

Lemma SFadd_nonneg (x y : spec_float) :
  SFnonneg x -> SFnonneg y -> SFnonneg (SFadd prec emax x y).
Proof.
  destruct x as [sx|[|]| |[|] mx ex]; cbn [SFnonneg]; intro Hx; try contradiction;
    destruct y as [sy|[|]| |[|] my ey]; cbn [SFnonneg]; intro Hy; try contradiction;
      try exact I.
  - destruct sx, sy; exact I.
  - cbn [SFadd cond_Zopp]. cbn [Z.add binary_normalize].
    unfold binary_round. destruct (shl_align _ _ _) as [mz ez].
    apply has_sign_nonneg, binary_round_aux_sign. lia.
Qed.

Lemma SFadd_zero_inv (x y : spec_float) :
  SpecFloat.valid_binary prec emax x = true -> SpecFloat.valid_binary prec emax y = true ->
  SFnonneg x -> SFnonneg y -> SFzero (SFadd prec emax x y) -> SFzero x /\ SFzero y.
Proof.
  intros Vx Vy.
  destruct x as [sx|[|]| |[|] mx ex]; cbn [SFnonneg]; intro Hx; try contradiction;
    destruct y as [sy|[|]| |[|] my ey]; cbn [SFnonneg]; intro Hy; try contradiction;
      cbn [SFadd SFzero]; try (intro H; exact (conj I I) || contradiction).
  cbn [cond_Zopp Z.add binary_normalize]. intro H. exfalso. revert H.
  apply binary_round_positive.
  pose proof (valid_exponent _ _ _ Vx). pose proof (valid_exponent _ _ _ Vy). lia.
Qed.

Lemma SFadd_zero (x y : spec_float) :
  SFzero x -> SFzero y -> SFzero (SFadd prec emax x y).
Proof.
  destruct x as [sx| | |]; cbn [SFzero]; intro Hx; try contradiction.
  destruct y as [sy| | |]; cbn [SFzero]; intro Hy; try contradiction.
  cbn [SFadd]. destruct sx, sy; exact I.
Qed.

(** The same facts on the numbers themselves. *)

Lemma not_negative_spec (w : float) : not_negative w <-> SFnonneg (Prim2SF w).
Proof. unfold not_negative. rewrite leb_spec. apply SFleb_zero. Qed.

Lemma is_zero_spec (w : float) : is_zero w <-> SFzero (Prim2SF w).
Proof. unfold is_zero. rewrite eqb_spec. apply SFeqb_zero. Qed.

Lemma mul_not_negative (w c : float) (m : BinNums.positive) (e : Z) :
  Prim2SF c = S754_finite false m e ->
  not_negative w -> not_negative (w * c)%float.
Proof.
  intros Hc Hw. apply not_negative_spec. rewrite mul_spec, Hc.
  apply SFmul_nonneg, not_negative_spec, Hw.
Qed.

Lemma add_not_negative (x y : float) :
  not_negative x -> not_negative y -> not_negative (x + y)%float.
Proof.
  intros Hx Hy. apply not_negative_spec. rewrite add_spec.
  apply SFadd_nonneg; apply not_negative_spec; assumption.
Qed.

Lemma add_zero_inv (x y : float) :
  not_negative x -> not_negative y -> is_zero (x + y)%float ->
  is_zero x /\ is_zero y.
Proof.
  intros Hx Hy H. apply is_zero_spec in H. rewrite add_spec in H.
  apply SFadd_zero_inv in H; try apply Prim2SF_valid; try (apply not_negative_spec; assumption).
  split; apply is_zero_spec; tauto.
Qed.

Lemma add_zero (x y : float) : is_zero x -> is_zero y -> is_zero (x + y)%float.
Proof.
  intros Hx Hy. apply is_zero_spec. rewrite add_spec.
  apply SFadd_zero; apply is_zero_spec; assumption.
Qed.

Lemma is_zero_not_positive (x : float) : is_zero x -> (0 <? x)%float = false.
Proof.
  intro H. apply is_zero_spec in H. rewrite ltb_spec.
  destruct (Prim2SF x); cbn in *; tauto || reflexivity.
Qed.

(** ** The binary64 engine, agent by agent *)

Lemma b64_Forall_forEach_where (P : Binary64.Agent -> Prop)
    (p : Binary64.Agent -> bool) (f : Binary64.Agent -> Binary64.Agent)
    (l : list Binary64.Agent) :
  (forall a, P a -> P (f a)) -> Forall P l -> Forall P (Binary64.forEach_where p f l).
Proof.
  intros Hf H. unfold Binary64.forEach_where. apply Forall_map.
  revert H. apply Forall_impl. intros a Ha. destruct (p a); auto.
Qed.

(** The policies write income and happiness only. *)
Lemma b64_Forall_policy_phase (P : Binary64.Agent -> Prop)
    (p : Binary64.Params) (d : bool) (l : list Binary64.Agent) :
  (forall a i, P a -> P (Binary64.set_income a i)) ->
  (forall a h, P a -> P (Binary64.set_happiness a h)) ->
  Forall P l -> Forall P (Binary64.policy_phase p d l).
Proof.
  intros Hi Hh H. unfold Binary64.policy_phase.
  assert (H1 : Forall P (if Binary64.ubi_on p
                         then Binary64.forEach_where Binary64.is_worker
                                (Binary64.pay_ubi p) l
                         else l)).
  { destruct (Binary64.ubi_on p); [|exact H].
    apply b64_Forall_forEach_where; [|exact H].
    intros a Ha. unfold Binary64.pay_ubi. apply Hh, Hi, Ha. }
  destruct (Binary64.ubi_on p || Binary64.tax_on p d); [|exact H].
  destruct (Binary64.tax_on p d); [|exact H1].
  unfold Binary64.compute_tax.
  apply b64_Forall_forEach_where; [intros a Ha; apply Hi, Ha|].
  apply b64_Forall_forEach_where; [|exact H1].
  intros a Ha. unfold Binary64.pay_tax. apply Hh, Hi, Ha.
Qed.

Lemma b64_new_agents_Forall (Math_exp : float -> float) (draws : nat -> float)
    (P : Binary64.Agent -> Prop) :
  (forall i k, P (fst (Binary64.new_worker Math_exp draws i k))) ->
  (forall i k, P (fst (Binary64.new_capitalist Math_exp draws i k))) ->
  (forall i k, P (fst (Binary64.new_government i k))) ->
  forall raw, Forall P (Binary64.agents (Binary64.new_Simulation Math_exp draws raw)).
Proof.
  intros Hw Hc Hg raw.
  cbn [Binary64.new_Simulation Binary64.agents]. unfold Binary64.initAgents.
  destruct (Binary64.Math_floor _) as [b1|]; [|constructor].
  destruct (Binary64.Math_floor _) as [b2|]; [|constructor].
  destruct (Binary64.ceiling _) as [top|]; [|constructor].
  unfold bind.
  pose proof (mapM_Forall2 (Binary64.new_worker Math_exp draws) (fun _ a => P a) Hw
                (loop_indices 0 (inject_Z b1)) 0%nat) as H1.
  destruct (mapM (Binary64.new_worker Math_exp draws) _ 0%nat) as [ws k1].
  pose proof (mapM_Forall2 (Binary64.new_capitalist Math_exp draws) (fun _ a => P a) Hc
                (loop_indices b1 (inject_Z b2)) k1) as H2.
  destruct (mapM (Binary64.new_capitalist Math_exp draws) _ k1) as [cs k2].
  pose proof (mapM_Forall2 Binary64.new_government (fun _ a => P a) Hg
                (loop_indices b2 (inject_Z top)) k2) as H3.
  destruct (mapM Binary64.new_government _ k2) as [gs k3].
  cbn [fst ret] in *. rewrite !Forall_app. repeat split.
  - eapply (Forall2_Forall_right (fun (_ : Z) a => P a) P); [intros ? ? H; exact H | exact H1].
  - eapply (Forall2_Forall_right (fun (_ : Z) a => P a) P); [intros ? ? H; exact H | exact H2].
  - eapply (Forall2_Forall_right (fun (_ : Z) a => P a) P); [intros ? ? H; exact H | exact H3].
Qed.

(** ** Wealth stays non-negative *)

Lemma sound_strategy_phase (a : Binary64.Agent) :
  sound_agent a -> sound_agent (Binary64.strategy_phase a).
Proof.
  intros [Hw Hs]. unfold sound_agent, Binary64.strategy_phase.
  destruct (Binary64.strategy a) eqn:E; try contradiction;
    cbn [Binary64.wealth Binary64.strategy Binary64.set_happiness];
    try (rewrite E; split; [exact Hw | exact I]).
  destruct (Binary64.is_capitalist a);
    cbn [Binary64.wealth Binary64.strategy Binary64.set_income Binary64.set_wealth];
    rewrite E; split; try exact I; try exact Hw.
  apply (mul_not_negative _ _ 4593671619917906 (-52)); [reflexivity | exact Hw].
Qed.

Lemma sound_shock (b : float) (a : Binary64.Agent) :
  sound_agent a -> sound_agent (Binary64.shock b a).
Proof.
  intros [Hw Hs]. unfold Binary64.shock, sound_agent.
  destruct (Binary64.is_capitalist a); [|destruct (Binary64.is_worker a)];
    cbn [Binary64.wealth Binary64.strategy Binary64.set_happiness
         Binary64.set_income Binary64.set_wealth];
    split; try assumption.
  apply (mul_not_negative _ _ 6755399441055744 (-52)); [reflexivity | exact Hw].
Qed.

Lemma sound_runStep (s : Binary64.Simulation) : sound s -> sound (Binary64.runStep s).
Proof.
  unfold sound. intro H. cbn [Binary64.runStep Binary64.agents].
  apply b64_Forall_policy_phase.
  - intros a i Ha. exact Ha.
  - intros a h Ha. exact Ha.
  - apply Forall_map. revert H. apply Forall_impl. exact sound_strategy_phase.
Qed.

Lemma sound_deployAGI (s : Binary64.Simulation) : sound s -> sound (Binary64.deployAGI s).
Proof.
  unfold sound. intro H. cbn [Binary64.deployAGI Binary64.agents].
  apply Forall_map. revert H. apply Forall_impl.
  intro a. apply sound_shock.
Qed.

Lemma sound_new_Simulation (Math_exp : float -> float) (draws : nat -> float) :
  (forall k, not_negative (Math_exp (2 + draws k * 0.5)%float)) ->
  (forall k, not_negative (Math_exp (6 + draws k * 1.5)%float)) ->
  forall raw, sound (Binary64.new_Simulation Math_exp draws raw).
Proof.
  intros Hw Hc. apply b64_new_agents_Forall; intros i k; (split; [|exact I]).
  - apply Hw.
  - apply Hc.
  - reflexivity.
Qed.

(** Claim C9.  In the binary64 engine, with [Math.exp] returning a number
    that is not negative wherever the constructor calls it, every agent of
    every state reachable from the constructor has a wealth [w >= 0] (plus
    infinity, which the growth of a capitalist's wealth reaches by
    overflow, included; NaN and negative numbers excluded) and one of the
    strategies [normal], [invest], [regulate], so that neither the [save]
    nor the [spend] branch of the step ever runs; the constructor
    establishes this, and [runStep] and [deployAGI] both preserve it. *)
Theorem wealth_nonnegative_on_reachable_states :
  forall (Math_exp : float -> float) (draws : nat -> float),
    (forall k, not_negative (Math_exp (2 + draws k * 0.5)%float)) ->
    (forall k, not_negative (Math_exp (6 + draws k * 1.5)%float)) ->
    (forall raw, sound (Binary64.new_Simulation Math_exp draws raw))
    /\ (forall s, sound s -> sound (Binary64.runStep s))
    /\ (forall s, sound s -> sound (Binary64.deployAGI s))
    /\ (forall s, Binary64.reachable Math_exp draws s ->
          Forall (fun a => (0 <=? Binary64.wealth a)%float = true
                           /\ Binary64.strategy a <> save
                           /\ Binary64.strategy a <> spend)
                 (Binary64.agents s)).
Proof.
  intros Math_exp draws Hw Hc.
  split; [apply sound_new_Simulation; assumption|].
  split; [exact sound_runStep|].
  split; [exact sound_deployAGI|].
  intros s Hr.
  assert (Hs : sound s).
  { induction Hr as [raw|s _ IH|s _ IH].
    - apply sound_new_Simulation; assumption.
    - apply sound_runStep; exact IH.
    - apply sound_deployAGI; exact IH. }
  revert Hs. apply Forall_impl. intros a [Ha Hst].
  split; [exact Ha|].
  destruct (Binary64.strategy a); simpl in Hst; try contradiction; split; discriminate.
Qed.

Lemma exp_steps64_not_negative (x : float) : not_negative (exp_steps64 x).
Proof.
  unfold exp_steps64. destruct (x <? 3)%float; [reflexivity|].
  destruct (x <? 7)%float; reflexivity.
Qed.

(** The claim in the sample environment, read off the state reached from
    [{nAgents: 10}] by a step, the deployment and another step. *)
Lemma wealth_nonnegative_witness :
  let s := Binary64.runStep (Binary64.deployAGI (Binary64.runStep
             (Binary64.new_Simulation exp_steps64 sample_draws64
                (Binary64.mkRawParams (Some 10%float) None None None None None None)))) in
  (forall k, not_negative (exp_steps64 (2 + sample_draws64 k * 0.5)%float))
  /\ Forall (fun a => (0 <=? Binary64.wealth a)%float = true
                      /\ Binary64.strategy a <> save /\ Binary64.strategy a <> spend)
       (Binary64.agents s)
  /\ map Binary64.wealth (Binary64.agents s)
     = [7.5; 7.5; 7.5; 7.5; 7.5; 7.5; 7.5; 7.5; 624.24; 1000000]%float.
Proof.
  intro s.
  split; [intro k; apply exp_steps64_not_negative|].
  split.
  - apply (wealth_nonnegative_on_reachable_states exp_steps64 sample_draws64
             (fun k => exp_steps64_not_negative _) (fun k => exp_steps64_not_negative _)).
    apply Binary64.reach_step, Binary64.reach_deploy, Binary64.reach_step,
      Binary64.reach_new.
  - vm_compute. reflexivity.
Defined.

(** Why plus infinity is within the claim: the wealth of a capitalist grows
    by the factor 1.02 in every step and overflows.  In the sample
    environment it is plus infinity after 36000 steps. *)
Remark wealth_overflows_to_infinity :
  let s0 := Binary64.new_Simulation exp_steps64 sample_draws64
              (Binary64.mkRawParams (Some 10%float) None None None None None None) in
  map Binary64.wealth (Binary64.agents (N.iter 36000 Binary64.runStep s0))
  = [7.5; 7.5; 7.5; 7.5; 7.5; 7.5; 7.5; 7.5; infinity; 1000000]%float.
Proof. vm_compute. reflexivity. Qed.

(** Why the strategies matter: under [save] a negative income pulls the
    wealth below zero in one step. *)
Remark save_with_negative_income_breaks_nonnegativity :
  let a := Binary64.mkAgent 0 worker 1%float (-10)%float 0.6%float save in
  Binary64.wealth (Binary64.strategy_phase a) = (-2)%float
  /\ (0 <=? Binary64.wealth (Binary64.strategy_phase a))%float = false.
Proof. vm_compute. split; reflexivity. Qed.

(** ** Degenerate populations *)

Lemma sum_zero_inv {A : Type} (g : A -> float) (l : list A) (acc : float) :
  not_negative acc -> Forall (fun x => not_negative (g x)) l ->
  is_zero (fold_left (fun sum x => (sum + g x)%float) l acc) ->
  is_zero acc /\ Forall (fun x => is_zero (g x)) l.
Proof.
  revert acc. induction l as [|x rest IH]; intros acc Hacc Hl H; cbn [fold_left] in H.
  - split; [exact H | constructor].
  - inversion Hl as [|? ? Hx Hrest]; subst.
    destruct (IH _ (add_not_negative _ _ Hacc Hx) Hrest H) as [H1 H2].
    destruct (add_zero_inv _ _ Hacc Hx H1) as [Ha Hgx].
    split; [exact Ha | constructor; assumption].
Qed.

Lemma sum_of_zeros (l : list float) (acc : float) :
  is_zero acc -> Forall is_zero l -> is_zero (fold_left PrimFloat.add l acc).
Proof.
  revert acc. induction l as [|x rest IH]; intros acc Hacc Hl; cbn [fold_left].
  - exact Hacc.
  - inversion Hl as [|? ? Hx Hrest]; subst.
    apply IH; [apply add_zero; assumption | exact Hrest].
Qed.

(** The sort moves values about; it neither makes nor changes any. *)
Lemma Forall_sort (P : float -> Prop) (l : list float) :
  Forall P l -> Forall P (Binary64.sort l).
Proof.
  assert (Hins : forall x l', P x -> Forall P l' -> Forall P (Binary64.insert x l')).
  { intros x l' Hx. induction 1 as [|y rest Hy Hrest IH]; cbn [Binary64.insert].
    - constructor; [exact Hx | constructor].
    - destruct (Binary64.comes_after x y); constructor; auto. }
  induction 1 as [|x rest Hx _ IH]; cbn [Binary64.sort fold_right].
  - constructor.
  - apply Hins; assumption.
Qed.

(** Claim C3.  In the binary64 engine, for every population of wealths
    that are not negative whose total, as [calculateVelocity] sums it, is
    0 (the empty population included) both [calculateGini] and
    [calculateVelocity] return the number 0, not NaN and not the result of
    a division by zero: such wealths are all zero, so the sum over the
    sorted wealths that [calculateGini] tests is 0 as well. *)
Theorem metrics_of_zero_total_wealth :
  forall ags : list Binary64.Agent,
    Forall (fun a => not_negative (Binary64.wealth a)) ags ->
    is_zero (Binary64.reduce_sum Binary64.wealth ags) ->
    Binary64.calculateGini (map Binary64.wealth ags) = 0%float
    /\ Binary64.calculateVelocity ags = 0%float.
Proof.
  intros ags Hnn Hzero.
  destruct (sum_zero_inv Binary64.wealth ags 0%float eq_refl Hnn Hzero) as [_ Hall].
  split.
  - unfold Binary64.calculateGini.
    assert (Hsum : is_zero (fold_left PrimFloat.add
                              (Binary64.sort (map Binary64.wealth ags)) 0%float)).
    { apply sum_of_zeros; [reflexivity|].
      apply Forall_sort, Forall_map. exact Hall. }
    unfold is_zero in Hsum. rewrite Hsum. reflexivity.
  - unfold Binary64.calculateVelocity.
    fold (Binary64.reduce_sum Binary64.wealth ags).
    rewrite (is_zero_not_positive _ Hzero). reflexivity.
Qed.

(** The claim at a population of three agents without wealth, one of them
    holding the negative zero; the empty population is another instance. *)
Lemma metrics_of_zero_total_wealth_witness :
  let a := Binary64.mkAgent 0 worker 0%float 100%float 0.6%float normal in
  let b := Binary64.mkAgent 1 capitalist (-0)%float 500%float 0.7%float invest in
  let c := Binary64.mkAgent 2 government 0%float 0%float 0.5%float regulate in
  Forall (fun a => not_negative (Binary64.wealth a)) [a; b; c]
  /\ is_zero (Binary64.reduce_sum Binary64.wealth [a; b; c])
  /\ Binary64.calculateGini (map Binary64.wealth [a; b; c]) = 0%float
  /\ Binary64.calculateVelocity [a; b; c] = 0%float
  /\ Binary64.calculateGini (map Binary64.wealth []) = 0%float
  /\ Binary64.calculateVelocity [] = 0%float.
Proof.
  intros a b c.
  assert (Hnn : Forall (fun a => not_negative (Binary64.wealth a)) [a; b; c])
    by (repeat constructor).
  assert (Hz : is_zero (Binary64.reduce_sum Binary64.wealth [a; b; c]))
    by reflexivity.
  split; [exact Hnn|]. split; [exact Hz|].
  destruct (metrics_of_zero_total_wealth [a; b; c] Hnn Hz) as [Hg Hv].
  split; [exact Hg|]. split; [exact Hv|].
  apply (metrics_of_zero_total_wealth [] (Forall_nil _) eq_refl).
Defined.

(** Why the wealths must not be negative: with wealths of both signs the
    two metrics add the same numbers in different orders, and the rounded
    sums differ.  Here the sum in the order of the agents is 0, the sum
    over the sorted wealths is 2, and [calculateGini] returns 8e15. *)
Remark cancelling_wealths_are_summed_differently :
  let wealths := [2; -1; -1; 1e16; -1e16]%float in
  fold_left PrimFloat.add wealths 0%float = 0%float
  /\ fold_left PrimFloat.add (Binary64.sort wealths) 0%float = 2%float
  /\ Binary64.calculateGini wealths = 8e15%float.
Proof. vm_compute. repeat split; reflexivity. Qed.

(** ** The UBI scenario *)

Lemma b64_runSteps_snoc (k : nat) (s : Binary64.Simulation) :
  Binary64.runSteps (S k) s = Binary64.runStep (Binary64.runSteps k s).
Proof.
  revert s. induction k as [|k IH]; intro s.
  - reflexivity.
  - change (Binary64.runSteps (S (S k)) s)
      with (Binary64.runSteps (S k) (Binary64.runStep s)).
    rewrite IH. reflexivity.
Qed.

Lemma b64_frame_runSteps (k : nat) (s : Binary64.Simulation) :
  Binary64.params (Binary64.runSteps k s) = Binary64.params s
  /\ Binary64.agiDeployed (Binary64.runSteps k s) = Binary64.agiDeployed s
  /\ Binary64.step (Binary64.runSteps k s) = (Binary64.step s + Z.of_nat k)%Z.
Proof.
  induction k as [|k (Hp & Hd & Hs)].
  - cbn. repeat split; lia.
  - rewrite b64_runSteps_snoc. cbn [Binary64.runStep Binary64.params
      Binary64.agiDeployed Binary64.step].
    rewrite Hp, Hd, Hs. repeat split; lia.
Qed.

(** Before the deployment a step is the strategy phase followed, when the
    UBI is on, by its payment to the workers: the tax does not run. *)
Lemma b64_runStep_before_deploy (s : Binary64.Simulation) :
  Binary64.agiDeployed s = false ->
  Binary64.agents (Binary64.runStep s)
  = map (step_untaxed (Binary64.params s)) (Binary64.agents s).
Proof.
  intro Hd. cbn [Binary64.runStep Binary64.agents].
  unfold Binary64.policy_phase, Binary64.tax_on, step_untaxed.
  rewrite Hd, andb_false_r, orb_false_r.
  destruct (Binary64.ubi_on (Binary64.params s)).
  - unfold Binary64.forEach_where. rewrite map_map. reflexivity.
  - apply map_ext. intro a. reflexivity.
Qed.

Lemma b64_strategy_phase_frame (a : Binary64.Agent) :
  Binary64.id (Binary64.strategy_phase a) = Binary64.id a
  /\ Binary64.type (Binary64.strategy_phase a) = Binary64.type a
  /\ (Binary64.is_worker a = true ->
      Binary64.income (Binary64.strategy_phase a) = Binary64.income a).
Proof.
  unfold Binary64.strategy_phase, Binary64.is_worker, Binary64.is_capitalist.
  destruct a as [i t w inc h st].
  cbn [Binary64.strategy Binary64.type Binary64.wealth].
  destruct st; try destruct (10 <? w)%float; destruct t;
    cbn [Binary64.id Binary64.type Binary64.income Binary64.set_happiness
         Binary64.set_income Binary64.set_wealth AgentType_eqb];
    repeat split; intros; reflexivity || discriminate.
Qed.

(** Without the tax, a step adds the UBI to a worker's income and nothing
    else: no strategy changes the income of a worker. *)
Lemma b64_step_untaxed_worker (p : Binary64.Params) (a : Binary64.Agent) :
  Binary64.id (step_untaxed p a) = Binary64.id a
  /\ Binary64.type (step_untaxed p a) = Binary64.type a
  /\ (Binary64.ubi_on p = true -> Binary64.is_worker a = true ->
      Binary64.income (step_untaxed p a) = (Binary64.income a + Binary64.ubi p)%float).
Proof.
  destruct (b64_strategy_phase_frame a) as (Hid & Hty & Hinc).
  unfold step_untaxed.
  assert (Hw : Binary64.is_worker (Binary64.strategy_phase a) = Binary64.is_worker a).
  { unfold Binary64.is_worker. rewrite Hty. reflexivity. }
  rewrite Hw.
  destruct (Binary64.ubi_on p); cbn [andb].
  - destruct (Binary64.is_worker a); cbn [Binary64.pay_ubi Binary64.id Binary64.type
      Binary64.income Binary64.set_income Binary64.set_happiness].
    + repeat split; try assumption. intros _ _. rewrite (Hinc eq_refl). reflexivity.
    + repeat split; try assumption. intros _ H. discriminate.
  - repeat split; try assumption. intro H. discriminate.
Qed.

Lemma b64_worker_income_after_steps (k : nat) (s : Binary64.Simulation) :
  Binary64.agiDeployed s = false -> Binary64.ubi_on (Binary64.params s) = true ->
  Forall2
    (fun a a' =>
       Binary64.id a' = Binary64.id a /\ Binary64.type a' = Binary64.type a
       /\ (Binary64.is_worker a = true ->
           Binary64.income a' = paid (Binary64.ubi (Binary64.params s)) k (Binary64.income a)))
    (Binary64.agents s) (Binary64.agents (Binary64.runSteps k s)).
Proof.
  intros Hd Hu. induction k as [|k IH].
  - apply Forall2_refl_on. intro a. repeat split; reflexivity.
  - destruct (b64_frame_runSteps k s) as (Hp & Hdk & _).
    rewrite b64_runSteps_snoc, b64_runStep_before_deploy by (rewrite Hdk; exact Hd).
    rewrite Hp.
    revert IH. apply Forall2_map_right_step.
    intros a a' (Hid & Hty & Hinc).
    destruct (b64_step_untaxed_worker (Binary64.params s) a') as (Hid' & Hty' & Hinc').
    rewrite Hid', Hty'. repeat split; try assumption.
    intro Hw. rewrite Hinc'; [|exact Hu|].
    + rewrite (Hinc Hw). reflexivity.
    + unfold Binary64.is_worker in *. rewrite Hty. exact Hw.
Qed.

Lemma b64_history_runStep (s : Binary64.Simulation) :
  Binary64.history (Binary64.runStep s)
  = if (Z.rem (Binary64.step s + 1) 5 =? 0)%Z
    then Binary64.record_history (Binary64.step s + 1)
           (Binary64.agents (Binary64.runStep s)) (Binary64.history s)
    else Binary64.history s.
Proof. reflexivity. Qed.

(** Five steps from a state at step 0 with an empty history take one
    sample, at step 5. *)
Lemma b64_five_steps_from_zero (s : Binary64.Simulation) :
  Binary64.step s = 0%Z -> Binary64.history s = Binary64.empty_history ->
  Binary64.steps (Binary64.history (Binary64.runSteps 5 s)) = [5%Z]
  /\ length (Binary64.gini (Binary64.history (Binary64.runSteps 5 s))) = 1%nat
  /\ length (Binary64.velocity (Binary64.history (Binary64.runSteps 5 s))) = 1%nat
  /\ length (Binary64.workerHappiness (Binary64.history (Binary64.runSteps 5 s))) = 1%nat
  /\ length (Binary64.capitalistHappiness (Binary64.history (Binary64.runSteps 5 s))) = 1%nat.
Proof.
  intros Hs Hh.
  assert (Hk : forall k, (k < 5)%nat ->
                 Binary64.history (Binary64.runSteps k s) = Binary64.empty_history).
  { induction k as [|k IH]; intro Hlt; [exact Hh|].
    rewrite b64_runSteps_snoc, b64_history_runStep.
    destruct (b64_frame_runSteps k s) as (_ & _ & ->). rewrite Hs.
    destruct (Z.eqb_spec (Z.rem (0 + Z.of_nat k + 1) 5) 0) as [E|_]; [|apply IH; lia].
    exfalso. rewrite Z.rem_mod_nonneg in E by lia.
    rewrite Z.mod_small in E by lia. lia. }
  rewrite (b64_runSteps_snoc 4), b64_history_runStep, (Hk 4%nat) by lia.
  destruct (b64_frame_runSteps 4 s) as (_ & _ & ->). rewrite Hs.
  change (Z.rem (0 + Z.of_nat 4 + 1) 5 =? 0)%Z with true. cbv iota.
  cbn [Binary64.record_history Binary64.empty_history Binary64.steps Binary64.gini
       Binary64.velocity Binary64.workerHappiness Binary64.capitalistHappiness
       app length].
  repeat split; reflexivity.
Qed.

(** The three bands of the initial population, for bounds that are given:
    what holds of each freshly built agent at its index holds band by band. *)
Lemma b64_initial_bands (Math_exp : float -> float) (draws : nat -> float)
    (RW RC RG : Z -> Binary64.Agent -> Prop) (p : Binary64.Params) (b1 b2 top : Z) :
  (forall i k, RW i (fst (Binary64.new_worker Math_exp draws i k))) ->
  (forall i k, RC i (fst (Binary64.new_capitalist Math_exp draws i k))) ->
  (forall i k, RG i (fst (Binary64.new_government i k))) ->
  Binary64.Math_floor (Binary64.nAgents p * 0.8)%float = Some b1 ->
  Binary64.Math_floor (Binary64.nAgents p * 0.999)%float = Some b2 ->
  Binary64.ceiling (Binary64.nAgents p) = Some top ->
  exists ws cs gs,
    fst (Binary64.initAgents Math_exp draws p 0%nat) = ws ++ cs ++ gs
    /\ Forall2 RW (loop_indices 0 (inject_Z b1)) ws
    /\ Forall2 RC (loop_indices b1 (inject_Z b2)) cs
    /\ Forall2 RG (loop_indices b2 (inject_Z top)) gs.
Proof.
  intros Hw Hc Hg E1 E2 E3. unfold Binary64.initAgents. rewrite E1, E2, E3.
  unfold bind.
  pose proof (mapM_Forall2 (Binary64.new_worker Math_exp draws) RW Hw
                (loop_indices 0 (inject_Z b1)) 0%nat) as H1.
  destruct (mapM (Binary64.new_worker Math_exp draws) _ 0%nat) as [ws k1].
  pose proof (mapM_Forall2 (Binary64.new_capitalist Math_exp draws) RC Hc
                (loop_indices b1 (inject_Z b2)) k1) as H2.
  destruct (mapM (Binary64.new_capitalist Math_exp draws) _ k1) as [cs k2].
  pose proof (mapM_Forall2 Binary64.new_government RG Hg
                (loop_indices b2 (inject_Z top)) k2) as H3.
  destruct (mapM Binary64.new_government _ k2) as [gs k3].
  cbn [fst ret] in *. exists ws, cs, gs. repeat split; assumption.
Qed.

Lemma filter_all {A : Type} (q : A -> bool) (l : list A) :
  Forall (fun x => q x = true) l -> filter q l = l.
Proof.
  induction 1 as [|x rest Hx _ IH]; cbn [filter]; [reflexivity|].
  rewrite Hx, IH. reflexivity.
Qed.

Lemma filter_none {A : Type} (q : A -> bool) (l : list A) :
  Forall (fun x => q x = false) l -> filter q l = [].
Proof.
  induction 1 as [|x rest Hx _ IH]; cbn [filter]; [reflexivity|].
  rewrite Hx. exact IH.
Qed.

(** Claim C8, amended.  In the binary64 engine, after initialising with
    [nAgents = 100] and [ubi = 50] and advancing 5 steps without
    deployment, each of the 80 workers has the income that five rounded
    additions of 50 to its initial income give, one per step; no other
    operation has touched it.  The history holds exactly one sampled
    point, taken at step 5. *)
Theorem ubi_scenario_100_agents :
  forall (Math_exp : float -> float) (draws : nat -> float) (raw : Binary64.RawParams),
    Binary64.nAgents (Binary64.make_params raw) = 100%float ->
    Binary64.ubi (Binary64.make_params raw) = 50%float ->
    let s0 := Binary64.new_Simulation Math_exp draws raw in
    let s5 := Binary64.handleStep (Binary64.mkStepRequest (Some 5%float) false) s0 in
    length (filter Binary64.is_worker (Binary64.agents s0)) = 80%nat
    /\ Forall2
         (fun a0 a5 =>
            Binary64.id a5 = Binary64.id a0 /\ Binary64.type a5 = Binary64.type a0
            /\ (Binary64.is_worker a0 = true ->
                Binary64.income a5
                = (Binary64.income a0 + 50 + 50 + 50 + 50 + 50)%float))
         (Binary64.agents s0) (Binary64.agents s5)
    /\ Binary64.steps (Binary64.history s5) = [5%Z]
    /\ length (Binary64.gini (Binary64.history s5)) = 1%nat
    /\ length (Binary64.velocity (Binary64.history s5)) = 1%nat
    /\ length (Binary64.workerHappiness (Binary64.history s5)) = 1%nat
    /\ length (Binary64.capitalistHappiness (Binary64.history s5)) = 1%nat.
Proof.
  intros Math_exp draws raw Hn Hubi s0 s5.
  change s5 with (Binary64.runSteps 5 s0).
  split; [|split].
  - destruct (b64_initial_bands Math_exp draws
                (fun _ a => Binary64.is_worker a = true)
                (fun _ a => Binary64.is_worker a = false)
                (fun _ a => Binary64.is_worker a = false)
                (Binary64.make_params raw) 80 99 100)
      as (ws & cs & gs & E & Hw & Hc & Hg);
      try (intros; reflexivity); try (rewrite Hn; vm_compute; reflexivity).
    change (Binary64.agents s0)
      with (fst (Binary64.initAgents Math_exp draws (Binary64.make_params raw) 0%nat)).
    rewrite E, !filter_app.
    rewrite (filter_all _ ws), (filter_none _ cs), (filter_none _ gs), !app_nil_r.
    + rewrite <- (Forall2_length Hw). vm_compute. reflexivity.
    + revert Hg. apply Forall2_Forall_right. intros ? ? H. exact H.
    + revert Hc. apply Forall2_Forall_right. intros ? ? H. exact H.
    + revert Hw. apply Forall2_Forall_right. intros ? ? H. exact H.
  - assert (Hu : Binary64.ubi_on (Binary64.params s0) = true).
    { unfold Binary64.ubi_on. change (Binary64.params s0) with (Binary64.make_params raw).
      rewrite Hubi. reflexivity. }
    pose proof (b64_worker_income_after_steps 5 s0 eq_refl Hu) as H.
    change (Binary64.params s0) with (Binary64.make_params raw) in H.
    rewrite Hubi in H. exact H.
  - apply (b64_five_steps_from_zero s0); reflexivity.
Qed.

(** The claim at the request [{nAgents: 100, ubi: 50}]. *)
Lemma ubi_scenario_100_agents_witness :
  let raw := Binary64.mkRawParams (Some 100%float) None None None (Some 50%float)
               None None in
  let s0 := Binary64.new_Simulation exp_steps64 sample_draws64 raw in
  let s5 := Binary64.handleStep (Binary64.mkStepRequest (Some 5%float) false) s0 in
  Binary64.nAgents (Binary64.make_params raw) = 100%float
  /\ Binary64.ubi (Binary64.make_params raw) = 50%float
  /\ length (filter Binary64.is_worker (Binary64.agents s0)) = 80%nat
  /\ Binary64.steps (Binary64.history s5) = [5%Z].
Proof.
  split; [reflexivity|]. split; [reflexivity|].
  pose proof (ubi_scenario_100_agents exp_steps64 sample_draws64
                (Binary64.mkRawParams (Some 100%float) None None None (Some 50%float)
                   None None)
                eq_refl eq_refl) as H.
  cbv zeta in H. destruct H as (Hw & _ & Hs & _).
  split; [exact Hw | exact Hs].
Defined.

(** Claim C8, as stated, fails on the running code.  A worker whose draw
    gives the initial income 100.00000000000003 (that is 100 + 2^-45) has
    the income 350 after the five steps: two of the five additions round.
    Its income has grown by 250 - 2^-45, not by 250, and the difference
    [after - before] evaluates to 249.99999999999997. *)
Lemma ubi_increase_is_not_exactly_250 :
  let draws := fun _ : nat => 0.5000000000000007%float in
  let raw := Binary64.mkRawParams (Some 100%float) None None None (Some 50%float)
               None None in
  let s0 := Binary64.new_Simulation exp_steps64 draws raw in
  let s5 := Binary64.handleStep (Binary64.mkStepRequest (Some 5%float) false) s0 in
  exists (a0 a5 : Binary64.Agent) (before after : Q),
    nth_error (Binary64.agents s0) 0 = Some a0
    /\ nth_error (Binary64.agents s5) 0 = Some a5
    /\ Binary64.is_worker a0 = true
    /\ Binary64.income a0 = 100.00000000000003%float
    /\ Binary64.income a5 = 350%float
    /\ Binary64.to_Q (Binary64.income a0) = Some before
    /\ Binary64.to_Q (Binary64.income a5) = Some after
    /\ after - before == 250 - (1 # 2 ^ 45)
    /\ ~ after == before + 250
    /\ (Binary64.income a5 - Binary64.income a0)%float = 249.99999999999997%float.
Proof.
  intros draws raw s0 s5.
  eexists. eexists. eexists. eexists.
  split; [vm_compute; reflexivity|].
  split; [vm_compute; reflexivity|].
  split; [reflexivity|]. split; [reflexivity|]. split; [reflexivity|].
  split; [vm_compute; reflexivity|]. split; [vm_compute; reflexivity|].
  split; [reflexivity|]. split; [intro H; discriminate H | reflexivity].
Qed.

(** On that worker the rounded sum hides the difference: the test
    [after === before + 250] succeeds, because [before + 250] rounds to 350
    as well. *)
Remark rounded_sum_hides_the_difference :
  (100.00000000000003 + 250 =? 350)%float = true
  /\ (350 - 100.00000000000003 =? 250)%float = false.
Proof. split; reflexivity. Qed.

(** ** The population for whole agent counts *)

Lemma holds_below_spec (f : Z -> bool) (bound : N) :
  holds_below f bound = true ->
  forall n, (0 <= n < Z.of_N bound)%Z -> f n = true.
Proof.
  unfold holds_below.
  set (step := fun st : Z * bool => ((fst st + 1)%Z, snd st && f (fst st))).
  assert (Hinv : forall k,
             fst (N.iter k step (0%Z, true)) = Z.of_N k
             /\ (snd (N.iter k step (0%Z, true)) = true ->
                 forall n, (0 <= n < Z.of_N k)%Z -> f n = true)).
  { induction k as [|k [IH1 IH2]] using N.peano_ind.
    - split; [reflexivity|]. intros _ n Hn. cbn in Hn. lia.
    - rewrite N.iter_succ. unfold step at 1 3. cbn [fst snd]. rewrite IH1.
      split; [lia|].
      intros H n Hn. apply andb_true_iff in H. destruct H as [H1 H2].
      destruct (Z.eq_dec n (Z.of_N k)) as [->|Hne]; [exact H2|].
      apply IH2; [exact H1 | lia]. }
  intros H n Hn. exact (proj2 (Hinv bound) H n Hn).
Qed.

(** For every whole agent count up to 100000 the bounds of the three loops
    come out in binary64 as in exact arithmetic: the products [n * 0.8] and
    [n * 0.999] are rounded, but never across a whole number. *)
Lemma bands_of_whole_counts (n : Z) :
  (0 <= n <= 100000)%Z ->
  let x := PrimFloat.of_uint63 (Uint63.of_Z n) in
  Binary64.Math_floor (x * 0.8)%float = Some (4 * n / 5)%Z
  /\ Binary64.Math_floor (x * 0.999)%float = Some (999 * n / 1000)%Z
  /\ Binary64.ceiling x = Some n.
Proof.
  intros Hn x.
  assert (H : holds_below bands_at 100001 = true) by (vm_compute; reflexivity).
  pose proof (holds_below_spec _ _ H n ltac:(lia)) as Hb.
  unfold bands_at in Hb. fold x in Hb.
  destruct (Binary64.Math_floor (x * 0.8)%float) as [b1|]; [|discriminate].
  destruct (Binary64.Math_floor (x * 0.999)%float) as [b2|]; [|discriminate].
  destruct (Binary64.ceiling x) as [top|]; [|discriminate].
  apply andb_true_iff in Hb. destruct Hb as [Hb H3].
  apply andb_true_iff in Hb. destruct Hb as [H1 H2].
  apply Z.eqb_eq in H1, H2, H3. subst. repeat split.
Qed.

Lemma length_filter_map {A B : Type} (g : A -> B) (q : B -> bool) (l : list A) :
  length (filter (fun a => q (g a)) l) = length (filter q (map g l)).
Proof.
  induction l as [|a rest IH]; simpl; [reflexivity|].
  destruct (q (g a)); simpl; rewrite IH; reflexivity.
Qed.

(** For every whole agent count [n] from 0 to 100000 the constructor of
    the binary64 engine builds exactly [n] agents with the ids 0, 1, ...,
    n - 1 in order: the first floor(4n/5) are workers, the next
    floor(999n/1000) - floor(4n/5) capitalists and the remaining
    n - floor(999n/1000) government agents. *)
Theorem population_is_partitioned :
  forall (Math_exp : float -> float) (draws : nat -> float)
         (raw : Binary64.RawParams) (n : Z),
    (0 <= n <= 100000)%Z ->
    Binary64.nAgents (Binary64.make_params raw) = PrimFloat.of_uint63 (Uint63.of_Z n) ->
    let ags := Binary64.agents (Binary64.new_Simulation Math_exp draws raw) in
    let workers := Z.to_nat (4 * n / 5) in
    let capitalists := Z.to_nat (999 * n / 1000 - 4 * n / 5) in
    let governments := Z.to_nat (n - 999 * n / 1000) in
    map Binary64.id ags = map Z.of_nat (seq 0 (Z.to_nat n))
    /\ map Binary64.type ags
       = repeat worker workers ++ repeat capitalist capitalists
         ++ repeat government governments
    /\ length (filter Binary64.is_worker ags) = workers
    /\ length (filter Binary64.is_capitalist ags) = capitalists
    /\ length (filter Binary64.is_government ags) = governments
    /\ (workers + capitalists + governments)%nat = Z.to_nat n.
Proof.
  intros Math_exp draws raw n Hn En ags workers capitalists governments.
  destruct (bands_of_whole_counts n Hn) as (E1 & E2 & E3).
  rewrite <- En in E1, E2, E3.
  destruct (b64_initial_bands Math_exp draws
              (fun i a => Binary64.id a = i /\ Binary64.type a = worker)
              (fun i a => Binary64.id a = i /\ Binary64.type a = capitalist)
              (fun i a => Binary64.id a = i /\ Binary64.type a = government)
              (Binary64.make_params raw) _ _ _
              ltac:(intros; split; reflexivity) ltac:(intros; split; reflexivity)
              ltac:(intros; split; reflexivity) E1 E2 E3)
    as (ws & cs & gs & E & Hw & Hc & Hg).
  change ags
    with (fst (Binary64.initAgents Math_exp draws (Binary64.make_params raw) 0%nat)).
  rewrite E. clear E ags.
  assert (Hdiv : (0 <= 4 * n / 5 <= 999 * n / 1000)%Z /\ (999 * n / 1000 <= n)%Z).
  { pose proof (Z.div_mod (4 * n) 5 ltac:(lia)).
    pose proof (Z.mod_pos_bound (4 * n) 5 ltac:(lia)).
    pose proof (Z.div_mod (999 * n) 1000 ltac:(lia)).
    pose proof (Z.mod_pos_bound (999 * n) 1000 ltac:(lia)). lia. }
  assert (Hids : forall t l l',
             Forall2 (fun i a => Binary64.id a = i /\ Binary64.type a = t) l l' ->
             map Binary64.id l' = l).
  { intros t l l' H. rewrite <- (map_id l). apply Forall2_map_eq.
    revert H. apply Forall2_impl. intros i a [H _]. exact H. }
  assert (Hid : map Binary64.id (ws ++ cs ++ gs) = map Z.of_nat (seq 0 (Z.to_nat n))).
  { rewrite !map_app, (Hids _ _ _ Hw), (Hids _ _ _ Hc), (Hids _ _ _ Hg).
    rewrite (loop_indices_app (4 * n / 5) (999 * n / 1000) (inject_Z n))
      by (rewrite ?Qceiling_Z; lia).
    rewrite (loop_indices_app 0 (4 * n / 5) (inject_Z n))
      by (rewrite ?Qceiling_Z; lia).
    unfold loop_indices. rewrite Qceiling_Z, Z.sub_0_r. reflexivity. }
  assert (Hty : map Binary64.type (ws ++ cs ++ gs)
                = map (fun _ => worker) (loop_indices 0 (inject_Z (4 * n / 5)))
                  ++ map (fun _ => capitalist)
                       (loop_indices (4 * n / 5) (inject_Z (999 * n / 1000)))
                  ++ map (fun _ => government)
                       (loop_indices (999 * n / 1000) (inject_Z n))).
  { rewrite !map_app. f_equal; [|f_equal]; apply Forall2_map_eq.
    - revert Hw. apply Forall2_impl. intros i a [_ H]. exact H.
    - revert Hc. apply Forall2_impl. intros i a [_ H]. exact H.
    - revert Hg. apply Forall2_impl. intros i a [_ H]. exact H. }
  assert (Hcount : forall q : AgentType -> bool,
             length (filter (fun a => q (Binary64.type a)) (ws ++ cs ++ gs))
             = ((if q worker then workers else 0)
                + (if q capitalist then capitalists else 0)
                + (if q government then governments else 0))%nat).
  { intro q. rewrite length_filter_map, Hty, count_in_bands, !length_loop_indices,
      !Qceiling_Z, Z.sub_0_r. reflexivity. }
  split; [exact Hid|]. split.
  - rewrite Hty, !map_const, !length_loop_indices, !Qceiling_Z, Z.sub_0_r. reflexivity.
  - pose proof (Hcount (fun t => AgentType_eqb t worker)) as Cw.
    pose proof (Hcount (fun t => AgentType_eqb t capitalist)) as Cc.
    pose proof (Hcount (fun t => AgentType_eqb t government)) as Cg.
    cbn [AgentType_eqb] in Cw, Cc, Cg.
    unfold Binary64.is_worker, Binary64.is_capitalist, Binary64.is_government.
    split; [rewrite Cw; lia|]. split; [rewrite Cc; lia|]. split; [rewrite Cg; lia|].
    unfold workers, capitalists, governments. lia.
Qed.

Lemma population_is_partitioned_witness :
  let raw := Binary64.mkRawParams (Some 12%float) None None None None None None in
  let ags := Binary64.agents (Binary64.new_Simulation exp_steps64 sample_draws64 raw) in
  (0 <= 12 <= 100000)%Z
  /\ Binary64.nAgents (Binary64.make_params raw) = PrimFloat.of_uint63 (Uint63.of_Z 12)
  /\ map Binary64.id ags = [0; 1; 2; 3; 4; 5; 6; 7; 8; 9; 10; 11]%Z
  /\ map Binary64.type ags
     = repeat worker 9 ++ repeat capitalist 2 ++ repeat government 1.
Proof.
  split; [lia|]. split; [reflexivity|].
  destruct (population_is_partitioned exp_steps64 sample_draws64
              (Binary64.mkRawParams (Some 12%float) None None None None None None)
              12 ltac:(lia) eq_refl) as (Hid & Hty & _).
  split; [exact Hid | exact Hty].
Defined.
